(** * Market-data acquisition and trade execution: a shallow embedding

    The development follows three source files:
    - [src/backend/indicators/taapi_cache.py]  (module [TAAPICache]),
    - [src/backend/indicators/taapi_client.py] (module [TAAPIClient]),
    - [src/backend/trading/okx_api.py]         (module [OKXAPI]).

    Python values that travel through the code (parsed JSON, indicator
    bundles) are a small inductive type.  Python floats are modelled by the
    exact rational they denote (plus the two infinities and NaN); the
    re-rounding to a binary double after an arithmetic operation is not
    modelled there.  Where the result of a float division decides what is
    sent to the exchange, the size of a market order, the floats are IEEE 754
    binary64 numbers and the division rounds as the machine does (module
    [OKXDouble]).  Exceptions are an explicit result type, and every method that
    touches the network, the clock or the object's fields is a function in a
    state-and-error monad. *)

From Stdlib Require Import ZArith QArith Qround Lqa String Ascii List Lia.
From Stdlib Require SpecFloat.
From stdpp Require Import base option list strings gmap fin_maps pretty.

Local Open Scope string_scope.
Set Warnings "-register-all".

(** ** Python values *)

Module Py.

Inductive pyfloat : Type :=
| FFin (q : Q)
| FInf (negative : bool)
| FNan.

Inductive pyval : Type :=
| PyNone
| PyBool (b : bool)
| PyInt (z : Z)
| PyFloat (f : pyfloat)
| PyStr (s : string)
| PyList (l : list pyval)
| PyDict (d : list (string * pyval)).

(** The exceptions the modelled code can meet. *)
Inductive exn : Type :=
| KeyError
| TypeError
| AttributeError
| IndexError
| RuntimeError (msg : string)
| HTTPError (status_code : Z)
| Timeout
| RequestException
| ExchangeError
| OverflowError
| ValueError.

Inductive res (A : Type) : Type :=
| Ret (a : A)
| Raise (e : exn).
Arguments Ret {A} a.
Arguments Raise {A} e.

(** [bool(v)]: Python truthiness. *)
Definition truthy (v : pyval) : bool :=
  match v with
  | PyNone => false
  | PyBool b => b
  | PyInt z => negb (z =? 0)%Z
  | PyFloat (FFin q) => negb (Qeq_bool q 0)
  | PyFloat _ => true
  | PyStr s => negb (String.eqb s "")
  | PyList l => match l with [] => false | _ => true end
  | PyDict d => match d with [] => false | _ => true end
  end.

(** [any(vs)] *)
Definition any (vs : list pyval) : bool := existsb truthy vs.

(** Dictionaries keep insertion order; a key occurs at most once. *)
Fixpoint assoc (d : list (string * pyval)) (k : string) : option pyval :=
  match d with
  | [] => None
  | (k', v) :: d' => if String.eqb k' k then Some v else assoc d' k
  end.

(** [d[k] = v] *)
Fixpoint assoc_set (d : list (string * pyval)) (k : string) (v : pyval)
  : list (string * pyval) :=
  match d with
  | [] => [(k, v)]
  | (k', v') :: d' =>
      if String.eqb k' k then (k, v) :: d' else (k', v') :: assoc_set d' k v
  end.

Definition isinstance_dict (v : pyval) : bool :=
  match v with PyDict _ => true | _ => false end.

Definition isinstance_list (v : pyval) : bool :=
  match v with PyList _ => true | _ => false end.

(** [isinstance(v, (int, float))]; [bool] is a subclass of [int]. *)
Definition isinstance_int_float (v : pyval) : bool :=
  match v with PyBool _ | PyInt _ | PyFloat _ => true | _ => false end.

(** [k in v] for a string [k] and a dictionary [v]. *)
Definition dict_contains (v : pyval) (k : string) : bool :=
  match v with
  | PyDict d => match assoc d k with Some _ => true | None => false end
  | _ => false
  end.

(** [v[k]] for a string key: [KeyError] when the key is missing,
    [TypeError] when [v] is not a dictionary. *)
Definition getitem (v : pyval) (k : string) : res pyval :=
  match v with
  | PyDict d => match assoc d k with Some x => Ret x | None => Raise KeyError end
  | _ => Raise TypeError
  end.

(** [v.get(k)]: only dictionaries have the method. *)
Definition dict_get (v : pyval) (k : string) : res pyval :=
  match v with
  | PyDict d => match assoc d k with Some x => Ret x | None => Ret PyNone end
  | _ => Raise AttributeError
  end.

(** [v.get(k, default)] *)
Definition dict_get_default (v : pyval) (k : string) (dflt : pyval) : res pyval :=
  match v with
  | PyDict d => match assoc d k with Some x => Ret x | None => Ret dflt end
  | _ => Raise AttributeError
  end.

(** Round half to even, the rule of Python's [round]. *)
Definition round_half_even (q : Q) : Z :=
  let f := Qfloor q in
  match ((q - inject_Z f) ?= (1 # 2))%Q with
  | Lt => f
  | Gt => (f + 1)%Z
  | Eq => if Z.even f then f else (f + 1)%Z
  end.

Definition round4_float (f : pyfloat) : pyfloat :=
  match f with
  | FFin q => FFin (Qmake (round_half_even (q * 10000)%Q) 10000)
  | FInf _ | FNan => f
  end.

(** [round(v, 4)]: an [int] is returned as it is (a [bool] as the [int] it
    is), a [float] is rounded; any other value has no [__round__]. *)
Definition round4 (v : pyval) : res pyval :=
  match v with
  | PyBool b => Ret (PyInt (if b then 1 else 0))
  | PyInt z => Ret (PyInt z)
  | PyFloat f => Ret (PyFloat (round4_float f))
  | _ => Raise TypeError
  end.

(** [int(q)] truncates towards zero. *)
Definition int_of_float (q : Q) : Z := Z.quot (Qnum q) (Z.pos (Qden q)).

End Py.
Import Py.

(** ** A state-and-error monad for the methods *)

Definition M (S A : Type) : Type := S -> res A * S.

Definition ret {S A} (a : A) : M S A := fun s => (Ret a, s).

Definition raise {S A} (e : exn) : M S A := fun s => (Raise e, s).

Definition bind {S A B} (m : M S A) (k : A -> M S B) : M S B :=
  fun s =>
    match m s with
    | (Ret a, s') => k a s'
    | (Raise e, s') => (Raise e, s')
    end.

(** [try: m  except Exception as e: h e]: the state changes made before the
    exception stay. *)
Definition try_except {S A} (m : M S A) (h : exn -> M S A) : M S A :=
  fun s =>
    match m s with
    | (Ret a, s') => (Ret a, s')
    | (Raise e, s') => h e s'
    end.

Definition gets {S A} (f : S -> A) : M S A := fun s => (Ret (f s), s).

Definition modify {S} (f : S -> S) : M S unit := fun s => (Ret tt, f s).

(** A pure computation that may raise, run inside the monad. *)
Definition lift {S A} (r : res A) : M S A := fun s => (r, s).

Notation "'do' x <- m ; k" := (bind m (fun x => k))
  (at level 10, x name, m at level 100, k at level 200, only parsing).

(** The computation [m] started in [s] ends without an exception. *)
Definition returns {S A} (m : M S A) (s : S) : Prop :=
  exists a s', m s = (Ret a, s').

(** Bind of the pure result type, for methods that touch no state. *)
Definition rbind {A B} (r : res A) (k : A -> res B) : res B :=
  match r with
  | Ret a => k a
  | Raise e => Raise e
  end.

Notation "'do?' x <- r ; k" := (rbind r (fun x => k))
  (at level 10, x name, r at level 100, k at level 200, only parsing).

(** A list comprehension / [for] loop whose body may raise. *)
Fixpoint mapM {A B} (f : A -> res B) (l : list A) : res (list B) :=
  match l with
  | [] => Ret []
  | a :: l' => do? b <- f a ; do? bs <- mapM f l' ; Ret (b :: bs)
  end.

Fixpoint foldM {A B} (f : B -> A -> res B) (l : list A) (acc : B) : res B :=
  match l with
  | [] => Ret acc
  | a :: l' => do? acc' <- f acc a ; foldM f l' acc'
  end.

(** ** taapi_cache.py *)

Module TAAPICache.

(** One cache entry: [{'timestamp': ..., 'data': ...}]. *)
Record entry : Type := Entry { timestamp : Q; data : pyval }.

(** The object: [self.ttl] and [self._cache]. *)
Record t : Type := Cache { ttl : Q; _cache : gmap string entry }.

(** [TAAPICache(ttl)] *)
Definition init (ttl : Q) : t := Cache ttl ∅.

(** [f"{asset}:{interval}"] *)
Definition key (asset interval : string) : string :=
  asset +:+ ":" +:+ interval.

(** [get]; [now] is what [time.time()] returns during the call. *)
Definition get (self : t) (now : Q) (asset interval : string)
  : option pyval * t :=
  let k := key asset interval in
  match _cache self !! k with
  | None => (None, self)
  | Some e =>
      let age := (now - timestamp e)%Q in
      if negb (Qle_bool age (ttl self))
      then (None, Cache (ttl self) (delete k (_cache self)))
      else (Some (data e), self)
  end.

(** [set] *)
Definition set (self : t) (now : Q) (asset interval : string) (d : pyval) : t :=
  let k := key asset interval in
  Cache (ttl self) (<[k := Entry now d]> (_cache self)).

(** [clear] *)
Definition clear (self : t) : t := Cache (ttl self) ∅.

Record stats_t : Type := Stats {
  total_entries : nat;
  active_entries : nat;
  expired_entries : nat;
  ttl_seconds : Q
}.

(** The body of the loop of [stats], on the counters [(active, expired)]. *)
Definition stats_step (ttl now : Q) (e : entry) (acc : nat * nat) : nat * nat :=
  let age := (now - timestamp e)%Q in
  if Qle_bool age ttl then (S (fst acc), snd acc) else (fst acc, S (snd acc)).

(** [stats]: the report and the object after the call.  The loop runs over
    [self._cache.values()]. *)
Definition stats (self : t) (now : Q) : stats_t * t :=
  let counters :=
    map_fold (fun _ e acc => stats_step (ttl self) now e acc) (0, 0) (_cache self) in
  (Stats (size (_cache self)) (fst counters) (snd counters) (ttl self), self).

(** An entry is active at [now] when its age is at most the ttl. *)
Definition active (ttl now : Q) (e : entry) : Prop :=
  (now - timestamp e <= ttl)%Q.

#[global] Instance active_dec (ttl now : Q) (e : entry) : Decision (active ttl now e).
Proof.
  unfold active.
  destruct (Qlt_le_dec ttl (now - timestamp e)) as [Hlt | Hle].
  - right. apply Qlt_not_le, Hlt.
  - left. exact Hle.
Defined.

(** The operations a caller can apply to the cache, each with the clock
    reading of its call, and the cache a sequence of them leaves. *)
Inductive op : Type :=
| OpSet (now : Q) (asset interval : string) (d : pyval)
| OpGet (now : Q) (asset interval : string)
| OpStats (now : Q)
| OpClear.

Definition step (self : t) (o : op) : t :=
  match o with
  | OpSet now asset interval d => set self now asset interval d
  | OpGet now asset interval => snd (get self now asset interval)
  | OpStats now => snd (stats self now)
  | OpClear => clear self
  end.

Definition run (ops : list op) (self : t) : t := fold_left step ops self.

(** The key strings written by a sequence of operations. *)
Definition stored_keys (ops : list op) : list string :=
  flat_map (fun o => match o with
                     | OpSet _ asset interval _ => [key asset interval]
                     | _ => []
                     end) ops.

End TAAPICache.

(** ** taapi_client.py *)

Module TAAPIClient.

(** [for x in v]: the elements of a list, the keys of a dictionary, the
    characters of a string; anything else is not iterable. *)
Definition iter (v : pyval) : res (list pyval) :=
  match v with
  | PyList l => Ret l
  | PyDict d => Ret (map (fun kv => PyStr (fst kv)) d)
  | PyStr s => Ret (map (fun c => PyStr (String c EmptyString)) (list_ascii_of_string s))
  | _ => Raise TypeError
  end.

(** *** What the client does to the outside world *)

Inductive event : Type :=
| GetRequest (url : string) (params : pyval) (timeout : Z)
| PostRequest (url : string) (payload : pyval) (timeout : Z)
| Sleep (seconds : Q).

(** What one [requests.get] / [requests.post] call meets: a response with a
    status code and a body that parses as JSON or does not, a timeout, or
    another failure of the transport. *)
Inductive outcome : Type :=
| Response (status_code : Z) (json : option pyval)
| TimedOut
| ConnectionFailed.

(** The process state a method runs in: the shared cache object ([None] when
    [self.cache] is [None]), the clock read by [time.time()], and the
    requests and sleeps made so far.  Only [time.sleep] advances the clock. *)
Record state : Type := State {
  cache : option TAAPICache.t;
  clock : Q;
  wire : list event
}.

(** The fields of the client object. *)
Record client : Type := Client {
  api_key : string;
  enable_cache : bool
}.

Definition base_url : string := "https://api.taapi.io/".
Definition bulk_url : string := "https://api.taapi.io/bulk".

Definition is_request (e : event) : bool :=
  match e with Sleep _ => false | _ => true end.

Section Network.

(** The provider: its answer to a request, given everything the client did
    before. *)
Variable net : list event -> event -> outcome.

(** [requests.get(...)] / [requests.post(...)] *)
Definition send (rq : event) : M state (Z * option pyval) :=
  fun s =>
    let s' := State (cache s) (clock s) (wire s ++ [rq]) in
    match net (wire s) rq with
    | Response code body => (Ret (code, body), s')
    | TimedOut => (Raise Timeout, s')
    | ConnectionFailed => (Raise RequestException, s')
    end.

(** [resp.raise_for_status()] *)
Definition raise_for_status (resp : Z * option pyval) : res unit :=
  let code := fst resp in
  if ((400 <=? code) && (code <? 600))%Z then Raise (HTTPError code) else Ret tt.

(** [resp.json()] *)
Definition json (resp : Z * option pyval) : res pyval :=
  match snd resp with
  | Some v => Ret v
  | None => Raise RequestException
  end.

(** [time.sleep(seconds)] *)
Definition time_sleep (seconds : Q) : M state unit :=
  modify (fun s => State (cache s) (clock s + seconds)%Q (wire s ++ [Sleep seconds])).

(** The loop [for attempt in range(retries)] shared by [_get_with_retry] and
    [_post_with_retry]; [attempts] is what is left of [range(retries)]. *)
Fixpoint retry_loop (rq : event) (retries : nat) (backoff : Q)
    (attempts : list nat) : M state pyval :=
  match attempts with
  | [] => raise (RuntimeError "Max retries exceeded")
  | attempt :: rest =>
      try_except
        (do resp <- send rq ;
         do _ <- lift (raise_for_status resp) ;
         lift (json resp))
        (fun e =>
           match e with
           | HTTPError code =>
               if ((code =? 429) || (500 <=? code))%Z
                  && (Z.of_nat attempt <? Z.of_nat retries - 1)%Z
               then do _ <- time_sleep backoff ; retry_loop rq retries backoff rest
               else raise e
           | Timeout =>
               if (Z.of_nat attempt <? Z.of_nat retries - 1)%Z
               then do _ <- time_sleep backoff ; retry_loop rq retries backoff rest
               else raise e
           | _ => raise e
           end)
  end.

Definition _get_with_retry (url : string) (params : pyval)
    (retries : nat) (backoff : Q) : M state pyval :=
  retry_loop (GetRequest url params 10) retries backoff (seq 0 retries).

Definition _post_with_retry (url : string) (payload : pyval)
    (retries : nat) (backoff : Q) : M state pyval :=
  retry_loop (PostRequest url payload 15) retries backoff (seq 0 retries).

(** The defaults [retries=10, backoff=5.0], which every caller uses. *)
Definition default_retries : nat := 10.
Definition default_backoff : Q := 5.

(** *** The retry policy, as the specification words it *)

(** The failures the policy retries: HTTP 429, a server error, a timeout.
    ([raise_for_status] raises for the codes 400 to 599.) *)
Definition retryable (o : outcome) : bool :=
  match o with
  | Response code _ =>
      ((400 <=? code) && (code <? 600) && ((code =? 429) || (500 <=? code)))%Z
  | TimedOut => true
  | ConnectionFailed => false
  end.

(** What a single attempt that is not retried hands to the caller. *)
Definition result_of (o : outcome) : res pyval :=
  match o with
  | Response code body =>
      if ((400 <=? code) && (code <? 600))%Z then Raise (HTTPError code)
      else match body with
           | Some v => Ret v
           | None => Raise RequestException
           end
  | TimedOut => Raise Timeout
  | ConnectionFailed => Raise RequestException
  end.

(** [k] failed attempts, each followed by one sleep of [backoff]. *)
Fixpoint rounds (rq : event) (backoff : Q) (k : nat) : list event :=
  match k with
  | O => []
  | S k' => rq :: Sleep backoff :: rounds rq backoff k'
  end.

(** The outcome of attempt number [i] of a call that starts in state [s]. *)
Definition attempt_outcome (rq : event) (backoff : Q) (s : state) (i : nat) : outcome :=
  net (wire s ++ rounds rq backoff i) rq.

(** A run of the request layer from [s] that follows the policy: attempt
    [k < retries] is the last one; the attempts before it failed in a
    retryable way and were each followed by one sleep of [backoff]; the last
    attempt either is not a retryable failure or uses up the budget, and its
    result is the result of the call. *)
Definition follows_retry_policy (rq : event) (retries : nat) (backoff : Q)
    (s : state) (out : res pyval * state) : Prop :=
  exists k,
    k < retries /\
    (forall i, i < k -> retryable (attempt_outcome rq backoff s i) = true) /\
    (k = retries - 1 \/ retryable (attempt_outcome rq backoff s k) = false) /\
    fst out = result_of (attempt_outcome rq backoff s k) /\
    wire (snd out) = (wire s ++ rounds rq backoff k ++ [rq])%list /\
    clock (snd out) = Nat.iter k (fun c => (c + backoff)%Q) (clock s) /\
    cache (snd out) = cache s.

(** The number of requests among the events. *)
Definition requests_made (w : list event) : nat :=
  length (List.filter is_request w).

(** *** Normalisation *)

Definition _extract_series (data : pyval) (value_key : string) : res pyval :=
  if negb (truthy data) then Ret (PyList [])
  else if isinstance_dict data && dict_contains data value_key then
    do? values <- getitem data value_key ;
    if isinstance_list values then
      do? vs <- iter values ;
      do? out <- mapM (fun v => if isinstance_int_float v then round4 v else Ret v) vs ;
      Ret (PyList out)
    else Ret (PyList [])
  else Ret (PyList []).

Definition _extract_value (data : pyval) (value_key : string) : res pyval :=
  if negb (truthy data) then Ret PyNone
  else if isinstance_dict data && dict_contains data value_key then
    do? val <- getitem data value_key ;
    if isinstance_int_float val then round4 val else Ret val
  else Ret PyNone.

(** What the specification calls rounding a value to 4 decimals: an integer
    stays, a finite float moves to a nearest multiple of 1/10000, and a
    value that is not a number is left as it is. *)
Inductive rounded_to_4 : pyval -> pyval -> Prop :=
| rounded_int (z : Z) : rounded_to_4 (PyInt z) (PyInt z)
| rounded_bool (b : bool) : rounded_to_4 (PyBool b) (PyInt (if b then 1 else 0))
| rounded_float (q : Q) (n : Z) :
    (q * 10000 - (1 # 2) <= inject_Z n)%Q ->
    (inject_Z n <= q * 10000 + (1 # 2))%Q ->
    rounded_to_4 (PyFloat (FFin q)) (PyFloat (FFin (Qmake n 10000)))
| rounded_inf (neg : bool) : rounded_to_4 (PyFloat (FInf neg)) (PyFloat (FInf neg))
| rounded_nan : rounded_to_4 (PyFloat FNan) (PyFloat FNan)
| rounded_other (v : pyval) : isinstance_int_float v = false -> rounded_to_4 v v.

(** *** Bulk fetch *)

(** One turn of the loop building the request: [indicator_def]. *)
Definition indicator_def (config : pyval) : res pyval :=
  do? ind <- getitem config "indicator" ;
  do? id <- dict_get_default config "id" ind ;
  do? ind' <- getitem config "indicator" ;
  let d0 := [("id", id); ("indicator", ind')] in
  do? d1 <- (if dict_contains config "period"
          then do? p <- getitem config "period" ; Ret (assoc_set d0 "period" p)
          else Ret d0) ;
  do? d2 <- (if dict_contains config "results"
          then do? p <- getitem config "results" ; Ret (assoc_set d1 "results" p)
          else Ret d1) ;
  do? d3 <- (if dict_contains config "backtrack"
          then do? p <- getitem config "backtrack" ; Ret (assoc_set d2 "backtrack" p)
          else Ret d2) ;
  Ret (PyDict d3).

(** [results[indicator_id] = value].  A list or a dictionary is not
    hashable.  A number used as an id is stored by Python under a key that is
    not a string; no lookup of this module (they are all by string) can see
    such an entry, and the string-keyed dictionaries of this model leave it
    out. *)
Definition results_set (results : list (string * pyval)) (indicator_id v : pyval)
  : res (list (string * pyval)) :=
  match indicator_id with
  | PyStr k => Ret (assoc_set results k v)
  | PyList _ | PyDict _ => Raise TypeError
  | _ => Ret results
  end.

(** The loop [for item in response["data"]]. *)
Definition parse_item (results : list (string * pyval)) (item : pyval)
  : res (list (string * pyval)) :=
  do? indicator_id <- dict_get item "id" ;
  if truthy indicator_id
  then do? r <- dict_get item "result" ; results_set results indicator_id r
  else Ret results.

Definition parse_results (response : pyval) : res (list (string * pyval)) :=
  if isinstance_dict response && dict_contains response "data" then
    do? d <- getitem response "data" ;
    do? items <- iter d ;
    foldM parse_item items []
  else Ret [].

Definition bulk_payload (self : client) (symbol interval : string)
    (indicators : list pyval) : pyval :=
  PyDict [("secret", PyStr (api_key self));
          ("construct", PyDict [("exchange", PyStr "binance");
                                ("symbol", PyStr symbol);
                                ("interval", PyStr interval);
                                ("indicators", PyList indicators)])].

(** [fetch_bulk_indicators]; the two debug log lines have no effect. *)
Definition fetch_bulk_indicators (self : client) (symbol interval : string)
    (indicators_config : list pyval) : M state pyval :=
  try_except
    (do indicators <- lift (mapM indicator_def indicators_config) ;
     let payload := bulk_payload self symbol interval indicators in
     do response <- _post_with_retry bulk_url payload default_retries default_backoff ;
     do results <- lift (parse_results response) ;
     ret (PyDict results))
    (fun _ => ret (PyDict [])).

(** *** The two-horizon bundle *)

(** [self.cache.get(asset, interval)], read at the current clock; Python's
    [None] stands for a miss. *)
Definition cache_get (asset interval : string) : M state pyval :=
  fun s =>
    match cache s with
    | None => (Raise AttributeError, s)
    | Some c =>
        let r := TAAPICache.get c (clock s) asset interval in
        (Ret (from_option id PyNone (fst r)), State (Some (snd r)) (clock s) (wire s))
    end.

(** [self.cache.set(asset, interval, data)] *)
Definition cache_set (asset interval : string) (d : pyval) : M state unit :=
  fun s =>
    match cache s with
    | None => (Raise AttributeError, s)
    | Some c =>
        (Ret tt, State (Some (TAAPICache.set c (clock s) asset interval d))
                       (clock s) (wire s))
    end.

(** [self.enable_cache and self.cache] as a condition. *)
Definition cache_on (self : client) : M state bool :=
  gets (fun s => enable_cache self && bool_decide (is_Some (cache s))).

Definition indicators_5m : list pyval :=
  [ PyDict [("id", PyStr "ema20"); ("indicator", PyStr "ema");
            ("period", PyInt 20); ("results", PyInt 5)];
    PyDict [("id", PyStr "macd"); ("indicator", PyStr "macd"); ("results", PyInt 5)];
    PyDict [("id", PyStr "rsi7"); ("indicator", PyStr "rsi");
            ("period", PyInt 7); ("results", PyInt 5)];
    PyDict [("id", PyStr "rsi14"); ("indicator", PyStr "rsi");
            ("period", PyInt 14); ("results", PyInt 5)] ].

Definition indicators_4h : list pyval :=
  [ PyDict [("id", PyStr "ema20"); ("indicator", PyStr "ema"); ("period", PyInt 20)];
    PyDict [("id", PyStr "ema50"); ("indicator", PyStr "ema"); ("period", PyInt 50)];
    PyDict [("id", PyStr "atr3"); ("indicator", PyStr "atr"); ("period", PyInt 3)];
    PyDict [("id", PyStr "atr14"); ("indicator", PyStr "atr"); ("period", PyInt 14)];
    PyDict [("id", PyStr "macd"); ("indicator", PyStr "macd"); ("results", PyInt 5)];
    PyDict [("id", PyStr "rsi14"); ("indicator", PyStr "rsi");
            ("period", PyInt 14); ("results", PyInt 5)] ].

(** [self._extract_series(bulk.get(id), value_key)] *)
Definition series_of (bulk : pyval) (id value_key : string) : res pyval :=
  do? d <- dict_get bulk id ; _extract_series d value_key.

(** [self._extract_value(bulk.get(id))] *)
Definition value_of (bulk : pyval) (id : string) : res pyval :=
  do? d <- dict_get bulk id ; _extract_value d "value".

(** The block under [try:] that looks for missing indicators; the warning
    it logs has no effect. *)
Definition check_usable (asset : string) (r5 rlt : pyval) : res unit :=
  do? ema20_5m <- dict_get r5 "ema20" ;
  do? macd_5m <- dict_get r5 "macd" ;
  do? rsi7_5m <- dict_get r5 "rsi7" ;
  do? rsi14_5m <- dict_get r5 "rsi14" ;
  do? ema20_lt <- dict_get rlt "ema20" ;
  do? ema50_lt <- dict_get rlt "ema50" ;
  do? atr3_lt <- dict_get rlt "atr3" ;
  do? atr14_lt <- dict_get rlt "atr14" ;
  do? macd_lt <- dict_get rlt "macd" ;
  do? rsi14_lt <- dict_get rlt "rsi14" ;
  let all_5m_empty := negb (any [ema20_5m; macd_5m; rsi7_5m; rsi14_5m]) in
  let all_lt_empty :=
    negb (any [ema20_lt; ema50_lt; atr3_lt; atr14_lt; macd_lt; rsi14_lt]) in
  if all_5m_empty || all_lt_empty then
    if all_5m_empty && all_lt_empty
    then Raise (RuntimeError ("TAAPI returned no usable indicators for " +:+ asset))
    else Ret tt
  else Ret tt.

(** The first part of [fetch_asset_indicators]: the probe of the cache for
    both intervals. *)
Definition cache_probe (self : client) (asset : string) : M state (option pyval) :=
  let long_term_interval := "4h" in
  do use_cache <- cache_on self ;
  if use_cache then
    do cached_5m <- cache_get asset "5m" ;
    do cached_long_term <- cache_get asset long_term_interval ;
    if truthy cached_5m && truthy cached_long_term
    then ret (Some (PyDict [("5m", cached_5m);
                            (long_term_interval, cached_long_term)]))
    else ret None
  else ret None.

(** The rest of it: the two bulk requests, the normalisation, the check
    for missing indicators and the write to the cache. *)
Definition fetch_fresh (self : client) (asset : string) : M state pyval :=
  let long_term_interval := "4h" in
  let symbol := asset +:+ "/USDT" in
  do bulk_5m <- fetch_bulk_indicators self symbol "5m" indicators_5m ;
  do ema20 <- lift (series_of bulk_5m "ema20" "value") ;
  do macd <- lift (series_of bulk_5m "macd" "valueMACD") ;
  do rsi7 <- lift (series_of bulk_5m "rsi7" "value") ;
  do rsi14 <- lift (series_of bulk_5m "rsi14" "value") ;
  let r5 := PyDict [("ema20", ema20); ("macd", macd);
                    ("rsi7", rsi7); ("rsi14", rsi14)] in
  do _ <- time_sleep 30 ;
  do bulk_4h <- fetch_bulk_indicators self symbol "4h" indicators_4h ;
  do ema20' <- lift (value_of bulk_4h "ema20") ;
  do ema50' <- lift (value_of bulk_4h "ema50") ;
  do atr3' <- lift (value_of bulk_4h "atr3") ;
  do atr14' <- lift (value_of bulk_4h "atr14") ;
  do macd' <- lift (series_of bulk_4h "macd" "valueMACD") ;
  do rsi14' <- lift (series_of bulk_4h "rsi14" "value") ;
  let rlt := PyDict [("ema20", ema20'); ("ema50", ema50'); ("atr3", atr3');
                     ("atr14", atr14'); ("macd", macd'); ("rsi14", rsi14')] in
  do _ <- try_except (lift (check_usable asset r5 rlt)) (fun _ => ret tt) ;
  do use_cache <- cache_on self ;
  do _ <- (if use_cache then
             do _ <- cache_set asset "5m" r5 ;
             cache_set asset long_term_interval rlt
           else ret tt) ;
  ret (PyDict [("5m", r5); (long_term_interval, rlt)]).

Definition fetch_asset_indicators (self : client) (asset : string) : M state pyval :=
  do hit <- cache_probe self asset ;
  match hit with
  | Some cached => ret cached
  | None => fetch_fresh self asset
  end.

End Network.

End TAAPIClient.

(** ** Python string methods used by okx_api.py *)

Module PyString.

(** [s.startswith(pat)] *)
Fixpoint startswith (pat s : string) : bool :=
  match pat, s with
  | EmptyString, _ => true
  | String _ _, EmptyString => false
  | String c pat', String d s' => Ascii.eqb c d && startswith pat' s'
  end.

(** [pat in s] *)
Fixpoint contains (pat s : string) : bool :=
  startswith pat s ||
  match s with
  | EmptyString => false
  | String _ s' => contains pat s'
  end.

(** [s.split(sep)[0]] for a one-character separator: what comes before the
    first [sep], all of [s] when there is none. *)
Fixpoint split_head (sep : ascii) (s : string) : string :=
  match s with
  | EmptyString => EmptyString
  | String c s' => if Ascii.eqb c sep then EmptyString else String c (split_head sep s')
  end.

(** [s.replace(old, new)] for a non-empty [old]: occurrences are found from
    the left and do not overlap; [skip] counts the characters of the
    occurrence just replaced that are still to be passed over. *)
Fixpoint replace_go (old new s : string) (skip : nat) : string :=
  match s with
  | EmptyString => EmptyString
  | String c s' =>
      match skip with
      | S k => replace_go old new s' k
      | O =>
          if startswith old s
          then new +:+ replace_go old new s' (String.length old - 1)
          else String c (replace_go old new s' 0)
      end
  end.

Definition replace (old new s : string) : string := replace_go old new s 0.

End PyString.

(** ** okx_api.py *)

Module OKXAPI.

Import PyString.

(** *** Symbol mapping *)

Definition _get_symbol (asset : string) : string :=
  if contains "/" asset then asset else asset +:+ "/USDT:USDT".

Definition _get_inst_id (asset : string) : string :=
  if contains "-SWAP" asset then asset else asset +:+ "-USDT-SWAP".

Definition _get_asset_from_symbol (symbol : string) : string :=
  if contains "/" symbol then split_head "/" symbol
  else if contains "-USDT-SWAP" symbol then replace "-USDT-SWAP" "" symbol
  else symbol.

(** *** The session and the exchange *)

(** The two values [self._position_mode] takes besides [None]:
    ['net_mode'] and ['long_short_mode']. *)
Inductive PositionMode : Type := net_mode | long_short_mode.

(** The calls made on [self.exchange] that reach the network. *)
Inductive call : Type :=
| load_markets
| private_get_account_config
| create_order (symbol type side : string) (amount : Z)
    (params : list (string * string))
| private_post_trade_order_algo (params : list (string * string)).

(** The fields of the object that the modelled methods read and write, and
    the calls made so far. *)
Record state : Type := State {
  markets_loaded : bool;
  _position_mode : option PositionMode;
  calls : list call
}.

(** [OKXAPI()] *)
Definition init : state := State false None [].

(** An entry of the market table: its ['contractSize'], [None] when the
    entry has no usable number there. *)
Record Market : Type := { contractSize : option Q }.

Definition is_order (c : call) : bool :=
  match c with
  | create_order _ _ _ _ _ | private_post_trade_order_algo _ => true
  | _ => false
  end.

Section Exchange.

(** The exchange: its answer to a call given the calls made before ([None]:
    the call raises), and its market table. *)
Variable answer : list call -> call -> option pyval.
Variable markets : string -> option Market.

(** [str(x)] of a float, used for the trigger price. *)
Variable float_str : Q -> string.

Definition exchange_call (c : call) : M state pyval :=
  fun s =>
    let s' := State (markets_loaded s) (_position_mode s) (calls s ++ [c]) in
    match answer (calls s) c with
    | Some v => (Ret v, s')
    | None => (Raise ExchangeError, s')
    end.

Definition _ensure_markets : M state unit :=
  do loaded <- gets markets_loaded ;
  if negb loaded then
    try_except
      (do _ <- exchange_call load_markets ;
       modify (fun s => State true (_position_mode s) (calls s)))
      (fun e => raise e)
  else ret tt.

(** [_get_contract_value]: the lookup in the market table raises for an
    unknown symbol, and [float(...)] raises on a [None]; both end in the
    [except] branch. *)
Definition _get_contract_value (symbol : string) : M state Q :=
  do _ <- _ensure_markets ;
  try_except
    (match markets symbol with
     | None => raise ExchangeError
     | Some market =>
         match contractSize market with
         | Some q => ret q
         | None => raise TypeError
         end
     end)
    (fun _ => ret 1%Q).

(** [v[0]] *)
Definition index0 (v : pyval) : res pyval :=
  match v with
  | PyList (x :: _) => Ret x
  | PyList [] => Raise IndexError
  | PyStr (String c _) => Ret (PyStr (String c EmptyString))
  | PyStr EmptyString => Raise IndexError
  | PyDict _ => Raise KeyError
  | _ => Raise TypeError
  end.

(** The reading of the account configuration, up to [pos_mode]. *)
Definition read_pos_mode (res : pyval) : Py.res pyval :=
  do? d <- dict_get res "data" ;
  let data_list := if truthy d then d else PyList [] in
  do? data <- (if truthy data_list then index0 data_list else Ret (PyDict [])) ;
  dict_get data "posMode".

Definition set_position_mode (m : PositionMode) : M state unit :=
  modify (fun s => State (markets_loaded s) (Some m) (calls s)).

(** [pos_mode in ("net_mode", "long_short_mode")], with the mode it names. *)
Definition recognised (pos_mode : pyval) : option PositionMode :=
  match pos_mode with
  | PyStr s =>
      if String.eqb s "net_mode" then Some net_mode
      else if String.eqb s "long_short_mode" then Some long_short_mode
      else None
  | _ => None
  end.

Definition _ensure_position_mode : M state unit :=
  do mode <- gets _position_mode ;
  match mode with
  | Some _ => ret tt
  | None =>
      try_except
        (do res <- exchange_call private_get_account_config ;
         do pos_mode <- lift (read_pos_mode res) ;
         match recognised pos_mode with
         | Some m => set_position_mode m
         | None => set_position_mode net_mode
         end)
        (fun _ => set_position_mode net_mode)
  end.

(** [amount / ct_val] turned into contracts. *)
Definition contracts (amount ct_val : Q) : Z := int_of_float (amount / ct_val).

Definition too_small : pyval :=
  PyDict [("code", PyStr "error"); ("msg", PyStr "Amount too small")].

Definition _place_market_order (asset side : string) (amount : Q) : M state pyval :=
  do _ <- _ensure_markets ;
  do _ <- _ensure_position_mode ;
  let symbol := _get_symbol asset in
  do ct_val <- _get_contract_value symbol ;
  let sz_contracts :=
    if negb (Qle_bool ct_val 0) then contracts amount ct_val else 1%Z in
  if (sz_contracts =? 0)%Z then ret too_small
  else
    try_except
      (do mode <- gets _position_mode ;
       let params :=
         ([("tdMode", "cross")] ++
          match mode with
          | Some long_short_mode =>
              [("posSide", if String.eqb side "buy" then "long" else "short")]
          | _ => []
          end)%list in
       exchange_call (create_order symbol "market" side sz_contracts params))
      (fun e => raise e).

Definition place_buy_order (asset : string) (amount : Q) : M state pyval :=
  _place_market_order asset "buy" amount.

Definition place_sell_order (asset : string) (amount : Q) : M state pyval :=
  _place_market_order asset "sell" amount.

(** The parameters of a conditional order; [trigger_key] and [price_key]
    are ['tpTriggerPx'], ['tpOrdPx'] for a take-profit and ['slTriggerPx'],
    ['slOrdPx'] for a stop-loss. *)
Definition algo_params (trigger_key price_key inst_id side sz_contracts : string)
    (trigger : Q) (mode : option PositionMode) (is_buy : bool)
  : list (string * string) :=
  ([("instId", inst_id); ("tdMode", "cross"); ("side", side);
    ("ordType", "conditional"); ("sz", sz_contracts);
    (trigger_key, float_str trigger); (price_key, "-1")] ++
   match mode with
   | Some long_short_mode => [("posSide", if is_buy then "long" else "short")]
   | _ => []
   end)%list.

Definition place_take_profit (asset : string) (is_buy : bool) (amount tp_price : Q)
  : M state pyval :=
  do _ <- _ensure_markets ;
  do _ <- _ensure_position_mode ;
  let inst_id := _get_inst_id asset in
  let symbol := _get_symbol asset in
  do ct_val <- _get_contract_value symbol ;
  let sz_contracts :=
    if negb (Qle_bool ct_val 0) then pretty (contracts amount ct_val) else "1" in
  let side := if is_buy then "sell" else "buy" in
  do mode <- gets _position_mode ;
  let params :=
    algo_params "tpTriggerPx" "tpOrdPx" inst_id side sz_contracts tp_price mode is_buy in
  try_except (exchange_call (private_post_trade_order_algo params)) (fun e => raise e).

Definition place_stop_loss (asset : string) (is_buy : bool) (amount sl_price : Q)
  : M state pyval :=
  do _ <- _ensure_markets ;
  do _ <- _ensure_position_mode ;
  let inst_id := _get_inst_id asset in
  let symbol := _get_symbol asset in
  do ct_val <- _get_contract_value symbol ;
  let sz_contracts :=
    if negb (Qle_bool ct_val 0) then pretty (contracts amount ct_val) else "1" in
  let side := if is_buy then "sell" else "buy" in
  do mode <- gets _position_mode ;
  let params :=
    algo_params "slTriggerPx" "slOrdPx" inst_id side sz_contracts sl_price mode is_buy in
  try_except (exchange_call (private_post_trade_order_algo params)) (fun e => raise e).

(** *** Notions used to state the properties *)

(** The contract value [_get_contract_value] finds once the markets are
    loaded. *)
Definition contract_value_of (symbol : string) : Q :=
  match markets symbol with
  | Some market =>
      match contractSize market with
      | Some q => q
      | None => 1%Q
      end
  | None => 1%Q
  end.

(** The market table can be had: it is loaded, or loading it succeeds. *)
Definition markets_available (s : state) : Prop :=
  markets_loaded s = true \/ is_Some (answer (calls s) load_markets).

(** The session as an order is built: after [_ensure_markets] and
    [_ensure_position_mode]. *)
Definition prepared (s : state) : state :=
  snd ((do _ <- _ensure_markets ; _ensure_position_mode) s).

(** The mode a first detection settles on, from what the account-config
    query does ([None]: it raises). *)
Definition detected_mode (reply : option pyval) : PositionMode :=
  match reply with
  | Some res =>
      match read_pos_mode res with
      | Ret pos_mode =>
          match recognised pos_mode with
          | Some m => m
          | None => net_mode
          end
      | Raise _ => net_mode
      end
  | None => net_mode
  end.



(** The requests a caller can make of a session, and the session a
    sequence of them leaves (an exception ends a request, not the session). *)
Inductive request : Type :=
| EnsurePositionMode
| MarketOrder (asset side : string) (amount : Q)
| TakeProfit (asset : string) (is_buy : bool) (amount tp_price : Q)
| StopLoss (asset : string) (is_buy : bool) (amount sl_price : Q).

Definition serve (s : state) (r : request) : state :=
  match r with
  | EnsurePositionMode => snd (_ensure_position_mode s)
  | MarketOrder asset side amount => snd (_place_market_order asset side amount s)
  | TakeProfit asset is_buy amount px => snd (place_take_profit asset is_buy amount px s)
  | StopLoss asset is_buy amount px => snd (place_stop_loss asset is_buy amount px s)
  end.

Definition serve_all (rs : list request) (s : state) : state := fold_left serve rs s.

End Exchange.

(** The reply of the exchange to the account-config query, reporting
    [pos_mode]. *)
Definition account_config (pos_mode : string) : pyval :=
  PyDict [("code", PyStr "0");
          ("data", PyList [PyDict [("posMode", PyStr pos_mode)]])].

(** The order placements among the calls. *)
Definition orders (cs : list call) : list call := List.filter is_order cs.

Definition is_config_query (c : call) : bool :=
  match c with private_get_account_config => true | _ => false end.

(** How many times the account configuration was queried. *)
Definition config_queries (cs : list call) : nat :=
  length (List.filter is_config_query cs).

(** Between [s] and [s']: a known position mode stays what it is and the
    account configuration is not queried; an unknown one stays unknown
    without a query or becomes known with exactly one. *)
Definition advances (s s' : state) : Prop :=
  match _position_mode s with
  | Some m =>
      _position_mode s' = Some m /\
      config_queries (calls s') = config_queries (calls s)
  | None =>
      (_position_mode s' = None /\
       config_queries (calls s') = config_queries (calls s)) \/
      (exists m, _position_mode s' = Some m /\
                 config_queries (calls s') = S (config_queries (calls s)))
  end.

(** A method that only [advances] the session. *)
Definition keeps {A} (m : M state A) : Prop :=
  forall s, advances s (snd (m s)).

(** The value of a parameter of an order. *)
Fixpoint param (k : string) (ps : list (string * string)) : option string :=
  match ps with
  | [] => None
  | (k', v) :: ps' => if String.eqb k' k then Some v else param k ps'
  end.

End OKXAPI.

(** ** The shared cache instance and the construction of a client *)

Module TAAPICacheInstance.

Import TAAPIClient.

(** [get_cache(ttl)]: the module-level [_cache_instance] is the [cache]
    field of the process state. *)
Definition get_cache (ttl : Q) : M state TAAPICache.t :=
  fun s =>
    match cache s with
    | None =>
        let c := TAAPICache.init ttl in
        (Ret c, State (Some c) (clock s) (wire s))
    | Some c => (Ret c, s)
    end.

(** [TAAPIClient(enable_cache, cache_ttl)]; the key is what
    [CONFIG["taapi_api_key"]] holds. *)
Definition new_client (key : string) (enable_cache : bool) (cache_ttl : Q)
  : M state client :=
  do _ <- (if enable_cache
           then do _ <- get_cache cache_ttl ; ret tt
           else ret tt) ;
  ret (Client key enable_cache).

End TAAPICacheInstance.

(** ** Notions for further properties of the exchange session *)

Module OKXNotions.

Import OKXAPI.

Definition is_load (c : call) : bool :=
  match c with load_markets => true | _ => false end.

(** How many times the market table was requested. *)
Definition loads (cs : list call) : nat := length (List.filter is_load cs).

(** Between [s] and [s']: a loaded market table stays loaded and is not
    requested again. *)
Definition stays_loaded (s s' : state) : Prop :=
  markets_loaded s = true ->
  markets_loaded s' = true /\ loads (calls s') = loads (calls s).

(** A method whose every run relates the state before to the state after
    by [R]. *)
Definition preserved {A} (R : state -> state -> Prop) (m : M state A) : Prop :=
  forall s, R s (snd (m s)).

(** A method that keeps a loaded market table loaded. *)
Definition kept {A} (m : M state A) : Prop := preserved stays_loaded m.

End OKXNotions.

(** ** taapi_client.py: the single-indicator requests *)

Module TAAPISingle.

Import TAAPIClient.

(** [base.update(params)] *)
Definition update (base params : list (string * pyval)) : list (string * pyval) :=
  fold_left (fun acc kv => assoc_set acc (fst kv) (snd kv)) params base.

(** [if params: base_params.update(params)], for [params] a dictionary or
    [None]. *)
Definition with_params (base : list (string * pyval))
    (params : option (list (string * pyval))) : list (string * pyval) :=
  match params with
  | Some (kv :: rest) => update base (kv :: rest)
  | _ => base
  end.

Section Network.

Variable net : list event -> event -> outcome.

Definition get_historical_indicator (self : client)
    (indicator symbol interval : string) (results : Z)
    (params : option (list (string * pyval))) : M state pyval :=
  let base_params :=
    [("secret", PyStr (api_key self)); ("exchange", PyStr "binance");
     ("symbol", PyStr symbol); ("interval", PyStr interval);
     ("results", PyInt results)] in
  let base_params := with_params base_params params in
  do response <- _get_with_retry net (base_url +:+ indicator) (PyDict base_params)
                   default_retries default_backoff ;
  ret response.

(** What [fetch_series] does with the response. *)
Definition series_of_response (data : pyval) (value_key : string) : res pyval :=
  if isinstance_dict data then
    do? is_series <- (if dict_contains data value_key
                      then do? v <- getitem data value_key ; Ret (isinstance_list v)
                      else Ret false) ;
    if is_series then
      do? values <- getitem data value_key ;
      do? vs <- iter values ;
      do? out <- mapM (fun v => if isinstance_int_float v then round4 v else Ret v) vs ;
      Ret (PyList out)
    else if dict_contains data "error" then Ret (PyList [])
    else Ret (PyList [])
  else Ret (PyList []).

Definition fetch_series (self : client) (indicator symbol interval : string)
    (results : Z) (params : option (list (string * pyval))) (value_key : string)
  : M state pyval :=
  try_except
    (do data <- get_historical_indicator self indicator symbol interval results params ;
     lift (series_of_response data value_key))
    (fun _ => ret (PyList [])).

(** What [fetch_value] does with the response. *)
Definition value_of_response (data : pyval) (key : string) : res pyval :=
  if isinstance_dict data then
    do? val <- dict_get data key ;
    if isinstance_int_float val then round4 val else Ret val
  else Ret PyNone.

Definition fetch_value (self : client) (indicator symbol interval : string)
    (params : option (list (string * pyval))) (key : string) : M state pyval :=
  try_except
    (let base_params :=
       [("secret", PyStr (api_key self)); ("exchange", PyStr "binance");
        ("symbol", PyStr symbol); ("interval", PyStr interval)] in
     let base_params := with_params base_params params in
     do data <- _get_with_retry net (base_url +:+ indicator) (PyDict base_params)
                 default_retries default_backoff ;
     lift (value_of_response data key))
    (fun _ => ret PyNone).

End Network.

End TAAPISingle.

(** ** Notions for further properties of the indicator client *)

Module TAAPINotions.

Import TAAPIClient.

(** The bulk request of [fetch_asset_indicators] for one interval. *)
Definition bulk_request (self : client) (asset interval : string)
    (indicators : list pyval) : event :=
  PostRequest bulk_url (bulk_payload self (asset +:+ "/USDT") interval indicators) 15.

(** The result a bulk response reports for an id: that of the last item
    carrying the id. *)
Definition reported (items : list pyval) (k : string) : option pyval :=
  fold_left
    (fun acc item =>
       match item with
       | PyDict it =>
           match assoc it "id" with
           | Some (PyStr id) =>
               if String.eqb id k
               then Some (from_option (fun v => v) PyNone (assoc it "result"))
               else acc
           | _ => acc
           end
       | _ => acc
       end)
    items None.

(** An item of a bulk response as the provider sends it: a dictionary with
    a non-empty string as its id. *)
Definition well_formed_item (item : pyval) : Prop :=
  exists it id, item = PyDict it /\ assoc it "id" = Some (PyStr id) /\ id <> "".

End TAAPINotions.

(** ** okx_api.py: cancelling orders, prices, order ids *)

Module OKXOrders.

Import PyString.

(** *** Order ids *)

(** [k in v] for a string [k]: a key of a dictionary, an element of a
    list, a substring of a string; nothing else is a container. *)
Definition py_in (k : string) (v : pyval) : res bool :=
  match v with
  | PyDict d => Ret (match assoc d k with Some _ => true | None => false end)
  | PyList l =>
      Ret (existsb (fun x => match x with PyStr s => String.eqb s k | _ => false end) l)
  | PyStr s => Ret (contains k s)
  | _ => Raise TypeError
  end.

(** The number a value is, for [==] between numbers. *)
Definition num_of (v : pyval) : option Q :=
  match v with
  | PyBool b => Some (if b then 1 else 0)%Q
  | PyInt z => Some (inject_Z z)
  | PyFloat (FFin q) => Some q
  | _ => None
  end.

(** [a == b] on hashable values.  Numbers are compared by value whatever
    their type; a NaN equals nothing, itself included. *)
Definition py_eq (a b : pyval) : bool :=
  match a, b with
  | PyNone, PyNone => true
  | PyStr s, PyStr t => String.eqb s t
  | PyFloat (FInf x), PyFloat (FInf y) => Bool.eqb x y
  | _, _ =>
      match num_of a, num_of b with
      | Some p, Some q => Qeq_bool p q
      | _, _ => false
      end
  end.

Definition hashable (v : pyval) : bool :=
  match v with PyList _ | PyDict _ => false | _ => true end.

Definition set_add (seen : list pyval) (v : pyval) : list pyval :=
  if existsb (py_eq v) seen then seen else (seen ++ [v])%list.

(** [list(set(oids))].  Python fixes no order for the result; here it is
    the order of first occurrence, and the properties below do not depend
    on it. *)
Definition list_set (oids : list pyval) : res (list pyval) :=
  if forallb hashable oids then Ret (fold_left set_add oids []) else Raise TypeError.

(** The body of the two loops [for d in ...]. *)
Definition entry_oids (oids : list pyval) (d : pyval) : res (list pyval) :=
  do? has_ord <- py_in "ordId" d ;
  do? oids1 <- (if has_ord
                then do? v <- getitem d "ordId" ; Ret (oids ++ [v])%list
                else Ret oids) ;
  do? has_algo <- py_in "algoId" d ;
  if has_algo
  then do? v <- getitem d "algoId" ; Ret (oids1 ++ [v])%list
  else Ret oids1.

(** [extract_oids], on the dictionary [order_result]. *)
Definition extract_oids (order_result : list (string * pyval)) : res (list pyval) :=
  let r := PyDict order_result in
  do? oids <- (if dict_contains r "id"
               then do? v <- getitem r "id" ; Ret [v]
               else Ret []) ;
  do? has_info <- (if dict_contains r "info"
                   then do? i <- getitem r "info" ; Ret (isinstance_dict i)
                   else Ret false) ;
  do? oids <- (if has_info then
                 do? info <- getitem r "info" ;
                 do? raw_data <- dict_get_default info "data" (PyList []) ;
                 if truthy raw_data
                 then do? ds <- TAAPIClient.iter raw_data ; foldM entry_oids ds oids
                 else Ret oids
               else Ret oids) ;
  do? code <- dict_get r "code" ;
  do? has_data <- (if py_eq code (PyStr "0")
                   then do? d <- dict_get r "data" ; Ret (truthy d)
                   else Ret false) ;
  do? oids <- (if has_data then
                 do? data <- getitem r "data" ;
                 do? ds <- TAAPIClient.iter data ;
                 foldM entry_oids ds oids
               else Ret oids) ;
  list_set oids.

(** *** The session with the further calls *)

(** The calls made on [self.exchange]: those of the order methods, and the
    ones of the methods of this part. *)
Inductive query : Type :=
| core (c : OKXAPI.call)
| exchange_cancel_order (oid symbol : string)
| private_post_trade_cancel_algo_order (ids : list pyval)
| exchange_cancel_all_orders (symbol : string)
| private_get_trade_orders_algo_pending (params : list (string * string))
| fetch_ticker (symbol : string)
| fetch_open_interest (symbol : string)
| fetch_funding_rate (symbol : string).

(** The object, and all the calls made so far in their order. *)
Record state : Type := State {
  session : OKXAPI.state;
  history : list query
}.

Definition is_algo_cancel (q : query) : bool :=
  match q with private_post_trade_cancel_algo_order _ => true | _ => false end.

Section Exchange.

(** The exchange: its answer to a call given the calls made before ([None]:
    the call raises). *)
Variable world : list query -> query -> option pyval.

(** [str(e)] *)
Variable exn_str : exn -> string.

(** [float(s)] of a string, [None] when it raises [ValueError]. *)
Variable float_of_str : string -> option pyfloat.

(** The exchange as an order method started after [n] of its own calls
    sees it. *)
Definition answer_from (h : list query) (n : nat)
  : list OKXAPI.call -> OKXAPI.call -> option pyval :=
  fun cs c => world (h ++ map core (drop n cs)) (core c).

(** A method of the order part run in this session: the calls it makes
    join the history. *)
Definition in_session {A}
    (m : (list OKXAPI.call -> OKXAPI.call -> option pyval) -> M OKXAPI.state A)
  : M state A :=
  fun s =>
    let n := length (OKXAPI.calls (session s)) in
    let out := m (answer_from (history s) n) (session s) in
    (fst out,
     State (snd out) (history s ++ map core (drop n (OKXAPI.calls (snd out))))).

Definition _ensure_markets : M state unit := in_session OKXAPI._ensure_markets.

Definition exchange_query (q : query) : M state pyval :=
  fun s =>
    let s' := State (session s) (history s ++ [q]) in
    match world (history s) q with
    | Some v => (Ret v, s')
    | None => (Raise ExchangeError, s')
    end.

Definition algo_id (inst_id : string) (algoId : pyval) : pyval :=
  PyDict [("instId", PyStr inst_id); ("algoId", algoId)].

Definition cancel_order (asset oid : string) : M state pyval :=
  do _ <- _ensure_markets ;
  let symbol := OKXAPI._get_symbol asset in
  let inst_id := OKXAPI._get_inst_id asset in
  try_except
    (exchange_query (exchange_cancel_order oid symbol))
    (fun _ =>
       try_except
         (exchange_query
            (private_post_trade_cancel_algo_order [algo_id inst_id (PyStr oid)]))
         (fun e => ret (PyDict [("code", PyStr "error");
                                ("msg", PyStr (exn_str e))]))).

Definition cancel_all_orders (asset : string) : M state pyval :=
  do _ <- _ensure_markets ;
  let symbol := OKXAPI._get_symbol asset in
  let inst_id := OKXAPI._get_inst_id asset in
  try_except
    (do _ <- exchange_query (exchange_cancel_all_orders symbol) ;
     do algo_orders_res <-
       exchange_query
         (private_get_trade_orders_algo_pending
            [("instType", "SWAP"); ("instId", inst_id)]) ;
     do code <- lift (dict_get algo_orders_res "code") ;
     do pending <- (if py_eq code (PyStr "0")
                    then do d <- lift (dict_get algo_orders_res "data") ;
                         ret (truthy d)
                    else ret false) ;
     do _ <- (if pending then
                do data <- lift (getitem algo_orders_res "data") ;
                do os <- lift (TAAPIClient.iter data) ;
                do algo_ids <-
                  lift (mapM (fun o => do? a <- getitem o "algoId" ;
                                       Ret (algo_id inst_id a)) os) ;
                match algo_ids with
                | [] => ret tt
                | _ => do _ <- exchange_query
                                 (private_post_trade_cancel_algo_order algo_ids) ;
                       ret tt
                end
              else ret tt) ;
     ret (PyDict [("status", PyStr "ok")]))
    (fun e => ret (PyDict [("status", PyStr "error");
                           ("msg", PyStr (exn_str e))])).

(** [float(v)], [None] when it raises: [TypeError] for a value that is
    neither a number nor a string, [ValueError] for a string that is no
    number. *)
Definition py_float (v : pyval) : option pyfloat :=
  match v with
  | PyFloat f => Some f
  | PyInt z => Some (FFin (inject_Z z))
  | PyBool b => Some (FFin (if b then 1 else 0)%Q)
  | PyStr s => float_of_str s
  | _ => None
  end.

(** The [try] block of the three readers: the call, the field taken from
    its answer by [field], and [float] of it.  [None] stands for an
    exception met on the way. *)
Definition read_float (q : query) (field : pyval -> res pyval)
  : M state (option pyfloat) :=
  try_except
    (do res <- exchange_query q ;
     do v <- lift (field res) ;
     ret (py_float v))
    (fun _ => ret None).

Definition get_current_price (asset : string) : M state pyval :=
  do _ <- _ensure_markets ;
  let symbol := OKXAPI._get_symbol asset in
  do r <- read_float (fetch_ticker symbol) (fun ticker => getitem ticker "last") ;
  ret (match r with Some f => PyFloat f | None => PyFloat (FFin 0) end).

Definition get_open_interest (asset : string) : M state pyval :=
  do _ <- _ensure_markets ;
  let symbol := OKXAPI._get_symbol asset in
  do r <- read_float (fetch_open_interest symbol)
            (fun res => dict_get_default res "openInterestAmount" (PyInt 0)) ;
  ret (match r with Some f => PyFloat f | None => PyNone end).

Definition get_funding_rate (asset : string) : M state pyval :=
  do _ <- _ensure_markets ;
  let symbol := OKXAPI._get_symbol asset in
  do r <- read_float (fetch_funding_rate symbol)
            (fun res => dict_get_default res "fundingRate" (PyInt 0)) ;
  ret (match r with Some f => PyFloat f | None => PyNone end).

(** *** Notions used to state the properties *)

(** The market table can be had: it is loaded, or loading it succeeds. *)
Definition markets_available (s : state) : Prop :=
  OKXAPI.markets_loaded (session s) = true \/
  is_Some (world (history s) (core OKXAPI.load_markets)).

(** The state after [_ensure_markets]. *)
Definition ready (s : state) : state := snd (_ensure_markets s).

End Exchange.

(** The ids under [key] ("ordId" or "algoId") in the entries of a
    response. *)
Definition ids_under (key : string) (entries : list pyval) : list pyval :=
  omap (fun d => match d with PyDict e => assoc e key | _ => None end) entries.

(** The ids an entry of a response carries: its "ordId", then its
    "algoId". *)
Definition entry_ids (d : pyval) : list pyval :=
  match d with
  | PyDict e => (option_list (assoc e "ordId") ++ option_list (assoc e "algoId"))%list
  | _ => []
  end.

(** The entries under "data" in a dictionary. *)
Definition data_entries (d : list (string * pyval)) : list pyval :=
  match assoc d "data" with
  | Some (PyList ds) => ds
  | _ => []
  end.

(** The ids an order result names: its "id", those of the entries of its
    "info", and those of its own entries when its code is "0". *)
Definition named_ids (order_result : list (string * pyval)) : list pyval :=
  (option_list (assoc order_result "id") ++
   match assoc order_result "info" with
   | Some (PyDict info) => flat_map entry_ids (data_entries info)
   | _ => []
   end ++
   match assoc order_result "code" with
   | Some (PyStr code) =>
       if String.eqb code "0"
       then flat_map entry_ids (data_entries order_result)
       else []
   | _ => []
   end)%list.

Definition is_str (v : pyval) : Prop := exists s, v = PyStr s.

(** An entry as the exchange sends it: a dictionary whose ids are
    strings. *)
Definition well_formed_entry (d : pyval) : Prop :=
  exists e, d = PyDict e /\
            (forall v, assoc e "ordId" = Some v -> is_str v) /\
            (forall v, assoc e "algoId" = Some v -> is_str v).

(** "data", where there is one, is a list of such entries. *)
Definition well_formed_data (d : list (string * pyval)) : Prop :=
  forall v, assoc d "data" = Some v ->
            exists ds, v = PyList ds /\ Forall well_formed_entry ds.

(** An order result as CCXT or the exchange sends it. *)
Definition well_formed_result (order_result : list (string * pyval)) : Prop :=
  (forall v, assoc order_result "id" = Some v -> is_str v) /\
  (forall info, assoc order_result "info" = Some (PyDict info) ->
                well_formed_data info) /\
  (assoc order_result "code" = Some (PyStr "0") -> well_formed_data order_result).

End OKXOrders.

(** ** okx_api.py: the size of a market order, on IEEE 754 doubles *)

Module OKXDouble.

Import SpecFloat.

(** [OKXAPI._place_market_order] above divides exact rationals.  Here the
    same method is modelled with the arithmetic of the machine: what it
    sends to the exchange is decided by a division of two doubles. *)

(** A Python [float]: an IEEE 754 binary64 number. *)
Definition float64 : Type := spec_float.

(** [a / b] for a divisor that is not zero: the quotient rounded to the
    nearest double, ties to even. *)
Definition truediv (a b : float64) : float64 := SFdiv 53 1024 a b.

(** [a > b] *)
Definition gt (a b : float64) : bool := SFltb b a.

Definition zero : float64 := S754_zero false.

(** [1.0] *)
Definition one : float64 := S754_finite false 4503599627370496 (-52).

(** The real number a finite double is. *)
Definition real (x : float64) : Q :=
  match x with
  | S754_finite s m e =>
      let v := match e with
               | Z0 => inject_Z (Zpos m)
               | Zpos p => inject_Z (Zpos m * 2 ^ Zpos p)
               | Zneg p => Qmake (Zpos m) (2 ^ p)
               end in
      if s then (- v)%Q else v
  | _ => 0%Q
  end.

(** [int(x)]: the integer part of a finite double; an infinity and a NaN
    have none. *)
Definition int (x : float64) : res Z :=
  match x with
  | S754_nan => Raise ValueError
  | S754_infinity _ => Raise OverflowError
  | _ => Ret (int_of_float (real x))
  end.

(** An entry of the market table: what [float(market.get('contractSize',
    1.0))] gives, [None] when it raises. *)
Record Market : Type := { contractSize : option float64 }.

Section Exchange.

Variable answer : list OKXAPI.call -> OKXAPI.call -> option pyval.
Variable markets : string -> option Market.

Definition _get_contract_value (symbol : string) : M OKXAPI.state float64 :=
  do _ <- OKXAPI._ensure_markets answer ;
  try_except
    (match markets symbol with
     | None => raise ExchangeError
     | Some market =>
         match contractSize market with
         | Some x => ret x
         | None => raise TypeError
         end
     end)
    (fun _ => ret one).

(** [int(amount / ct_val) if ct_val > 0 else 1]; the guard keeps a zero
    divisor away from the division. *)
Definition size_in_contracts (amount ct_val : float64) : res Z :=
  if gt ct_val zero then int (truediv amount ct_val) else Ret 1%Z.

Definition _place_market_order (asset side : string) (amount : float64)
  : M OKXAPI.state pyval :=
  do _ <- OKXAPI._ensure_markets answer ;
  do _ <- OKXAPI._ensure_position_mode answer ;
  let symbol := OKXAPI._get_symbol asset in
  do ct_val <- _get_contract_value symbol ;
  do sz_contracts <- lift (size_in_contracts amount ct_val) ;
  if (sz_contracts =? 0)%Z then ret OKXAPI.too_small
  else
    try_except
      (do mode <- gets OKXAPI._position_mode ;
       let params :=
         ([("tdMode", "cross")] ++
          match mode with
          | Some OKXAPI.long_short_mode =>
              [("posSide", if String.eqb side "buy" then "long" else "short")]
          | _ => []
          end)%list in
       OKXAPI.exchange_call answer
         (OKXAPI.create_order symbol "market" side sz_contracts params))
      (fun e => raise e).

Definition place_buy_order (asset : string) (amount : float64)
  : M OKXAPI.state pyval :=
  _place_market_order asset "buy" amount.

Definition place_sell_order (asset : string) (amount : float64)
  : M OKXAPI.state pyval :=
  _place_market_order asset "sell" amount.

(** *** Notions used to state the properties *)

(** The contract value [_get_contract_value] finds once the markets are
    loaded. *)
Definition contract_value_of (symbol : string) : float64 :=
  match markets symbol with
  | Some market =>
      match contractSize market with
      | Some x => x
      | None => one
      end
  | None => one
  end.

End Exchange.

(** The doubles of two decimal literals. *)
Definition double_0_25 : float64 := S754_finite false 4503599627370496 (-54).
Definition double_0_01 : float64 := S754_finite false 5764607523034235 (-59).

End OKXDouble.

(** * Properties *)

(** ** The indicator cache *)

Section CacheProperties.

Import TAAPICache.

Lemma age_expired_iff (age ttl : Q) :
  negb (Qle_bool age ttl) = true <-> (ttl < age)%Q.
Proof.
  rewrite negb_true_iff. split.
  - intros Hb. apply Qnot_le_lt. intros Hle.
    apply Qle_bool_iff in Hle. congruence.
  - intros Hlt. destruct (Qle_bool age ttl) eqn:Hb; [|reflexivity].
    apply Qle_bool_iff in Hb. exfalso. exact (Qlt_not_le _ _ Hlt Hb).
Qed.

Lemma age_fresh_iff (age ttl : Q) :
  negb (Qle_bool age ttl) = false <-> (age <= ttl)%Q.
Proof. rewrite negb_false_iff. apply Qle_bool_iff. Qed.

Lemma get_hit (self : t) (now : Q) (asset interval : string) (e : entry) :
  _cache self !! key asset interval = Some e ->
  (now - timestamp e <= ttl self)%Q ->
  get self now asset interval = (Some (data e), self).
Proof.
  intros Hk Hage. unfold get. rewrite Hk. cbn.
  apply age_fresh_iff in Hage. rewrite Hage. reflexivity.
Qed.

Lemma get_expired (self : t) (now : Q) (asset interval : string) (e : entry) :
  _cache self !! key asset interval = Some e ->
  (ttl self < now - timestamp e)%Q ->
  get self now asset interval
  = (None, Cache (ttl self) (delete (key asset interval) (_cache self))).
Proof.
  intros Hk Hage. unfold get. rewrite Hk. cbn.
  apply age_expired_iff in Hage. rewrite Hage. reflexivity.
Qed.

Lemma get_miss (self : t) (now : Q) (asset interval : string) :
  _cache self !! key asset interval = None ->
  get self now asset interval = (None, self).
Proof. intros Hk. unfold get. rewrite Hk. reflexivity. Qed.

(** [get] never adds a key and never changes the ttl. *)
Lemma get_lookup_None (self : t) (now : Q) (asset interval k : string) :
  _cache self !! k = None ->
  _cache (snd (get self now asset interval)) !! k = None.
Proof.
  intros Hk. unfold get.
  destruct (_cache self !! key asset interval) as [e|]; cbn; [|exact Hk].
  destruct (negb _); cbn; [|exact Hk].
  destruct (decide (key asset interval = k)) as [->|Hne].
  - apply lookup_delete_eq.
  - rewrite lookup_delete_ne by exact Hne. exact Hk.
Qed.

(** A key that no [set] of the history wrote is not in the store. *)
Lemma run_lookup_None (ops : list op) (self : t) (k : string) :
  _cache self !! k = None ->
  k ∉ stored_keys ops ->
  _cache (run ops self) !! k = None.
Proof.
  revert self. induction ops as [|o ops IH]; intros self Hk Hnot; [exact Hk|].
  cbn. apply IH.
  - destruct o as [now a i d|now a i|now|]; cbn.
    + rewrite lookup_insert_ne; [exact Hk|].
      intros Heq. apply Hnot. cbn. rewrite Heq. left.
    + apply get_lookup_None, Hk.
    + exact Hk.
    + apply lookup_empty.
  - intros Hin. apply Hnot. unfold stored_keys. cbn.
    apply elem_of_app. right. exact Hin.
Qed.

Lemma stats_counters (ttl now : Q) (m : gmap string entry) :
  let counters := map_fold (fun _ e acc => stats_step ttl now e acc) (0, 0) m in
  fst counters = size (filter (fun kv => active ttl now (snd kv)) m) /\
  snd counters = size (filter (fun kv => ~ active ttl now (snd kv)) m) /\
  size m = fst counters + snd counters.
Proof.
  cbv zeta.
  apply (map_fold_weak_ind (fun acc m =>
    fst acc = size (filter (fun kv => active ttl now (snd kv)) m) /\
    snd acc = size (filter (fun kv => ~ active ttl now (snd kv)) m) /\
    size m = fst acc + snd acc)).
  - rewrite !map_filter_empty, !map_size_empty. auto.
  - intros i x m' r Hi (Ha & He & Hs).
    rewrite (map_size_insert_None _ _ _ Hi).
    unfold stats_step.
    destruct (Qle_bool (now - timestamp x) ttl) eqn:Hb; cbn [fst snd].
    + assert (Hact : active ttl now x) by (apply Qle_bool_iff, Hb).
      rewrite (map_filter_insert_True (fun kv => active ttl now (snd kv)))
        by exact Hact.
      rewrite (map_filter_insert_not' (fun kv => ~ active ttl now (snd kv)));
        [| cbn; tauto | intros y Hy; congruence].
      rewrite map_size_insert_None
        by (apply map_lookup_filter_None_2; left; exact Hi).
      lia.
    + assert (Hact : ~ active ttl now x).
      { intros H. apply Qle_bool_iff in H. congruence. }
      rewrite (map_filter_insert_True (fun kv => ~ active ttl now (snd kv)))
        by exact Hact.
      rewrite (map_filter_insert_not' (fun kv => active ttl now (snd kv)));
        [| exact Hact | intros y Hy; congruence].
      rewrite map_size_insert_None
        by (apply map_lookup_filter_None_2; left; exact Hi).
      lia.
Qed.

Lemma size_delete_present (m : gmap string entry) (k : string) (e : entry) :
  m !! k = Some e -> S (size (delete k m)) = size m.
Proof.
  intros Hk.
  rewrite <- (insert_id m k e Hk) at 2.
  rewrite <- insert_delete_eq.
  rewrite map_size_insert_None by apply lookup_delete_eq.
  reflexivity.
Qed.



Lemma append_nil (s : string) : "" +:+ s = s.
Proof. reflexivity. Qed.

Lemma append_cons (c : ascii) (s1 s2 : string) :
  String c s1 +:+ s2 = String c (s1 +:+ s2).
Proof. reflexivity. Qed.

(** The pairs [(asset, interval)] map to distinct keys as long as the asset
    holds no colon: the key is the two strings joined by one. *)
Lemma key_inj (a1 i1 a2 i2 : string) :
  PyString.contains ":" a1 = false ->
  PyString.contains ":" a2 = false ->
  key a1 i1 = key a2 i2 -> a1 = a2 /\ i1 = i2.
Proof.
  unfold key. revert a2.
  induction a1 as [|c a1 IH]; intros [|d a2] H1 H2 Heq;
    repeat (first [rewrite append_nil in Heq | rewrite append_cons in Heq]).
  - injection Heq as ->. split; reflexivity.
  - injection Heq as <- _. cbn in H2. discriminate.
  - injection Heq as -> _. cbn in H1. discriminate.
  - injection Heq as -> Heq.
    cbn in H1, H2.
    apply orb_false_iff in H1 as [_ H1]. apply orb_false_iff in H2 as [_ H2].
    destruct (IH a2 H1 H2 Heq) as [-> ->]. split; reflexivity.
Qed.

(** With an asset that holds a colon two pairs can share an entry. *)
Lemma key_collision :
  get (set (init 60) 0 "A:B" "C" (PyInt 1)) 0 "A" "B:C" = (Some (PyInt 1), set (init 60) 0 "A:B" "C" (PyInt 1)).
Proof. reflexivity. Qed.

(** C7. [stats()] reports [total_entries = active_entries + expired_entries],
    where [active_entries] counts the entries whose age at the time of the
    call is at most the ttl and [expired_entries] the others, and the call
    leaves the cache as it was. *)
Theorem stats_total_is_active_plus_expired (self : t) (now : Q) :
  let report := fst (stats self now) in
  total_entries report = active_entries report + expired_entries report /\
  total_entries report = size (_cache self) /\
  active_entries report
  = size (filter (fun kv => active (ttl self) now (snd kv)) (_cache self)) /\
  expired_entries report
  = size (filter (fun kv => ~ active (ttl self) now (snd kv)) (_cache self)) /\
  snd (stats self now) = self.
Proof.
  destruct (stats_counters (ttl self) now (_cache self)) as (Ha & He & Hs).
  cbn. repeat split; assumption.
Qed.

(** [stats] on a cache holding one fresh and one expired entry: both are
    counted and both stay. *)
Example stats_keeps_expired :
  let c := set (set (init 60) 0 "BTC" "5m" (PyInt 1)) 100 "ETH" "5m" (PyInt 2) in
  fst (stats c 120) = Stats 2 1 1 60 /\ snd (stats c 120) = c.
Proof. vm_compute. split; reflexivity. Qed.

End CacheProperties.

(** ** Normalisation of indicator results *)

Section Normalisation.

Import TAAPIClient.

(** [round_half_even q] is an integer nearest to [q]. *)
Lemma round_half_even_near (q : Q) :
  (q - (1 # 2) <= inject_Z (round_half_even q))%Q /\
  (inject_Z (round_half_even q) <= q + (1 # 2))%Q.
Proof.
  unfold round_half_even.
  pose proof (Qfloor_le q) as Hlo.
  pose proof (Qlt_floor q) as Hhi.
  rewrite inject_Z_plus in Hhi. change (inject_Z 1) with 1%Q in Hhi.
  set (f := Qfloor q) in *.
  destruct ((q - inject_Z f) ?= (1 # 2))%Q eqn:Hc.
  - apply Qeq_alt in Hc.
    destruct (Z.even f); rewrite ?inject_Z_plus;
      change (inject_Z 1) with 1%Q; split; lra.
  - apply Qlt_alt in Hc. split; lra.
  - apply Qgt_alt in Hc. rewrite inject_Z_plus.
    change (inject_Z 1) with 1%Q. split; lra.
Qed.

(** The body of the comprehension never raises: [round] is only reached
    behind the [isinstance] test. *)
Lemma normalise_element (v : pyval) :
  exists w,
    (if isinstance_int_float v then round4 v else Ret v) = Ret w /\
    rounded_to_4 v w.
Proof.
  destruct v as [ | b | z | [q | neg | ] | s | l | d ]; cbn;
    eexists; (split; [reflexivity|]); try (constructor; reflexivity).
  destruct (round_half_even_near (q * 10000)) as [Hlo Hhi].
  constructor; assumption.
Qed.

Lemma normalise_list (vs : list pyval) :
  exists out,
    mapM (fun v => if isinstance_int_float v then round4 v else Ret v) vs = Ret out /\
    Forall2 rounded_to_4 vs out.
Proof.
  induction vs as [|v vs (out & Hout & Hall)].
  - exists []. split; [reflexivity | constructor].
  - destruct (normalise_element v) as (w & Hw & Hr).
    exists (w :: out). cbn. rewrite Hw. cbn. rewrite Hout. cbn.
    split; [reflexivity | constructor; assumption].
Qed.

Lemma assoc_truthy (d : list (string * pyval)) (key : string) (v : pyval) :
  assoc d key = Some v -> truthy (PyDict d) = true.
Proof. destruct d; [discriminate | reflexivity]. Qed.

Lemma extract_series_list (d : list (string * pyval)) (key : string) (vs : list pyval) :
  assoc d key = Some (PyList vs) ->
  exists out,
    _extract_series (PyDict d) key = Ret (PyList out) /\ Forall2 rounded_to_4 vs out.
Proof.
  intros Hk. destruct (normalise_list vs) as (out & Hout & Hall).
  exists out. split; [|exact Hall].
  unfold _extract_series. rewrite (assoc_truthy _ _ _ Hk). cbn.
  rewrite Hk. cbn. rewrite Hout. reflexivity.
Qed.

Lemma extract_series_total (data : pyval) (key : string) :
  exists out, _extract_series data key = Ret (PyList out).
Proof.
  unfold _extract_series.
  destruct (truthy data); cbn; [|eexists; reflexivity].
  destruct data as [ | b | z | f | s | l | d ]; cbn; try (eexists; reflexivity).
  destruct (assoc d key) as [v|]; cbn; [|eexists; reflexivity].
  destruct v as [ | b | z | f | s | vs | d' ]; cbn; try (eexists; reflexivity).
  destruct (normalise_list vs) as (out & Hout & _). rewrite Hout. cbn.
  eexists; reflexivity.
Qed.

Lemma extract_value_total (data : pyval) (key : string) :
  exists v, _extract_value data key = Ret v.
Proof.
  unfold _extract_value.
  destruct (truthy data); cbn; [|eexists; reflexivity].
  destruct data as [ | b | z | f | s | l | d ]; cbn; try (eexists; reflexivity).
  destruct (assoc d key) as [v|]; cbn; [|eexists; reflexivity].
  destruct (normalise_element v) as (w & Hw & _). exists w. exact Hw.
Qed.

Lemma extract_series_empty (data : pyval) (key : string) :
  truthy data = false \/ dict_contains data key = false \/
  (exists v, getitem data key = Ret v /\ isinstance_list v = false) ->
  _extract_series data key = Ret (PyList []).
Proof.
  unfold _extract_series. intros [Hf | [Hc | (v & Hv & Hl)]].
  - rewrite Hf. reflexivity.
  - rewrite Hc, andb_false_r. destruct (truthy data); reflexivity.
  - destruct (truthy data); [|reflexivity]. cbn [negb].
    destruct (isinstance_dict data && dict_contains data key); [|reflexivity].
    rewrite Hv. cbn. rewrite Hl. reflexivity.
Qed.

Lemma extract_value_present (d : list (string * pyval)) (key : string) (v : pyval) :
  assoc d key = Some v ->
  exists w, _extract_value (PyDict d) key = Ret w /\ rounded_to_4 v w.
Proof.
  intros Hk. destruct (normalise_element v) as (w & Hw & Hr).
  exists w. split; [|exact Hr].
  unfold _extract_value. rewrite (assoc_truthy _ _ _ Hk). cbn.
  rewrite Hk. cbn. exact Hw.
Qed.

Lemma extract_value_missing (data : pyval) (key : string) :
  dict_contains data key = false -> _extract_value data key = Ret PyNone.
Proof.
  intros Hc. unfold _extract_value. rewrite Hc, andb_false_r.
  destruct (truthy data); reflexivity.
Qed.

(** C8. Normalisation never raises.  [_extract_series] always returns a
    list: when the response is a dictionary whose named key holds a list, the
    result has the same length and order and each element is the received one
    rounded to 4 decimals (a value that is not a number stays as it is); a
    falsy response, one without the key, or one whose key holds no list gives
    the empty list; [{"value": [1.23456, 2]}] gives [[1.2346, 2]].
    [_extract_value] always returns: the value under the key rounded to 4
    decimals when it is there, [None] when the key is missing. *)
Theorem normalisation_total :
  (forall data key, exists out, _extract_series data key = Ret (PyList out)) /\
  (forall d key vs,
     assoc d key = Some (PyList vs) ->
     exists out,
       _extract_series (PyDict d) key = Ret (PyList out) /\
       Forall2 rounded_to_4 vs out) /\
  (forall data key,
     truthy data = false \/ dict_contains data key = false \/
     (exists v, getitem data key = Ret v /\ isinstance_list v = false) ->
     _extract_series data key = Ret (PyList [])) /\
  _extract_series
    (PyDict [("value", PyList [PyFloat (FFin 1.23456); PyInt 2])]) "value"
  = Ret (PyList [PyFloat (FFin 1.2346); PyInt 2]) /\
  (forall data key, exists v, _extract_value data key = Ret v) /\
  (forall d key v,
     assoc d key = Some v ->
     exists w, _extract_value (PyDict d) key = Ret w /\ rounded_to_4 v w) /\
  (forall data key,
     dict_contains data key = false -> _extract_value data key = Ret PyNone).
Proof.
  split; [exact extract_series_total|].
  split; [exact extract_series_list|].
  split; [exact extract_series_empty|].
  split; [vm_compute; reflexivity|].
  split; [exact extract_value_total|].
  split; [exact extract_value_present | exact extract_value_missing].
Qed.

Lemma normalisation_total_witness :
  (exists out,
     _extract_series (PyDict [("valueMACD", PyList [PyFloat (FFin 0.00015); PyStr "n/a"])])
       "valueMACD" = Ret (PyList out) /\
     Forall2 rounded_to_4 [PyFloat (FFin 0.00015); PyStr "n/a"] out) /\
  _extract_series (PyDict [("error", PyStr "rate limit")]) "value" = Ret (PyList []) /\
  _extract_value PyNone "value" = Ret PyNone.
Proof.
  destruct normalisation_total as (_ & Hlist & Hempty & _ & _ & _ & Hmissing).
  split; [|split].
  - apply Hlist. reflexivity.
  - apply Hempty. right. left. reflexivity.
  - apply Hmissing. reflexivity.
Defined.

End Normalisation.

(** ** The shared request layer *)

Section RetryPolicy.

Import TAAPIClient.

Variable net : list event -> event -> outcome.
Variable rq : event.
Variable retries : nat.
Variable backoff : Q.

(** One turn of the loop: either the attempt is final, or it is followed by
    a sleep and the rest of the loop. *)
Lemma retry_loop_step (attempt : nat) (rest : list nat) (s : state) :
  retry_loop net rq retries backoff (attempt :: rest) s
  = if retryable (net (wire s) rq) && (Z.of_nat attempt <? Z.of_nat retries - 1)%Z
    then retry_loop net rq retries backoff rest
           (State (cache s) (clock s + backoff)%Q ((wire s ++ [rq]) ++ [Sleep backoff]))
    else (result_of (net (wire s) rq), State (cache s) (clock s) (wire s ++ [rq])).
Proof.
  cbn [retry_loop]. unfold try_except, bind, send, lift, raise, time_sleep, modify.
  destruct (net (wire s) rq) as [code body | | ]; cbn.
  - unfold raise_for_status. cbn.
    destruct ((400 <=? code)%Z && (code <? 600)%Z) eqn:Hrange; cbn.
    + destruct (((code =? 429)%Z || (500 <=? code)%Z)
                && (Z.of_nat attempt <? Z.of_nat retries - 1)%Z); reflexivity.
    + unfold json. cbn. destruct body; reflexivity.
  - destruct (Z.of_nat attempt <? Z.of_nat retries - 1)%Z; reflexivity.
  - reflexivity.
Qed.

Lemma iter_shift (k : nat) (c0 : Q) :
  Nat.iter k (fun c => (c + backoff)%Q) (c0 + backoff)%Q
  = Nat.iter (S k) (fun c => (c + backoff)%Q) c0.
Proof.
  induction k as [|k IH]; [reflexivity|].
  rewrite (Nat.iter_succ (S k)), <- IH. reflexivity.
Qed.

(** The loop over the attempts [a, a+1, ..., retries-1] follows the policy
    with a budget of what is left. *)
Lemma retry_loop_policy (n a : nat) (s : state) :
  a + S n = retries ->
  exists k,
    k < S n /\
    (forall i, i < k -> retryable (attempt_outcome net rq backoff s i) = true) /\
    (k = n \/ retryable (attempt_outcome net rq backoff s k) = false) /\
    retry_loop net rq retries backoff (seq a (S n)) s
    = (result_of (attempt_outcome net rq backoff s k),
       State (cache s) (Nat.iter k (fun c => (c + backoff)%Q) (clock s))
             (wire s ++ rounds rq backoff k ++ [rq])).
Proof.
  revert a s. induction n as [|n IH]; intros a s Hbudget.
  - exists 0. split; [lia|]. split; [intros i Hi; lia|]. split; [left; reflexivity|].
    cbn [seq]. rewrite retry_loop_step.
    replace (Z.of_nat a <? Z.of_nat retries - 1)%Z with false
      by (symmetry; apply Z.ltb_ge; lia).
    rewrite andb_false_r. unfold attempt_outcome. cbn [rounds].
    rewrite app_nil_r. reflexivity.
  - change (seq a (S (S n))) with (a :: seq (S a) (S n)).
    rewrite retry_loop_step.
    replace (Z.of_nat a <? Z.of_nat retries - 1)%Z with true
      by (symmetry; apply Z.ltb_lt; lia).
    rewrite andb_true_r.
    destruct (retryable (net (wire s) rq)) eqn:Hretry.
    + set (s1 := State (cache s) (clock s + backoff)%Q
                       ((wire s ++ [rq]) ++ [Sleep backoff])).
      destruct (IH (S a) s1 ltac:(lia)) as (k & Hk & Hbefore & Hlast & Hrun).
      assert (Hwire : forall i,
                 (wire s1 ++ rounds rq backoff i
                  = wire s ++ rounds rq backoff (S i))%list).
      { intros i. unfold s1. cbn [wire rounds].
        rewrite <- !app_assoc. reflexivity. }
      exists (S k). split; [lia|]. split; [|split].
      * intros [|i] Hi.
        -- unfold attempt_outcome. cbn [rounds]. rewrite app_nil_r. exact Hretry.
        -- unfold attempt_outcome. rewrite <- Hwire. apply Hbefore. lia.
      * destruct Hlast as [-> | Hlast]; [left; reflexivity|].
        right. unfold attempt_outcome. rewrite <- Hwire. exact Hlast.
      * rewrite Hrun. unfold attempt_outcome.
        rewrite app_assoc, Hwire, <- app_assoc.
        unfold s1. cbn [cache clock]. rewrite iter_shift. reflexivity.
    + exists 0. split; [lia|]. split; [intros i Hi; lia|].
      unfold attempt_outcome. cbn [rounds]. rewrite app_nil_r.
      split; [right; exact Hretry | reflexivity].
Qed.

Lemma retry_loop_follows_policy (s : state) :
  0 < retries ->
  follows_retry_policy net rq retries backoff s
    (retry_loop net rq retries backoff (seq 0 retries) s).
Proof.
  intros Hpos.
  destruct (retry_loop_policy (retries - 1) 0 s)
    as (k & Hk & Hbefore & Hlast & Hrun); [lia|].
  replace (S (retries - 1)) with retries in Hrun by lia.
  exists k. rewrite Hrun. cbn [fst snd wire clock cache].
  repeat split; try assumption. lia.
Qed.

(** The last attempt of a run that follows the policy is determined: it is
    the first attempt that is not a retryable failure, or the last of the
    budget. *)
Lemma policy_last_attempt (s : state) (out : res pyval * state) (i : nat) :
  follows_retry_policy net rq retries backoff s out ->
  i < retries ->
  (forall j, j < i -> retryable (attempt_outcome net rq backoff s j) = true) ->
  i = retries - 1 \/ retryable (attempt_outcome net rq backoff s i) = false ->
  fst out = result_of (attempt_outcome net rq backoff s i) /\
  wire (snd out) = (wire s ++ rounds rq backoff i ++ [rq])%list.
Proof.
  intros (k & Hk & Hbefore & Hlast & Hres & Hwire & _) Hi Hbefore_i Hlast_i.
  assert (k = i) as ->; [|split; assumption].
  destruct (lt_eq_lt_dec k i) as [[Hlt | Heq] | Hgt]; [| exact Heq |].
  - destruct Hlast as [Hend | Hno]; [lia|].
    rewrite (Hbefore_i k Hlt) in Hno. discriminate.
  - destruct Hlast_i as [Hend | Hno]; [lia|].
    rewrite (Hbefore i Hgt) in Hno. discriminate.
Qed.

Lemma requests_made_rounds (w : list event) (k : nat) :
  is_request rq = true ->
  requests_made (w ++ rounds rq backoff k ++ [rq]) = requests_made w + S k.
Proof.
  intros Hrq. unfold requests_made.
  rewrite !List.filter_app, !length_app. cbn [List.filter]. rewrite Hrq.
  cbn [length].
  assert (Hk : length (List.filter is_request (rounds rq backoff k)) = k).
  { induction k as [|k IH]; [reflexivity|].
    cbn [rounds List.filter is_request]. rewrite Hrq. cbn. rewrite IH. reflexivity. }
  rewrite Hk. lia.
Qed.

Lemma retryable_raises (o : outcome) :
  retryable o = true -> exists e, result_of o = Raise e.
Proof.
  destruct o as [code body | | ]; cbn; intros H; try discriminate.
  - apply andb_true_iff in H as [Hrange _]. rewrite Hrange. eexists; reflexivity.
  - eexists; reflexivity.
Qed.

End RetryPolicy.

(** C6. [_get_with_retry] and [_post_with_retry], with the default budget
    of 10 attempts, follow the retry policy: an attempt is followed by
    another only when it failed with HTTP 429, an HTTP status of 500 or more,
    or a timeout, and then after one sleep of the fixed backoff; at most 10
    requests are made; an attempt that meets a 4xx status other than 429 is
    the last one and its error is raised to the caller; and when all 10
    attempts fail in a retryable way the failure of the tenth is raised. *)
Theorem request_layer_retry_policy
    (net : list TAAPIClient.event -> TAAPIClient.event -> TAAPIClient.outcome)
    (url : string) (args : pyval) (backoff : Q)
    (rq : TAAPIClient.event) (call : M TAAPIClient.state pyval)
    (s : TAAPIClient.state) :
  (rq = TAAPIClient.GetRequest url args 10 /\
   call = TAAPIClient._get_with_retry net url args TAAPIClient.default_retries backoff) \/
  (rq = TAAPIClient.PostRequest url args 15 /\
   call = TAAPIClient._post_with_retry net url args TAAPIClient.default_retries backoff) ->
  let out := call s in
  let outcome_of := TAAPIClient.attempt_outcome net rq backoff s in
  TAAPIClient.follows_retry_policy net rq 10 backoff s out /\
  TAAPIClient.requests_made (TAAPIClient.wire (snd out))
  <= TAAPIClient.requests_made (TAAPIClient.wire s) + 10 /\
  (forall i code body,
     i < 10 ->
     (forall j, j < i -> TAAPIClient.retryable (outcome_of j) = true) ->
     outcome_of i = TAAPIClient.Response code body ->
     (400 <= code < 500)%Z -> code <> 429%Z ->
     fst out = Raise (HTTPError code) /\
     TAAPIClient.wire (snd out)
     = (TAAPIClient.wire s ++ TAAPIClient.rounds rq backoff i ++ [rq])%list) /\
  ((forall j, j < 10 -> TAAPIClient.retryable (outcome_of j) = true) ->
   (exists e, fst out = Raise e /\ TAAPIClient.result_of (outcome_of 9) = Raise e) /\
   TAAPIClient.requests_made (TAAPIClient.wire (snd out))
   = TAAPIClient.requests_made (TAAPIClient.wire s) + 10).
Proof.
  intros Hcall out outcome_of.
  assert (Hrq : TAAPIClient.is_request rq = true)
    by (destruct Hcall as [[-> _] | [-> _]]; reflexivity).
  assert (Hpolicy : TAAPIClient.follows_retry_policy net rq 10 backoff s out).
  { subst out. destruct Hcall as [[-> ->] | [-> ->]];
      apply retry_loop_follows_policy; lia. }
  split; [exact Hpolicy|]. split; [|split].
  - destruct Hpolicy as (k & Hk & _ & _ & _ & Hwire & _).
    rewrite Hwire, requests_made_rounds by exact Hrq. lia.
  - intros i code body Hi Hbefore Hout Hcode Hne.
    destruct (policy_last_attempt net rq 10 backoff s out i Hpolicy Hi Hbefore)
      as [Hres Hwire].
    + right. fold (outcome_of i). rewrite Hout. cbn.
      replace (code =? 429)%Z with false by (symmetry; apply Z.eqb_neq; exact Hne).
      replace (500 <=? code)%Z with false by (symmetry; apply Z.leb_gt; lia).
      apply andb_false_r.
    + split; [|exact Hwire].
      rewrite Hres. fold (outcome_of i). rewrite Hout. cbn.
      replace (400 <=? code)%Z with true by (symmetry; apply Z.leb_le; lia).
      replace (code <? 600)%Z with true by (symmetry; apply Z.ltb_lt; lia).
      reflexivity.
  - intros Hall.
    destruct (policy_last_attempt net rq 10 backoff s out 9 Hpolicy)
      as [Hres Hwire]; [lia | intros j Hj; apply Hall; lia | left; reflexivity |].
    split.
    + destruct (retryable_raises (outcome_of 9) (Hall 9 ltac:(lia))) as [e He].
      exists e. split; [|exact He]. rewrite Hres. exact He.
    + rewrite Hwire, requests_made_rounds by exact Hrq. reflexivity.
Qed.

(** ** The two-horizon bundle *)

Section Bundle.

Import TAAPIClient.

Variable net : list event -> event -> outcome.

Lemma returns_bind {S A B} (m : M S A) (k : A -> M S B) (s : S) :
  (exists a s', m s = (Ret a, s') /\ returns (k a) s') ->
  returns (bind m k) s.
Proof.
  intros (a & s' & Hm & b & s'' & Hk).
  exists b, s''. unfold bind. rewrite Hm. exact Hk.
Qed.

Lemma returns_ret {S A} (a : A) (s : S) : returns (ret a) s.
Proof. exists a, s. reflexivity. Qed.

Lemma returns_try_except {S A} (m : M S A) (h : exn -> M S A) (s : S) :
  (forall e s', returns (h e) s') -> returns (try_except m h) s.
Proof.
  intros Hh. unfold returns, try_except.
  destruct (m s) as [[a | e] s'].
  - exists a, s'. reflexivity.
  - apply Hh.
Qed.

(** [fetch_bulk_indicators] never raises and always hands back a
    dictionary. *)
Lemma fetch_bulk_returns (self : client) (symbol interval : string)
    (config : list pyval) (s : state) :
  exists d s',
    fetch_bulk_indicators net self symbol interval config s = (Ret (PyDict d), s').
Proof.
  unfold fetch_bulk_indicators, try_except, bind, lift, ret.
  destruct (mapM indicator_def config) as [indicators | e];
    [|eexists; eexists; reflexivity].
  destruct (_post_with_retry net bulk_url _ default_retries default_backoff s)
    as [[response | e] s1]; [|eexists; eexists; reflexivity].
  destruct (parse_results response) as [results | e];
    eexists; eexists; reflexivity.
Qed.

Lemma series_of_total (d : list (string * pyval)) (id value_key : string) :
  exists out, series_of (PyDict d) id value_key = Ret (PyList out).
Proof.
  unfold series_of, dict_get.
  destruct (assoc d id); cbn [rbind]; apply extract_series_total.
Qed.

Lemma value_of_total (d : list (string * pyval)) (id : string) :
  exists v, value_of (PyDict d) id = Ret v.
Proof.
  unfold value_of, dict_get.
  destruct (assoc d id); cbn [rbind]; apply extract_value_total.
Qed.

Lemma cache_on_run (self : client) (s : state) :
  cache_on self s = (Ret (enable_cache self && bool_decide (is_Some (cache s))), s).
Proof. reflexivity. Qed.

Lemma cache_on_Some (self : client) (s : state) :
  enable_cache self && bool_decide (is_Some (cache s)) = true ->
  exists c, cache s = Some c.
Proof.
  intros H. apply andb_true_iff in H as [_ H].
  apply bool_decide_eq_true in H. destruct H as [c Hc]. exists c. exact Hc.
Qed.

Lemma cache_set_returns (asset interval : string) (d : pyval) (s : state) (c : TAAPICache.t) :
  cache s = Some c ->
  cache_set asset interval d s
  = (Ret tt, State (Some (TAAPICache.set c (clock s) asset interval d)) (clock s) (wire s)).
Proof. intros Hc. unfold cache_set. rewrite Hc. reflexivity. Qed.

Lemma cache_get_returns (asset interval : string) (s : state) (c : TAAPICache.t) :
  cache s = Some c ->
  exists v c', cache_get asset interval s = (Ret v, State (Some c') (clock s) (wire s)).
Proof. intros Hc. unfold cache_get. rewrite Hc. eexists; eexists; reflexivity. Qed.

Ltac step_lift H :=
  apply returns_bind; eexists; eexists; split; [unfold lift; rewrite H; reflexivity|].

Lemma fetch_fresh_returns (self : client) (asset : string) (s : state) :
  returns (fetch_fresh net self asset) s.
Proof.
  unfold fetch_fresh.
  destruct (fetch_bulk_returns self (asset +:+ "/USDT") "5m" indicators_5m s)
    as (d5 & s1 & Hb5).
  apply returns_bind. exists (PyDict d5), s1. split; [exact Hb5|].
  destruct (series_of_total d5 "ema20" "value") as [x1 H1]. step_lift H1.
  destruct (series_of_total d5 "macd" "valueMACD") as [x2 H2]. step_lift H2.
  destruct (series_of_total d5 "rsi7" "value") as [x3 H3]. step_lift H3.
  destruct (series_of_total d5 "rsi14" "value") as [x4 H4]. step_lift H4.
  apply returns_bind. eexists; eexists; split; [reflexivity|].
  match goal with |- returns _ ?st => set (s2 := st) end.
  destruct (fetch_bulk_returns self (asset +:+ "/USDT") "4h" indicators_4h s2)
    as (d4 & s3 & Hb4).
  apply returns_bind. exists (PyDict d4), s3. split; [exact Hb4|].
  destruct (value_of_total d4 "ema20") as [y1 G1]. step_lift G1.
  destruct (value_of_total d4 "ema50") as [y2 G2]. step_lift G2.
  destruct (value_of_total d4 "atr3") as [y3 G3]. step_lift G3.
  destruct (value_of_total d4 "atr14") as [y4 G4]. step_lift G4.
  destruct (series_of_total d4 "macd" "valueMACD") as [y5 G5]. step_lift G5.
  destruct (series_of_total d4 "rsi14" "value") as [y6 G6]. step_lift G6.
  apply returns_bind.
  destruct (returns_try_except
              (lift (check_usable asset
                       (PyDict [("ema20", PyList x1); ("macd", PyList x2);
                                ("rsi7", PyList x3); ("rsi14", PyList x4)])
                       (PyDict [("ema20", y1); ("ema50", y2); ("atr3", y3);
                                ("atr14", y4); ("macd", PyList y5);
                                ("rsi14", PyList y6)])))
              (fun _ => ret tt) s3 (fun e s' => returns_ret tt s'))
    as (u & s4 & Htry).
  assert (Hs4 : s4 = s3).
  { revert Htry. unfold try_except, lift, ret.
    destruct (check_usable _ _ _); intros [= _ <-]; reflexivity. }
  subst s4. exists u, s3. split; [exact Htry|].
  apply returns_bind. eexists; eexists; split; [apply cache_on_run|].
  destruct (enable_cache self && bool_decide (is_Some (cache s3))) eqn:Hon.
  - destruct (cache_on_Some self s3 Hon) as [c Hc].
    apply returns_bind. eexists; eexists; split.
    + unfold bind. rewrite (cache_set_returns _ _ _ s3 c Hc).
      apply cache_set_returns. reflexivity.
    + apply returns_ret.
  - apply returns_bind. eexists; eexists; split; [reflexivity|]. apply returns_ret.
Qed.

Lemma fetch_asset_indicators_returns (self : client) (asset : string) (s : state) :
  returns (fetch_asset_indicators net self asset) s.
Proof.
  unfold fetch_asset_indicators.
  assert (Hprobe : exists hit s', cache_probe self asset s = (Ret hit, s')).
  { unfold cache_probe, bind. rewrite cache_on_run.
    destruct (enable_cache self && bool_decide (is_Some (cache s))) eqn:Hon;
      [|eexists; eexists; reflexivity].
    destruct (cache_on_Some self s Hon) as [c Hc].
    destruct (cache_get_returns asset "5m" s c Hc) as (v1 & c1 & ->).
    destruct (cache_get_returns asset "4h" (State (Some c1) (clock s) (wire s)) c1
                eq_refl) as (v2 & c2 & ->).
    destruct (truthy v1 && truthy v2); eexists; eexists; reflexivity. }
  destruct Hprobe as (hit & s' & Hprobe).
  apply returns_bind. exists hit, s'. split; [exact Hprobe|].
  destruct hit as [cached|]; [apply returns_ret | apply fetch_fresh_returns].
Qed.

End Bundle.

(** C1. The claim: [fetch_asset_indicators] fails with a hard error exactly
    when every indicator of both horizons is empty.  The code: the
    [RuntimeError] for that case is raised inside the [try] whose handler is
    [except Exception: pass], so it never leaves the method.  The call ends
    without an exception for every provider, client and state; and when the
    provider answers both bulk requests with no data, the check does raise,
    the method still returns the two empty bundles, and it stores them in
    the cache. *)
Theorem fetch_asset_indicators_never_fails :
  (forall net self asset s,
     returns (TAAPIClient.fetch_asset_indicators net self asset) s) /\
  let net := fun (_ : list TAAPIClient.event) (_ : TAAPIClient.event) =>
               TAAPIClient.Response 200 (Some (PyDict [("data", PyList [])])) in
  let self := TAAPIClient.Client "secret" true in
  let s := TAAPIClient.State (Some (TAAPICache.init 60)) 0 [] in
  let empty_5m := PyDict [("ema20", PyList []); ("macd", PyList []);
                          ("rsi7", PyList []); ("rsi14", PyList [])] in
  let empty_4h := PyDict [("ema20", PyNone); ("ema50", PyNone); ("atr3", PyNone);
                          ("atr14", PyNone); ("macd", PyList []);
                          ("rsi14", PyList [])] in
  let out := TAAPIClient.fetch_asset_indicators net self "BTC" s in
  TAAPIClient.check_usable "BTC" empty_5m empty_4h
  = Raise (RuntimeError "TAAPI returned no usable indicators for BTC") /\
  fst out = Ret (PyDict [("5m", empty_5m); ("4h", empty_4h)]) /\
  TAAPIClient.requests_made (TAAPIClient.wire (snd out)) = 2 /\
  (exists c, TAAPIClient.cache (snd out) = Some c /\
             fst (TAAPICache.get c 60 "BTC" "5m") = Some empty_5m /\
             fst (TAAPICache.get c 60 "BTC" "4h") = Some empty_4h).
Proof.
  split; [intros; apply fetch_asset_indicators_returns|].
  cbv zeta. split; [vm_compute; reflexivity|].
  split; [vm_compute; reflexivity|].
  split; [vm_compute; reflexivity|].
  eexists. split; [vm_compute; reflexivity|].
  split; vm_compute; reflexivity.
Qed.

(** One horizon empty: the call returns with that side empty and the other
    one filled. *)
Example one_horizon_empty :
  let net := fun (w : list TAAPIClient.event) (_ : TAAPIClient.event) =>
               match w with
               | [] => TAAPIClient.Response 200
                         (Some (PyDict [("data",
                            PyList [PyDict [("id", PyStr "ema20");
                                            ("result", PyDict [("value",
                                               PyList [PyFloat (FFin 1.23456)])])]])]))
               | _ => TAAPIClient.Response 200 (Some (PyDict [("data", PyList [])]))
               end in
  fst (TAAPIClient.fetch_asset_indicators net (TAAPIClient.Client "secret" false) "BTC"
         (TAAPIClient.State None 0 []))
  = Ret (PyDict [("5m", PyDict [("ema20", PyList [PyFloat (FFin 1.2346)]);
                                ("macd", PyList []); ("rsi7", PyList []);
                                ("rsi14", PyList [])]);
                 ("4h", PyDict [("ema20", PyNone); ("ema50", PyNone);
                                ("atr3", PyNone); ("atr14", PyNone);
                                ("macd", PyList []); ("rsi14", PyList [])])]).
Proof. vm_compute. reflexivity. Qed.

Lemma request_layer_retry_policy_witness :
  let net := fun (w : list TAAPIClient.event) (_ : TAAPIClient.event) =>
               if Nat.ltb (length w) 2
               then TAAPIClient.Response 503 None
               else TAAPIClient.Response 404 None in
  let rq := TAAPIClient.PostRequest TAAPIClient.bulk_url (PyDict []) 15 in
  let out := TAAPIClient._post_with_retry net TAAPIClient.bulk_url (PyDict [])
               TAAPIClient.default_retries 5 (TAAPIClient.State None 0 []) in
  fst out = Raise (HTTPError 404) /\
  TAAPIClient.wire (snd out)
  = ([] ++ TAAPIClient.rounds rq 5 1 ++ [rq])%list.
Proof.
  intros net rq out.
  destruct (request_layer_retry_policy net TAAPIClient.bulk_url (PyDict []) 5 rq
              (TAAPIClient._post_with_retry net TAAPIClient.bulk_url (PyDict [])
                 TAAPIClient.default_retries 5)
              (TAAPIClient.State None 0 [])
              (or_intror (conj eq_refl eq_refl)))
    as (_ & _ & Hclient & _).
  apply (Hclient 1 404%Z None).
  - lia.
  - intros j Hj. assert (j = 0) as -> by lia. reflexivity.
  - reflexivity.
  - lia.
  - lia.
Defined.

(** ** Symbol mapping *)

Section Symbols.

Import PyString OKXAPI.

Lemma contains_char_cons (sep c : ascii) (s : string) :
  contains (String sep EmptyString) (String c s)
  = Ascii.eqb sep c || contains (String sep EmptyString) s.
Proof. cbn. rewrite andb_true_r. reflexivity. Qed.

Lemma contains_slash_append (s suffix : string) :
  contains "/" s = false ->
  contains "/" (s +:+ suffix) = contains "/" suffix.
Proof.
  induction s as [|c s IH]; intros Hs; [reflexivity|].
  rewrite append_cons, contains_char_cons.
  rewrite contains_char_cons in Hs. apply orb_false_iff in Hs as [Hc Hs].
  rewrite Hc, (IH Hs). reflexivity.
Qed.

Lemma split_head_append (s rest : string) :
  contains "/" s = false ->
  split_head "/" (s +:+ String "/" rest) = s.
Proof.
  induction s as [|c s IH]; intros Hs.
  - reflexivity.
  - rewrite append_cons. cbn [split_head].
    rewrite contains_char_cons in Hs. apply orb_false_iff in Hs as [Hc Hs].
    rewrite Ascii.eqb_sym, Hc, (IH Hs). reflexivity.
Qed.

Lemma contains_suffix (pat s : string) :
  contains pat pat = true -> contains pat (s +:+ pat) = true.
Proof.
  intros Hp. induction s as [|c s IH]; [exact Hp|].
  rewrite append_cons. cbn [contains]. rewrite IH. apply orb_true_r.
Qed.

Lemma startswith_cons (c d : ascii) (pat s : string) :
  startswith (String c pat) (String d s) = Ascii.eqb c d && startswith pat s.
Proof. reflexivity. Qed.

(** The suffix ["-USDT-SWAP"] appended to a string without ["-SWAP"] occurs
    in the result only at the very end. *)
Lemma suffix_not_earlier (c : ascii) (s : string) :
  contains "-SWAP" (String c s) = false ->
  startswith "-USDT-SWAP" (String c s +:+ "-USDT-SWAP") = false.
Proof.
  intros H. rewrite append_cons.
  repeat
    (rewrite startswith_cons;
     match goal with
     | |- (Ascii.eqb ?a ?b && _) = false =>
         destruct (Ascii.eqb_spec a b) as [<- | _]; [cbn [andb] | reflexivity]
     end;
     match goal with
     | |- startswith _ (?t +:+ _) = false =>
         destruct t as [|? ?];
         [rewrite append_nil; reflexivity | rewrite append_cons]
     end).
  rewrite startswith_cons.
  destruct (Ascii.eqb_spec "P" a) as [<- | _]; [|reflexivity].
  vm_compute in H. discriminate H.
Qed.

Lemma replace_suffix (s : string) :
  contains "-SWAP" s = false ->
  replace "-USDT-SWAP" "" (s +:+ "-USDT-SWAP") = s.
Proof.
  unfold replace. induction s as [|c s IH]; intros Hs; [reflexivity|].
  pose proof (suffix_not_earlier c s Hs) as Hno.
  rewrite append_cons in Hno |- *.
  cbn [replace_go]. rewrite Hno.
  cbn [contains] in Hs. apply orb_false_iff in Hs as [_ Hs].
  rewrite (IH Hs). reflexivity.
Qed.

(** C9. For every coin ticker [C] (a plain asset name: no ["/"] and no
    ["-SWAP"] in it, the strings both converters pass through unchanged),
    the instrument id is [C] followed by ["-USDT-SWAP"] and converts back to
    [C], and the unified pair symbol is [C] followed by ["/USDT:USDT"] and
    converts back to [C]. *)
Theorem symbol_round_trip (C : string) :
  contains "/" C = false ->
  contains "-SWAP" C = false ->
  _get_inst_id C = C +:+ "-USDT-SWAP" /\
  _get_asset_from_symbol (_get_inst_id C) = C /\
  _get_symbol C = C +:+ "/USDT:USDT" /\
  _get_asset_from_symbol (_get_symbol C) = C.
Proof.
  intros Hslash Hswap.
  assert (Hinst : _get_inst_id C = C +:+ "-USDT-SWAP")
    by (unfold _get_inst_id; rewrite Hswap; reflexivity).
  assert (Hsym : _get_symbol C = C +:+ "/USDT:USDT")
    by (unfold _get_symbol; rewrite Hslash; reflexivity).
  split; [exact Hinst|]. split; [|split; [exact Hsym|]].
  - rewrite Hinst. unfold _get_asset_from_symbol.
    rewrite (contains_slash_append C "-USDT-SWAP" Hslash).
    change (contains "/" "-USDT-SWAP") with false. cbv iota.
    rewrite (contains_suffix "-USDT-SWAP" C eq_refl).
    apply replace_suffix, Hswap.
  - rewrite Hsym. unfold _get_asset_from_symbol.
    rewrite (contains_slash_append C "/USDT:USDT" Hslash).
    change (contains "/" "/USDT:USDT") with true. cbv iota.
    apply split_head_append, Hslash.
Qed.

Lemma symbol_round_trip_witness :
  _get_inst_id "BTC" = "BTC-USDT-SWAP" /\
  _get_asset_from_symbol (_get_inst_id "BTC") = "BTC" /\
  _get_symbol "BTC" = "BTC/USDT:USDT" /\
  _get_asset_from_symbol (_get_symbol "BTC") = "BTC".
Proof. apply (symbol_round_trip "BTC"); reflexivity. Defined.

(** A name that is already a symbol is passed through by the converters
    and mapped to its coin on the way back. *)
Example symbol_passes_through :
  _get_symbol "BTC/USDT:USDT" = "BTC/USDT:USDT" /\
  _get_asset_from_symbol (_get_symbol "BTC/USDT:USDT") = "BTC" /\
  _get_inst_id "BTC-USDT-SWAP" = "BTC-USDT-SWAP" /\
  _get_asset_from_symbol (_get_inst_id "BTC-USDT-SWAP") = "BTC".
Proof. repeat split; reflexivity. Qed.

End Symbols.

(** ** The exchange session *)

Section Session.

Import OKXAPI.

Variable answer : list call -> call -> option pyval.
Variable markets : string -> option Market.
Variable float_str : Q -> string.

Lemma orders_app (cs cs' : list call) :
  orders (cs ++ cs') = (orders cs ++ orders cs')%list.
Proof. apply List.filter_app. Qed.

Lemma config_queries_app (cs cs' : list call) :
  config_queries (cs ++ cs') = config_queries cs + config_queries cs'.
Proof. unfold config_queries. rewrite List.filter_app, length_app. reflexivity. Qed.

Lemma try_except_reraise {A} (m : M state A) (s : state) :
  try_except m (fun e => raise e) s = m s.
Proof. unfold try_except, raise. destruct (m s) as [[a | e] s']; reflexivity. Qed.

Lemma ensure_markets_ok (s : state) :
  markets_available answer s ->
  exists s1,
    _ensure_markets answer s = (Ret tt, s1) /\
    markets_loaded s1 = true /\
    _position_mode s1 = _position_mode s /\
    orders (calls s1) = orders (calls s) /\
    config_queries (calls s1) = config_queries (calls s).
Proof.
  intros Havail. unfold _ensure_markets, bind, gets.
  destruct (markets_loaded s) eqn:Hloaded; cbn [negb].
  - exists s. repeat split; try reflexivity. exact Hloaded.
  - destruct Havail as [Htrue | [v Hv]]; [congruence|].
    rewrite try_except_reraise. unfold bind, exchange_call, modify. rewrite Hv.
    eexists. split; [reflexivity|]. cbn [markets_loaded _position_mode calls].
    rewrite orders_app, config_queries_app. cbn.
    rewrite app_nil_r, Nat.add_0_r. repeat split; reflexivity.
Qed.

(** From [Unknown], the one query and the mode it settles. *)
Lemma ensure_position_mode_unknown (s : state) :
  _position_mode s = None ->
  _ensure_position_mode answer s
  = (Ret tt,
     State (markets_loaded s)
           (Some (detected_mode (answer (calls s) private_get_account_config)))
           (calls s ++ [private_get_account_config])).
Proof.
  intros Hmode. unfold _ensure_position_mode, bind at 1, gets. rewrite Hmode.
  unfold try_except, bind, exchange_call, lift, set_position_mode, modify,
    detected_mode.
  destruct (answer (calls s) private_get_account_config) as [res|]; [|reflexivity].
  destruct (read_pos_mode res) as [pos_mode | e]; [|reflexivity].
  destruct (recognised pos_mode); reflexivity.
Qed.

(** Once known, the mode is returned without a query, whatever the exchange
    would answer. *)
Lemma ensure_position_mode_known (s : state) (m : PositionMode) :
  _position_mode s = Some m ->
  _ensure_position_mode answer s = (Ret tt, s).
Proof.
  intros Hmode. unfold _ensure_position_mode, bind, gets. rewrite Hmode.
  reflexivity.
Qed.

Lemma ensure_position_mode_ok (s : state) :
  exists s2,
    _ensure_position_mode answer s = (Ret tt, s2) /\
    markets_loaded s2 = markets_loaded s /\
    (exists m, _position_mode s2 = Some m) /\
    orders (calls s2) = orders (calls s).
Proof.
  destruct (_position_mode s) as [m|] eqn:Hmode.
  - exists s. rewrite (ensure_position_mode_known s m Hmode).
    repeat split. exists m. exact Hmode.
  - rewrite (ensure_position_mode_unknown s Hmode). eexists.
    split; [reflexivity|]. cbn [markets_loaded _position_mode calls].
    split; [reflexivity|]. split; [eexists; reflexivity|].
    rewrite orders_app. cbn. apply app_nil_r.
Qed.


(** With the market table at hand, the two [_ensure_...] steps succeed and
    leave the session [prepared]: markets loaded, position mode known, no
    order placed. *)
Lemma prepared_ok (s : state) :
  markets_available answer s ->
  _ensure_markets answer s = (Ret tt, snd (_ensure_markets answer s)) /\
  _ensure_position_mode answer (snd (_ensure_markets answer s))
  = (Ret tt, prepared answer s) /\
  markets_loaded (prepared answer s) = true /\
  (exists m, _position_mode (prepared answer s) = Some m) /\
  orders (calls (prepared answer s)) = orders (calls s).
Proof.
  intros Havail.
  destruct (ensure_markets_ok s Havail) as (s1 & H1 & Hl1 & _ & Ho1 & _).
  destruct (ensure_position_mode_ok s1) as (s2 & H2 & Hl2 & Hm2 & Ho2).
  assert (Hprep : prepared answer s = s2)
    by (unfold prepared, bind; rewrite H1, H2; reflexivity).
  rewrite Hprep, H1. cbn [snd]. rewrite H2.
  repeat split; [congruence | exact Hm2 | congruence].
Qed.














(** *** The position mode is detected once *)

Lemma advances_refl (s : state) : advances s s.
Proof.
  unfold advances. destruct (_position_mode s) as [m|].
  - split; reflexivity.
  - left. split; reflexivity.
Qed.

Lemma advances_trans (s s1 s2 : state) :
  advances s s1 -> advances s1 s2 -> advances s s2.
Proof.
  unfold advances. intros H1 H2.
  destruct (_position_mode s) as [m|].
  - destruct H1 as [Hm1 Hq1]. rewrite Hm1 in H2. destruct H2 as [Hm2 Hq2].
    split; congruence.
  - destruct H1 as [[Hm1 Hq1] | (m & Hm1 & Hq1)]; rewrite Hm1 in H2.
    + destruct H2 as [[Hm2 Hq2] | (m & Hm2 & Hq2)].
      * left. split; congruence.
      * right. exists m. split; congruence.
    + destruct H2 as [Hm2 Hq2]. right. exists m. split; congruence.
Qed.

Lemma keeps_ret {A} (a : A) : keeps (ret a).
Proof. intros s. apply advances_refl. Qed.

Lemma keeps_raise {A} (e : exn) : keeps (@raise state A e).
Proof. intros s. apply advances_refl. Qed.

Lemma keeps_gets {A} (f : state -> A) : keeps (gets f).
Proof. intros s. apply advances_refl. Qed.

Lemma keeps_lift {A} (r : res A) : keeps (@lift state A r).
Proof. intros s. apply advances_refl. Qed.

Lemma keeps_bind {A B} (m : M state A) (k : A -> M state B) :
  keeps m -> (forall a, keeps (k a)) -> keeps (bind m k).
Proof.
  intros Hm Hk s. unfold bind. specialize (Hm s).
  destruct (m s) as [[a | e] s1]; cbn [snd] in *.
  - eapply advances_trans; [exact Hm | apply Hk].
  - exact Hm.
Qed.

Lemma keeps_try_except {A} (m : M state A) (h : exn -> M state A) :
  keeps m -> (forall e, keeps (h e)) -> keeps (try_except m h).
Proof.
  intros Hm Hh s. unfold try_except. specialize (Hm s).
  destruct (m s) as [[a | e] s1]; cbn [snd] in *.
  - exact Hm.
  - eapply advances_trans; [exact Hm | apply Hh].
Qed.

Lemma keeps_exchange_call (c : call) :
  is_config_query c = false -> keeps (exchange_call answer c).
Proof.
  intros Hc s.
  assert (Hs : advances s (State (markets_loaded s) (_position_mode s) (calls s ++ [c]))).
  { unfold advances. cbn [_position_mode calls].
    rewrite config_queries_app. unfold config_queries at 2. cbn. rewrite Hc. cbn.
    rewrite Nat.add_0_r.
    destruct (_position_mode s); [split | left; split]; reflexivity. }
  unfold exchange_call. destruct (answer (calls s) c); exact Hs.
Qed.

Lemma keeps_ensure_markets : keeps (_ensure_markets answer).
Proof.
  unfold _ensure_markets. apply keeps_bind; [apply keeps_gets|].
  intros loaded. destruct loaded; cbn [negb]; [apply keeps_ret|].
  apply keeps_try_except; [|intros e; apply keeps_raise].
  apply keeps_bind; [apply keeps_exchange_call; reflexivity|].
  intros _ s. unfold modify, advances. cbn [snd _position_mode calls].
  destruct (_position_mode s); [split | left; split]; reflexivity.
Qed.

Lemma keeps_ensure_position_mode : keeps (_ensure_position_mode answer).
Proof.
  intros s. destruct (_position_mode s) as [m|] eqn:Hm.
  - rewrite (ensure_position_mode_known s m Hm). apply advances_refl.
  - rewrite (ensure_position_mode_unknown s Hm). unfold advances. rewrite Hm.
    cbn [snd _position_mode calls]. right. eexists. split; [reflexivity|].
    rewrite config_queries_app. cbn. lia.
Qed.

Lemma keeps_get_contract_value (symbol : string) :
  keeps (_get_contract_value answer markets symbol).
Proof.
  unfold _get_contract_value. apply keeps_bind; [apply keeps_ensure_markets|].
  intros _. apply keeps_try_except; [|intros e; apply keeps_ret].
  destruct (markets symbol) as [market|]; [|apply keeps_raise].
  destruct (contractSize market); [apply keeps_ret | apply keeps_raise].
Qed.

Lemma keeps_place_market_order (asset side : string) (amount : Q) :
  keeps (_place_market_order answer markets asset side amount).
Proof.
  unfold _place_market_order.
  apply keeps_bind; [apply keeps_ensure_markets | intros _].
  apply keeps_bind; [apply keeps_ensure_position_mode | intros _].
  apply keeps_bind; [apply keeps_get_contract_value | intros ct_val].
  destruct (_ =? 0)%Z; [apply keeps_ret|].
  apply keeps_try_except; [|intros e; apply keeps_raise].
  apply keeps_bind; [apply keeps_gets | intros mode].
  apply keeps_exchange_call. reflexivity.
Qed.

Lemma keeps_place_take_profit (asset : string) (is_buy : bool) (amount px : Q) :
  keeps (place_take_profit answer markets float_str asset is_buy amount px).
Proof.
  unfold place_take_profit.
  apply keeps_bind; [apply keeps_ensure_markets | intros _].
  apply keeps_bind; [apply keeps_ensure_position_mode | intros _].
  apply keeps_bind; [apply keeps_get_contract_value | intros ct_val].
  apply keeps_bind; [apply keeps_gets | intros mode].
  apply keeps_try_except; [|intros e; apply keeps_raise].
  apply keeps_exchange_call. reflexivity.
Qed.

Lemma keeps_place_stop_loss (asset : string) (is_buy : bool) (amount px : Q) :
  keeps (place_stop_loss answer markets float_str asset is_buy amount px).
Proof.
  unfold place_stop_loss.
  apply keeps_bind; [apply keeps_ensure_markets | intros _].
  apply keeps_bind; [apply keeps_ensure_position_mode | intros _].
  apply keeps_bind; [apply keeps_get_contract_value | intros ct_val].
  apply keeps_bind; [apply keeps_gets | intros mode].
  apply keeps_try_except; [|intros e; apply keeps_raise].
  apply keeps_exchange_call. reflexivity.
Qed.

Lemma serve_advances (s : state) (r : request) :
  advances s (serve answer markets float_str s r).
Proof.
  destruct r; cbn [serve].
  - apply keeps_ensure_position_mode.
  - apply keeps_place_market_order.
  - apply keeps_place_take_profit.
  - apply keeps_place_stop_loss.
Qed.

Lemma serve_all_advances (rs : list request) (s : state) :
  advances s (serve_all answer markets float_str rs s).
Proof.
  revert s. induction rs as [|r rs IH]; intros s; [apply advances_refl|].
  cbn. eapply advances_trans; [apply serve_advances | apply IH].
Qed.

Lemma detected_mode_reported (pos_mode : string) :
  detected_mode (Some (account_config pos_mode))
  = if String.eqb pos_mode "long_short_mode" then long_short_mode else net_mode.
Proof.
  unfold detected_mode, account_config. cbn.
  destruct (String.eqb_spec pos_mode "net_mode") as [-> | _]; [reflexivity|].
  destruct (String.eqb pos_mode "long_short_mode"); reflexivity.
Qed.

(** C4. Starting from [Unknown], the first [_ensure_position_mode] makes
    the one account-config query and stores the mode it reports, [NetMode]
    when the query fails or reports a mode that is not recognised; once
    the mode is known, [_ensure_position_mode] returns without a query and
    changes nothing, whatever the exchange would answer; no later request
    changes the mode or queries again; and from a new session the query is
    made at most once, whatever is requested. *)
Theorem position_mode_detected_once :
  (forall s,
     _position_mode s = None ->
     _ensure_position_mode answer s
     = (Ret tt,
        State (markets_loaded s)
              (Some (detected_mode (answer (calls s) private_get_account_config)))
              (calls s ++ [private_get_account_config]))) /\
  (forall pos_mode,
     detected_mode (Some (account_config pos_mode))
     = if String.eqb pos_mode "long_short_mode" then long_short_mode else net_mode) /\
  detected_mode None = net_mode /\
  (forall s m, _position_mode s = Some m -> _ensure_position_mode answer s = (Ret tt, s)) /\
  (forall rs s m,
     _position_mode s = Some m ->
     _position_mode (serve_all answer markets float_str rs s) = Some m /\
     config_queries (calls (serve_all answer markets float_str rs s))
     = config_queries (calls s)) /\
  (forall rs, config_queries (calls (serve_all answer markets float_str rs init)) <= 1).
Proof.
  split; [exact ensure_position_mode_unknown|].
  split; [exact detected_mode_reported|].
  split; [reflexivity|].
  split; [exact ensure_position_mode_known|].
  split.
  - intros rs s m Hm. pose proof (serve_all_advances rs s) as H.
    unfold advances in H. rewrite Hm in H. exact H.
  - intros rs. pose proof (serve_all_advances rs init) as H.
    unfold advances in H. cbn in H.
    destruct H as [[_ ->] | (m & _ & ->)]; lia.
Qed.

End Session.

(** ** The properties on a concrete exchange *)

Lemma position_mode_detected_once_witness :
  let answer := fun (cs : list OKXAPI.call) (c : OKXAPI.call) =>
                  match c, cs with
                  | OKXAPI.private_get_account_config, [_] =>
                      Some (OKXAPI.account_config "long_short_mode")
                  | OKXAPI.private_get_account_config, _ =>
                      Some (OKXAPI.account_config "net_mode")
                  | _, _ => Some (PyDict [("code", PyStr "0")])
                  end in
  let markets := fun _ : string => Some {| OKXAPI.contractSize := Some 0.01%Q |} in
  let float_str := fun _ : Q => "65000.0" in
  let s1 := OKXAPI.serve_all answer markets float_str
              [OKXAPI.MarketOrder "BTC" "buy" 0.25] OKXAPI.init in
  OKXAPI._position_mode s1 = Some OKXAPI.long_short_mode /\
  OKXAPI._position_mode
    (OKXAPI.serve_all answer markets float_str
       [OKXAPI.EnsurePositionMode; OKXAPI.TakeProfit "BTC" true 0.25 70000] s1)
  = Some OKXAPI.long_short_mode /\
  OKXAPI.config_queries
    (OKXAPI.calls
       (OKXAPI.serve_all answer markets float_str
          [OKXAPI.MarketOrder "BTC" "buy" 0.25; OKXAPI.EnsurePositionMode;
           OKXAPI.TakeProfit "BTC" true 0.25 70000] OKXAPI.init)) <= 1.
Proof.
  intros answer markets float_str s1.
  destruct (position_mode_detected_once answer markets float_str)
    as (_ & _ & _ & _ & Hkept & Honce).
  assert (Hs1 : OKXAPI._position_mode s1 = Some OKXAPI.long_short_mode)
    by reflexivity.
  split; [exact Hs1|]. split.
  - apply (Hkept _ s1 OKXAPI.long_short_mode Hs1).
  - apply Honce.
Defined.



(** * Further properties *)

(** ** The cache: overwriting, other keys, clearing, eviction *)

Section CacheMore.

Import TAAPICache.

(** What [get] returns depends on the entry under its key and on the ttl
    only. *)
Lemma get_fst_lookup (c1 c2 : t) (now : Q) (asset interval : string) :
  _cache c1 !! key asset interval = _cache c2 !! key asset interval ->
  ttl c1 = ttl c2 ->
  fst (get c1 now asset interval) = fst (get c2 now asset interval).
Proof.
  intros Hk Httl. unfold get. rewrite Hk, Httl.
  destruct (_cache c2 !! key asset interval) as [e|]; [|reflexivity].
  cbn. destruct (negb _); reflexivity.
Qed.

Lemma get_ttl (self : t) (now : Q) (asset interval : string) :
  ttl (snd (get self now asset interval)) = ttl self.
Proof.
  unfold get. destruct (_cache self !! key asset interval) as [e|]; [|reflexivity].
  cbn. destruct (negb _); reflexivity.
Qed.

Lemma get_lookup_other (self : t) (now : Q) (asset interval k : string) :
  key asset interval <> k ->
  _cache (snd (get self now asset interval)) !! k = _cache self !! k.
Proof.
  intros Hne. unfold get.
  destruct (_cache self !! key asset interval) as [e|]; [|reflexivity].
  cbn. destruct (negb _); cbn; [|reflexivity].
  apply lookup_delete_ne, Hne.
Qed.

(** X1. A second [set] of a key replaces the first: the cache is the one
    a single [set] of the later bundle gives, it has as many entries as
    after the first [set], and a [get] within the ttl of the later write
    returns the later bundle. *)
Theorem cache_set_overwrites
    (self : t) (asset interval : string) (b1 b2 : pyval) (t1 t2 now : Q) :
  (now - t2 <= ttl self)%Q ->
  let once := set self t2 asset interval b2 in
  let twice := set (set self t1 asset interval b1) t2 asset interval b2 in
  twice = once /\
  get twice now asset interval = (Some b2, twice) /\
  size (_cache twice) = size (_cache (set self t1 asset interval b1)).
Proof.
  intros Hage. cbv zeta.
  assert (Heq : set (set self t1 asset interval b1) t2 asset interval b2
                = set self t2 asset interval b2).
  { unfold set. cbn [ttl _cache]. rewrite insert_insert_eq. reflexivity. }
  split; [exact Heq|]. split.
  - rewrite Heq.
    apply (get_hit (set self t2 asset interval b2) now asset interval
             (Entry t2 b2)); [apply lookup_insert_eq | exact Hage].
  - unfold set. cbn [ttl _cache].
    rewrite (map_size_insert (key asset interval) (Entry t2 b2)).
    rewrite lookup_insert_eq. reflexivity.
Qed.

Lemma cache_set_overwrites_witness :
  let c := set (set (init 60) 0 "BTC" "5m" (PyInt 1)) 50 "BTC" "5m" (PyInt 2) in
  c = set (init 60) 50 "BTC" "5m" (PyInt 2) /\
  get c 100 "BTC" "5m" = (Some (PyInt 2), c) /\
  size (_cache c) = size (_cache (set (init 60) 0 "BTC" "5m" (PyInt 1))).
Proof.
  apply (cache_set_overwrites (init 60) "BTC" "5m" (PyInt 1) (PyInt 2) 0 50 100).
  unfold Qle. cbn. lia.
Defined.

(** X2. A [set] or a [get] of one key, also a [get] that evicts it, does
    not change what a [get] of another key returns. *)
Theorem cache_other_key_untouched
    (self : t) (asset interval asset' interval' : string) (b : pyval)
    (t1 now : Q) :
  key asset interval <> key asset' interval' ->
  fst (get (set self t1 asset interval b) now asset' interval')
  = fst (get self now asset' interval') /\
  fst (get (snd (get self t1 asset interval)) now asset' interval')
  = fst (get self now asset' interval').
Proof.
  intros Hne. split; apply get_fst_lookup.
  - unfold set. cbn [_cache]. apply lookup_insert_ne, Hne.
  - reflexivity.
  - apply get_lookup_other, Hne.
  - apply get_ttl.
Qed.

Lemma cache_other_key_untouched_witness :
  let c := set (init 60) 0 "BTC" "5m" (PyInt 1) in
  fst (get (set c 10 "ETH" "5m" (PyInt 2)) 20 "BTC" "5m") = fst (get c 20 "BTC" "5m") /\
  fst (get (snd (get c 10 "ETH" "5m")) 20 "BTC" "5m") = fst (get c 20 "BTC" "5m").
Proof.
  apply (cache_other_key_untouched (set (init 60) 0 "BTC" "5m" (PyInt 1))
           "ETH" "5m" "BTC" "5m" (PyInt 2) 10 20).
  vm_compute. discriminate.
Defined.

(** X3. After [clear] the cache reports no entry, and a key stays absent
    through whatever is done next until it is [set] again. *)
Theorem clear_forgets
    (self : t) (ops : list op) (now later : Q) (asset interval : string) :
  key asset interval ∉ stored_keys ops ->
  get (run ops (clear self)) now asset interval = (None, run ops (clear self)) /\
  fst (stats (clear self) later) = Stats 0 0 0 (ttl self).
Proof.
  intros Hnot. split.
  - apply get_miss. apply run_lookup_None; [apply lookup_empty | exact Hnot].
  - unfold stats, clear. cbn [_cache ttl]. rewrite map_fold_empty, map_size_empty.
    reflexivity.
Qed.

Lemma clear_forgets_witness :
  let c := set (init 60) 0 "BTC" "5m" (PyInt 1) in
  get (run [OpSet 5 "ETH" "5m" (PyInt 2)] (clear c)) 10 "BTC" "5m"
  = (None, run [OpSet 5 "ETH" "5m" (PyInt 2)] (clear c)) /\
  fst (stats (clear c) 10) = Stats 0 0 0 (ttl c).
Proof.
  apply (clear_forgets (set (init 60) 0 "BTC" "5m" (PyInt 1))
           [OpSet 5 "ETH" "5m" (PyInt 2)] 10 10 "BTC" "5m").
  vm_compute. intros H. inversion H as [|? ? ? H']; inversion H'.
Defined.

(** X4. A [get] that finds its entry expired removes exactly that entry
    from the counts of [stats] at the same time: one expired entry less, as
    many active ones. *)
Theorem get_evicts_one_expired
    (self : t) (asset interval : string) (e : entry) (now : Q) :
  _cache self !! key asset interval = Some e ->
  (ttl self < now - timestamp e)%Q ->
  let before := fst (stats self now) in
  let after := fst (stats (snd (get self now asset interval)) now) in
  active_entries after = active_entries before /\
  S (expired_entries after) = expired_entries before /\
  S (total_entries after) = total_entries before.
Proof.
  intros Hk Hage. cbv zeta.
  rewrite (get_expired self now asset interval e Hk Hage). cbn [snd].
  assert (Hnot : ~ active (ttl self) now e)
    by (unfold active; apply Qlt_not_le, Hage).
  destruct (stats_counters (ttl self) now (_cache self)) as (Ha & He & _).
  destruct (stats_counters (ttl self) now (delete (key asset interval) (_cache self)))
    as (Ha' & He' & _).
  unfold stats. cbn [fst active_entries expired_entries total_entries _cache ttl].
  rewrite Ha, He, Ha', He'. rewrite !map_filter_delete.
  split; [|split].
  - rewrite map_size_delete_None; [reflexivity|].
    apply map_lookup_filter_None_2. right. intros x Hx.
    rewrite Hk in Hx. injection Hx as <-. exact Hnot.
  - apply (size_delete_present _ _ e).
    apply map_lookup_filter_Some. split; [exact Hk | exact Hnot].
  - apply (size_delete_present _ _ e Hk).
Qed.

Lemma get_evicts_one_expired_witness :
  let c := set (set (init 60) 0 "BTC" "5m" (PyInt 1)) 100 "ETH" "5m" (PyInt 2) in
  let before := fst (stats c 120) in
  let after := fst (stats (snd (get c 120 "BTC" "5m")) 120) in
  active_entries after = active_entries before /\
  S (expired_entries after) = expired_entries before /\
  S (total_entries after) = total_entries before.
Proof.
  apply (get_evicts_one_expired
           (set (set (init 60) 0 "BTC" "5m" (PyInt 1)) 100 "ETH" "5m" (PyInt 2))
           "BTC" "5m" (Entry 0 (PyInt 1)) 120).
  - vm_compute. reflexivity.
  - unfold Qlt. cbn. lia.
Defined.

End CacheMore.

(** ** The shared cache instance *)

Section CacheInstance.

Import TAAPIClient TAAPICacheInstance.

(** X5. The cache instance is created once.  With no instance yet, a
    client built with the cache enabled creates an empty one with its
    [cache_ttl], and a client built with the cache disabled creates none.
    Once there is an instance, whatever it holds, building a client with
    whatever [cache_ttl], cache enabled or not, and calling [get_cache]
    return that instance and leave its ttl and its entries as they are. *)
Theorem cache_instance_created_once
    (key1 key2 : string) (ttl1 ttl2 : Q) (enable2 : bool) (s s' : state)
    (c : TAAPICache.t) :
  cache s = None ->
  cache s' = Some c ->
  cache (snd (new_client key1 true ttl1 s)) = Some (TAAPICache.init ttl1) /\
  new_client key1 false ttl1 s = (Ret (Client key1 false), s) /\
  new_client key2 enable2 ttl2 s' = (Ret (Client key2 enable2), s') /\
  get_cache ttl2 s' = (Ret c, s').
Proof.
  intros Hnone Hsome.
  unfold new_client, bind, get_cache, ret.
  repeat split; try destruct enable2; cbn; rewrite ?Hnone, ?Hsome; reflexivity.
Qed.

Lemma cache_instance_created_once_witness :
  let s := State None 0 [] in
  let c := TAAPICache.set (TAAPICache.init 60) 0 "BTC" "5m" (PyInt 1) in
  let s' := State (Some c) 7 [] in
  cache (snd (new_client "k" true 60 s)) = Some (TAAPICache.init 60) /\
  new_client "k" false 60 s = (Ret (Client "k" false), s) /\
  new_client "k" true 5 s' = (Ret (Client "k" true), s') /\
  get_cache 5 s' = (Ret c, s').
Proof.
  intros s c s'.
  apply (cache_instance_created_once "k" "k" 60 5 true s s' c); reflexivity.
Defined.

End CacheInstance.

(** ** Symbol mapping, for every string *)

Section SymbolsMore.

Import PyString OKXAPI.

Lemma contains_append_r (pat s suffix : string) :
  contains pat suffix = true -> contains pat (s +:+ suffix) = true.
Proof.
  intros Hp. induction s as [|c s IH]; [exact Hp|].
  rewrite append_cons. cbn [contains]. rewrite IH. apply orb_true_r.
Qed.

Lemma split_head_no_sep (s : string) : contains "/" (split_head "/" s) = false.
Proof.
  induction s as [|c s IH]; [reflexivity|].
  cbn [split_head]. destruct (Ascii.eqb_spec c "/") as [-> | Hne]; [reflexivity|].
  rewrite contains_char_cons, IH, orb_false_r.
  apply Ascii.eqb_neq. congruence.
Qed.

Lemma replace_go_no_slash (old s : string) (skip : nat) :
  contains "/" s = false -> contains "/" (replace_go old "" s skip) = false.
Proof.
  revert skip. induction s as [|c s IH]; intros skip Hs; [reflexivity|].
  rewrite contains_char_cons in Hs. apply orb_false_iff in Hs as [Hc Hs].
  cbn [replace_go]. destruct skip as [|k]; [|apply IH, Hs].
  destruct (startswith old (String c s)).
  - rewrite append_nil. apply IH, Hs.
  - rewrite contains_char_cons, Hc. apply IH, Hs.
Qed.

(** X6. Both converters are idempotent on every string: a name that
    already is a symbol (an instrument id) is passed through. *)
Theorem symbol_conversion_idempotent (asset : string) :
  _get_symbol (_get_symbol asset) = _get_symbol asset /\
  _get_inst_id (_get_inst_id asset) = _get_inst_id asset.
Proof.
  split.
  - unfold _get_symbol at 2 3. destruct (contains "/" asset) eqn:Hs.
    + unfold _get_symbol. rewrite Hs. reflexivity.
    + unfold _get_symbol.
      rewrite (contains_append_r "/" asset "/USDT:USDT" eq_refl). reflexivity.
  - unfold _get_inst_id at 2 3. destruct (contains "-SWAP" asset) eqn:Hs.
    + unfold _get_inst_id. rewrite Hs. reflexivity.
    + unfold _get_inst_id.
      rewrite (contains_append_r "-SWAP" asset "-USDT-SWAP" eq_refl). reflexivity.
Qed.

(** X7. The coin [_get_asset_from_symbol] extracts from any string holds no
    ["/"]; so turning it into a symbol, as the order and fill listings do,
    always appends ["/USDT:USDT"] to it. *)
Theorem asset_from_symbol_is_plain (symbol : string) :
  contains "/" (_get_asset_from_symbol symbol) = false /\
  _get_symbol (_get_asset_from_symbol symbol)
  = _get_asset_from_symbol symbol +:+ "/USDT:USDT".
Proof.
  assert (Hplain : contains "/" (_get_asset_from_symbol symbol) = false).
  { unfold _get_asset_from_symbol. destruct (contains "/" symbol) eqn:Hs.
    - apply split_head_no_sep.
    - destruct (contains "-USDT-SWAP" symbol); [|exact Hs].
      apply replace_go_no_slash, Hs. }
  split; [exact Hplain|]. unfold _get_symbol. rewrite Hplain. reflexivity.
Qed.

End SymbolsMore.

(** ** The exchange session: order sides, missing markets, loading once *)

Section SessionMore.

Import OKXAPI OKXNotions.

Variable answer : list call -> call -> option pyval.
Variable markets : string -> option Market.
Variable float_str : Q -> string.

(** X9. When the market table is not loaded and loading it fails, every
    order method raises the failure after that one call: no order is
    placed, the position mode is not queried, and the table is still marked
    as not loaded, so that the next request tries again. *)
Theorem no_markets_no_order
    (asset side : string) (is_buy : bool) (amount px : Q) (s : state) :
  markets_loaded s = false ->
  answer (calls s) load_markets = None ->
  let failed := (Raise ExchangeError,
                 State false (_position_mode s) (calls s ++ [load_markets])) in
  _place_market_order answer markets asset side amount s = failed /\
  place_take_profit answer markets float_str asset is_buy amount px s = failed /\
  place_stop_loss answer markets float_str asset is_buy amount px s = failed /\
  orders (calls (snd failed)) = orders (calls s) /\
  config_queries (calls (snd failed)) = config_queries (calls s).
Proof.
  intros Hloaded Hfail. cbv zeta.
  assert (Hensure : _ensure_markets answer s
                    = (Raise ExchangeError,
                       State false (_position_mode s) (calls s ++ [load_markets]))).
  { unfold _ensure_markets, bind, gets. rewrite Hloaded. cbn [negb].
    rewrite try_except_reraise. unfold bind, exchange_call. rewrite Hfail, Hloaded.
    reflexivity. }
  split; [|split; [|split; [|split]]].
  - unfold _place_market_order. unfold bind at 1. rewrite Hensure. reflexivity.
  - unfold place_take_profit. unfold bind at 1. rewrite Hensure. reflexivity.
  - unfold place_stop_loss. unfold bind at 1. rewrite Hensure. reflexivity.
  - cbn [snd calls]. rewrite orders_app. cbn. apply app_nil_r.
  - cbn [snd calls]. rewrite config_queries_app. cbn. lia.
Qed.

(** *** The market table is loaded once *)

Lemma stays_loaded_refl (s : state) : stays_loaded s s.
Proof. intros H. split; [exact H | reflexivity]. Qed.

Lemma stays_loaded_trans (s s1 s2 : state) :
  stays_loaded s s1 -> stays_loaded s1 s2 -> stays_loaded s s2.
Proof.
  intros H1 H2 H. destruct (H1 H) as [Hl1 Hn1]. destruct (H2 Hl1) as [Hl2 Hn2].
  split; congruence.
Qed.

Section Preserved.

Variable R : state -> state -> Prop.
Hypothesis R_refl : forall s, R s s.
Hypothesis R_trans : forall s s1 s2, R s s1 -> R s1 s2 -> R s s2.

Lemma preserved_ret {A} (a : A) : preserved R (ret a).
Proof. intros s. apply R_refl. Qed.

Lemma preserved_raise {A} (e : exn) : preserved R (@raise state A e).
Proof. intros s. apply R_refl. Qed.

Lemma preserved_gets {A} (f : state -> A) : preserved R (gets f).
Proof. intros s. apply R_refl. Qed.

Lemma preserved_bind {A B} (m : M state A) (k : A -> M state B) :
  preserved R m -> (forall a, preserved R (k a)) -> preserved R (bind m k).
Proof.
  intros Hm Hk s. unfold bind. specialize (Hm s).
  destruct (m s) as [[a | e] s1]; cbn [snd] in *.
  - eapply R_trans; [exact Hm | apply Hk].
  - exact Hm.
Qed.

Lemma preserved_try_except {A} (m : M state A) (h : exn -> M state A) :
  preserved R m -> (forall e, preserved R (h e)) -> preserved R (try_except m h).
Proof.
  intros Hm Hh s. unfold try_except. specialize (Hm s).
  destruct (m s) as [[a | e] s1]; cbn [snd] in *.
  - exact Hm.
  - eapply R_trans; [exact Hm | apply Hh].
Qed.

End Preserved.

Lemma kept_bind {A B} (m : M state A) (k : A -> M state B) :
  kept m -> (forall a, kept (k a)) -> kept (bind m k).
Proof. apply preserved_bind, stays_loaded_trans. Qed.

Lemma kept_try {A} (m : M state A) (h : exn -> M state A) :
  kept m -> (forall e, kept (h e)) -> kept (try_except m h).
Proof. apply preserved_try_except, stays_loaded_trans. Qed.

Lemma kept_ret {A} (a : A) : kept (ret a).
Proof. apply preserved_ret, stays_loaded_refl. Qed.

Lemma kept_raise {A} (e : exn) : kept (@raise state A e).
Proof. apply preserved_raise, stays_loaded_refl. Qed.

Lemma kept_gets {A} (f : state -> A) : kept (gets f).
Proof. apply preserved_gets, stays_loaded_refl. Qed.

Lemma kept_exchange_call (c : call) :
  is_load c = false -> kept (exchange_call answer c).
Proof.
  intros Hc s Hl.
  assert (Hs : markets_loaded (State (markets_loaded s) (_position_mode s) (calls s ++ [c]))
               = true /\
               loads (calls (State (markets_loaded s) (_position_mode s) (calls s ++ [c])))
               = loads (calls s)).
  { cbn [markets_loaded calls]. split; [exact Hl|].
    unfold loads. rewrite List.filter_app, length_app. cbn. rewrite Hc. cbn. lia. }
  unfold exchange_call. destruct (answer (calls s) c); exact Hs.
Qed.

Lemma kept_ensure_markets : kept (_ensure_markets answer).
Proof.
  intros s Hl. unfold _ensure_markets, bind, gets. rewrite Hl. cbn.
  split; [exact Hl | reflexivity].
Qed.

Lemma kept_ensure_position_mode : kept (_ensure_position_mode answer).
Proof.
  unfold _ensure_position_mode. apply kept_bind; [apply kept_gets|].
  intros [m|]; [apply kept_ret|].
  assert (Hset : forall m, kept (set_position_mode m)).
  { intros m s Hl. unfold set_position_mode, modify. cbn.
    split; [exact Hl | reflexivity]. }
  apply kept_try; [|intros e; apply Hset].
  apply kept_bind; [apply kept_exchange_call; reflexivity|].
  intros res. apply kept_bind.
  - intros s. apply stays_loaded_refl.
  - intros pos_mode. destruct (recognised pos_mode); apply Hset.
Qed.

Lemma kept_get_contract_value (symbol : string) :
  kept (_get_contract_value answer markets symbol).
Proof.
  unfold _get_contract_value. apply kept_bind; [apply kept_ensure_markets|].
  intros _. apply kept_try; [|intros e; apply kept_ret].
  destruct (markets symbol) as [market|]; [|apply kept_raise].
  destruct (contractSize market); [apply kept_ret | apply kept_raise].
Qed.

Lemma kept_serve (s : state) (r : request) :
  stays_loaded s (serve answer markets float_str s r).
Proof.
  destruct r; cbn [serve].
  - apply kept_ensure_position_mode.
  - unfold _place_market_order.
    apply kept_bind; [apply kept_ensure_markets | intros _].
    apply kept_bind; [apply kept_ensure_position_mode | intros _].
    apply kept_bind; [apply kept_get_contract_value | intros ct_val].
    destruct (_ =? 0)%Z; [apply kept_ret|].
    apply kept_try; [|intros e; apply kept_raise].
    apply kept_bind; [apply kept_gets | intros mode].
    apply kept_exchange_call. reflexivity.
  - unfold place_take_profit.
    apply kept_bind; [apply kept_ensure_markets | intros _].
    apply kept_bind; [apply kept_ensure_position_mode | intros _].
    apply kept_bind; [apply kept_get_contract_value | intros ct_val].
    apply kept_bind; [apply kept_gets | intros mode].
    apply kept_try; [|intros e; apply kept_raise].
    apply kept_exchange_call. reflexivity.
  - unfold place_stop_loss.
    apply kept_bind; [apply kept_ensure_markets | intros _].
    apply kept_bind; [apply kept_ensure_position_mode | intros _].
    apply kept_bind; [apply kept_get_contract_value | intros ct_val].
    apply kept_bind; [apply kept_gets | intros mode].
    apply kept_try; [|intros e; apply kept_raise].
    apply kept_exchange_call. reflexivity.
Qed.

(** X10. Once the market table is loaded, no sequence of requests loads it
    again or marks it as missing. *)
Theorem markets_loaded_once (rs : list request) (s : state) :
  markets_loaded s = true ->
  markets_loaded (serve_all answer markets float_str rs s) = true /\
  loads (calls (serve_all answer markets float_str rs s)) = loads (calls s).
Proof.
  revert s. induction rs as [|r rs IH]; intros s Hl; [split; [exact Hl|reflexivity]|].
  cbn [serve_all fold_left].
  destruct (kept_serve s r Hl) as [Hl1 Hn1].
  destruct (IH _ Hl1) as [Hl2 Hn2]. unfold serve_all in *.
  split; congruence.
Qed.

End SessionMore.

Lemma no_markets_no_order_witness :
  let answer := fun (_ : list OKXAPI.call) (_ : OKXAPI.call) => @None pyval in
  let markets := fun _ : string => @None OKXAPI.Market in
  OKXAPI._place_market_order answer markets "BTC" "buy" 1 OKXAPI.init
  = (Raise ExchangeError, OKXAPI.State false None [OKXAPI.load_markets]).
Proof.
  intros answer markets.
  apply (no_markets_no_order answer markets (fun _ => "") "BTC" "buy" true 1 1
           OKXAPI.init); reflexivity.
Defined.

Lemma markets_loaded_once_witness :
  let answer := fun (_ : list OKXAPI.call) (_ : OKXAPI.call) =>
                  Some (PyDict [("code", PyStr "0")]) in
  let markets := fun _ : string => Some {| OKXAPI.contractSize := Some 0.01%Q |} in
  let float_str := fun _ : Q => "1.0" in
  let s := OKXAPI.serve answer markets float_str OKXAPI.init
             (OKXAPI.MarketOrder "BTC" "buy" 1) in
  OKXNotions.loads (OKXAPI.calls s) = 1 /\
  OKXNotions.loads
    (OKXAPI.calls
       (OKXAPI.serve_all answer markets float_str
          [OKXAPI.TakeProfit "BTC" true 1 2; OKXAPI.MarketOrder "BTC" "sell" 1] s))
  = OKXNotions.loads (OKXAPI.calls s).
Proof.
  intros answer markets float_str s. split; [reflexivity|].
  apply (markets_loaded_once answer markets float_str). reflexivity.
Defined.

(** ** The indicator client: cache hits, the fresh fetch, the bulk parser *)

Section ClientMore.

Import TAAPIClient TAAPINotions.

Variable net : list event -> event -> outcome.

(** A probe of the cache that finds both intervals fresh and not empty. *)
Lemma fetch_asset_indicators_hit
    (self : client) (asset : string) (c : TAAPICache.t)
    (e5 e4 : TAAPICache.entry) (now : Q) (w : list event) :
  enable_cache self = true ->
  TAAPICache._cache c !! TAAPICache.key asset "5m" = Some e5 ->
  TAAPICache._cache c !! TAAPICache.key asset "4h" = Some e4 ->
  (now - TAAPICache.timestamp e5 <= TAAPICache.ttl c)%Q ->
  (now - TAAPICache.timestamp e4 <= TAAPICache.ttl c)%Q ->
  truthy (TAAPICache.data e5) = true ->
  truthy (TAAPICache.data e4) = true ->
  fetch_asset_indicators net self asset (State (Some c) now w)
  = (Ret (PyDict [("5m", TAAPICache.data e5); ("4h", TAAPICache.data e4)]),
     State (Some c) now w).
Proof.
  intros Hon H5 H4 Hage5 Hage4 Ht5 Ht4.
  unfold fetch_asset_indicators, cache_probe.
  unfold bind at 1. unfold bind at 1. rewrite cache_on_run. cbn [cache].
  rewrite Hon. cbn [andb].
  replace (bool_decide (is_Some (Some c))) with true
    by (symmetry; apply bool_decide_eq_true; eexists; reflexivity).
  unfold bind, cache_get, ret. cbn [cache clock wire].
  rewrite (get_hit c now asset "5m" e5 H5 Hage5). cbn [fst snd from_option].
  rewrite (get_hit c now asset "4h" e4 H4 Hage4). cbn [fst snd from_option].
  unfold id. rewrite Ht5, Ht4. reflexivity.
Qed.


(** X11. When both intervals of an asset are in the cache, unexpired and
    not empty, [fetch_asset_indicators] returns the two cached bundles and
    does nothing else: no request, no sleep, no change of the cache. *)
Theorem cached_bundles_served
    (self : client) (asset : string) (c : TAAPICache.t)
    (e5 e4 : TAAPICache.entry) (now : Q) (w : list event) :
  enable_cache self = true ->
  TAAPICache._cache c !! TAAPICache.key asset "5m" = Some e5 ->
  TAAPICache._cache c !! TAAPICache.key asset "4h" = Some e4 ->
  (now - TAAPICache.timestamp e5 <= TAAPICache.ttl c)%Q ->
  (now - TAAPICache.timestamp e4 <= TAAPICache.ttl c)%Q ->
  truthy (TAAPICache.data e5) = true ->
  truthy (TAAPICache.data e4) = true ->
  fetch_asset_indicators net self asset (State (Some c) now w)
  = (Ret (PyDict [("5m", TAAPICache.data e5); ("4h", TAAPICache.data e4)]),
     State (Some c) now w).
Proof. apply fetch_asset_indicators_hit. Qed.

(** The state a bulk fetch leaves is the one its request layer leaves. *)
Lemma fetch_bulk_state (self : client) (symbol interval : string)
    (config inds : list pyval) (s : state) :
  mapM indicator_def config = Ret inds ->
  snd (fetch_bulk_indicators net self symbol interval config s)
  = snd (_post_with_retry net bulk_url (bulk_payload self symbol interval inds)
           default_retries default_backoff s).
Proof.
  intros Hinds. unfold fetch_bulk_indicators, try_except, bind, lift, ret.
  rewrite Hinds.
  destruct (_post_with_retry net bulk_url _ default_retries default_backoff s)
    as [[response | e] s1]; [|reflexivity].
  destruct (parse_results response); reflexivity.
Qed.

Lemma fetch_bulk_wire (self : client) (asset interval : string)
    (config : list pyval) (s : state) :
  mapM indicator_def config = Ret config ->
  exists d s1 k,
    fetch_bulk_indicators net self (asset +:+ "/USDT") interval config s
    = (Ret (PyDict d), s1) /\
    k < 10 /\
    wire s1 = (wire s ++ rounds (bulk_request self asset interval config)
                           default_backoff k
                      ++ [bulk_request self asset interval config])%list /\
    cache s1 = cache s.
Proof.
  intros Hinds.
  destruct (fetch_bulk_returns net self (asset +:+ "/USDT") interval config s)
    as (d & s1 & Hrun).
  pose proof (fetch_bulk_state self (asset +:+ "/USDT") interval config config s Hinds)
    as Hstate.
  rewrite Hrun in Hstate. cbn [snd] in Hstate.
  destruct (retry_loop_follows_policy net (bulk_request self asset interval config)
              default_retries default_backoff s ltac:(unfold default_retries; lia))
    as (k & Hk & _ & _ & _ & Hwire & _ & Hcache).
  exists d, s1, k. split; [exact Hrun|]. split; [exact Hk|].
  rewrite Hstate. split; [exact Hwire | exact Hcache].
Qed.

(** The run of [fetch_fresh]: two bulk fetches with a sleep of 30 between
    them, two bundles that are never empty dictionaries, and the write of
    both to the cache when it is on. *)
Lemma fetch_fresh_run (self : client) (asset : string) (s : state) :
  exists d5 s1 d4 s3 r5 rlt,
    fetch_bulk_indicators net self (asset +:+ "/USDT") "5m" indicators_5m s
    = (Ret (PyDict d5), s1) /\
    fetch_bulk_indicators net self (asset +:+ "/USDT") "4h" indicators_4h
      (State (cache s1) (clock s1 + 30)%Q (wire s1 ++ [Sleep 30]))
    = (Ret (PyDict d4), s3) /\
    truthy r5 = true /\ truthy rlt = true /\
    fetch_fresh net self asset s
    = (Ret (PyDict [("5m", r5); ("4h", rlt)]),
       match cache s3 with
       | Some c =>
           if enable_cache self
           then State (Some (TAAPICache.set
                               (TAAPICache.set c (clock s3) asset "5m" r5)
                               (clock s3) asset "4h" rlt))
                      (clock s3) (wire s3)
           else s3
       | None => s3
       end).
Proof.
  destruct (fetch_bulk_returns net self (asset +:+ "/USDT") "5m" indicators_5m s)
    as (d5 & s1 & Hb5).
  destruct (fetch_bulk_returns net self (asset +:+ "/USDT") "4h" indicators_4h
              (State (cache s1) (clock s1 + 30)%Q (wire s1 ++ [Sleep 30])))
    as (d4 & s3 & Hb4).
  destruct (series_of_total d5 "ema20" "value") as [x1 H1].
  destruct (series_of_total d5 "macd" "valueMACD") as [x2 H2].
  destruct (series_of_total d5 "rsi7" "value") as [x3 H3].
  destruct (series_of_total d5 "rsi14" "value") as [x4 H4].
  destruct (value_of_total d4 "ema20") as [y1 G1].
  destruct (value_of_total d4 "ema50") as [y2 G2].
  destruct (value_of_total d4 "atr3") as [y3 G3].
  destruct (value_of_total d4 "atr14") as [y4 G4].
  destruct (series_of_total d4 "macd" "valueMACD") as [y5 G5].
  destruct (series_of_total d4 "rsi14" "value") as [y6 G6].
  exists d5, s1, d4, s3.
  eexists. eexists.
  split; [exact Hb5|]. split; [exact Hb4|].
  split; [|split]; cycle 2.
  - unfold fetch_fresh.
    unfold bind at 1. rewrite Hb5.
    unfold bind at 1. unfold lift at 1. rewrite H1.
    unfold bind at 1. unfold lift at 1. rewrite H2.
    unfold bind at 1. unfold lift at 1. rewrite H3.
    unfold bind at 1. unfold lift at 1. rewrite H4.
    unfold bind at 1. unfold time_sleep at 1, modify at 1.
    unfold bind at 1. rewrite Hb4.
    unfold bind at 1. unfold lift at 1. rewrite G1.
    unfold bind at 1. unfold lift at 1. rewrite G2.
    unfold bind at 1. unfold lift at 1. rewrite G3.
    unfold bind at 1. unfold lift at 1. rewrite G4.
    unfold bind at 1. unfold lift at 1. rewrite G5.
    unfold bind at 1. unfold lift at 1. rewrite G6.
    unfold bind at 1.
    assert (Htry : forall r : res unit,
               try_except (lift r) (fun _ : exn => ret tt) s3 = (Ret tt, s3)).
    { intros [[]|e]; reflexivity. }
    rewrite Htry.
    unfold bind at 1. rewrite cache_on_run.
    destruct (cache s3) as [c|] eqn:Hc.
    + replace (bool_decide (is_Some (Some c))) with true
        by (symmetry; apply bool_decide_eq_true; eexists; reflexivity).
      rewrite andb_true_r. destruct (enable_cache self).
      * unfold bind, cache_set, ret. rewrite Hc. cbn [cache clock wire].
        reflexivity.
      * reflexivity.
    + replace (bool_decide (is_Some (@None TAAPICache.t))) with false
        by (symmetry; apply bool_decide_eq_false; intros [x Hx]; discriminate).
      rewrite andb_false_r. reflexivity.
  - reflexivity.
  - reflexivity.
Qed.

(** X12. A fresh fetch sends the bulk request for "5m" (retried at most
    nine times), then sleeps 30 seconds, then sends the bulk request for
    "4h" (retried at most nine times): the two horizons are never asked for
    without the sleep between them, and at most 20 requests are made. *)
Theorem fresh_fetch_trace (self : client) (asset : string) (s : state) :
  let rq5 := bulk_request self asset "5m" indicators_5m in
  let rq4 := bulk_request self asset "4h" indicators_4h in
  exists k5 k4,
    k5 < 10 /\ k4 < 10 /\
    wire (snd (fetch_fresh net self asset s))
    = (wire s ++ (rounds rq5 default_backoff k5 ++ [rq5]) ++ [Sleep 30]
              ++ (rounds rq4 default_backoff k4 ++ [rq4]))%list /\
    requests_made (wire (snd (fetch_fresh net self asset s)))
    = requests_made (wire s) + S k5 + S k4.
Proof.
  cbv zeta.
  destruct (fetch_bulk_wire self asset "5m" indicators_5m s eq_refl)
    as (d5 & s1 & k5 & Hb5 & Hk5 & Hw5 & _).
  destruct (fetch_bulk_wire self asset "4h" indicators_4h
              (State (cache s1) (clock s1 + 30)%Q (wire s1 ++ [Sleep 30])) eq_refl)
    as (d4 & s3 & k4 & Hb4 & Hk4 & Hw4 & _).
  destruct (fetch_fresh_run self asset s)
    as (d5' & s1' & d4' & s3' & r5 & rlt & Hb5' & Hb4' & _ & _ & Hrun).
  rewrite Hb5 in Hb5'. injection Hb5' as <- <-.
  rewrite Hb4 in Hb4'. injection Hb4' as <- <-.
  assert (Hwire : wire (snd (fetch_fresh net self asset s)) = wire s3).
  { rewrite Hrun. cbn [snd]. destruct (cache s3); [|reflexivity].
    destruct (enable_cache self); reflexivity. }
  exists k5, k4. split; [exact Hk5|]. split; [exact Hk4|].
  assert (Hfull : wire s3
                  = (wire s ++ (rounds (bulk_request self asset "5m" indicators_5m)
                                  default_backoff k5
                                ++ [bulk_request self asset "5m" indicators_5m])
                       ++ [Sleep 30]
                       ++ (rounds (bulk_request self asset "4h" indicators_4h)
                             default_backoff k4
                           ++ [bulk_request self asset "4h" indicators_4h]))%list).
  { rewrite Hw4. cbn [wire]. rewrite Hw5. rewrite <- !app_assoc. reflexivity. }
  rewrite Hwire. split; [exact Hfull|].
  rewrite Hw4. cbn [wire].
  rewrite (requests_made_rounds (bulk_request self asset "4h" indicators_4h)
             default_backoff _ k4 eq_refl).
  unfold requests_made at 1. rewrite List.filter_app, length_app. cbn [List.filter is_request length].
  fold (requests_made (wire s1)). rewrite Hw5.
  rewrite (requests_made_rounds (bulk_request self asset "5m" indicators_5m)
             default_backoff _ k5 eq_refl). lia.
Qed.

End ClientMore.

Lemma cached_bundles_served_witness :
  let net := fun (_ : list TAAPIClient.event) (_ : TAAPIClient.event) => TAAPIClient.TimedOut in
  let c := TAAPICache.set
             (TAAPICache.set (TAAPICache.init 60) 0 "BTC" "5m"
                (PyDict [("ema20", PyList [PyInt 1])]))
             0 "BTC" "4h" (PyDict [("ema20", PyInt 2)]) in
  TAAPIClient.fetch_asset_indicators net (TAAPIClient.Client "k" true) "BTC" (TAAPIClient.State (Some c) 10 [])
  = (Ret (PyDict [("5m", PyDict [("ema20", PyList [PyInt 1])]);
                  ("4h", PyDict [("ema20", PyInt 2)])]),
     TAAPIClient.State (Some c) 10 []).
Proof.
  intros net c.
  apply (cached_bundles_served net (TAAPIClient.Client "k" true) "BTC" c
           (TAAPICache.Entry 0 (PyDict [("ema20", PyList [PyInt 1])]))
           (TAAPICache.Entry 0 (PyDict [("ema20", PyInt 2)])) 10 []).
  - reflexivity.
  - vm_compute. reflexivity.
  - vm_compute. reflexivity.
  - vm_compute. discriminate.
  - vm_compute. discriminate.
  - reflexivity.
  - reflexivity.
Defined.


Section ClientSecondCall.

Import TAAPIClient TAAPINotions.

Variable net : list event -> event -> outcome.

Lemma key_interval_inj (asset i1 i2 : string) :
  TAAPICache.key asset i1 = TAAPICache.key asset i2 -> i1 = i2.
Proof.
  unfold TAAPICache.key. induction asset as [|c a IH]; intros Heq;
    repeat (first [rewrite append_nil in Heq | rewrite append_cons in Heq]).
  - injection Heq as ->. reflexivity.
  - injection Heq as Heq. apply IH. exact Heq.
Qed.

(** A [get] that hands back data found it fresh and left the cache alone. *)
Lemma get_Some_inv (self : TAAPICache.t) (now : Q) (asset interval : string)
    (d : pyval) :
  fst (TAAPICache.get self now asset interval) = Some d ->
  snd (TAAPICache.get self now asset interval) = self /\
  exists e, TAAPICache._cache self !! TAAPICache.key asset interval = Some e /\
            TAAPICache.data e = d /\
            (now - TAAPICache.timestamp e <= TAAPICache.ttl self)%Q.
Proof.
  unfold TAAPICache.get.
  destruct (TAAPICache._cache self !! TAAPICache.key asset interval) as [e|];
    [|discriminate].
  cbn zeta.
  destruct (negb (Qle_bool (now - TAAPICache.timestamp e) (TAAPICache.ttl self)))
    eqn:Hage; [discriminate|].
  cbn [fst snd]. intros [= <-]. split; [reflexivity|].
  exists e. split; [reflexivity|]. split; [reflexivity|].
  apply age_fresh_iff. exact Hage.
Qed.

Lemma truthy_from_option (o : option pyval) :
  truthy (from_option id PyNone o) = true -> exists d, o = Some d /\ truthy d = true.
Proof.
  destruct o as [d|]; [|discriminate]. intros H. exists d. split; [reflexivity|exact H].
Qed.

Lemma cache_probe_run (self : client) (asset : string) (c : TAAPICache.t)
    (now : Q) (w : list event) :
  enable_cache self = true ->
  cache_probe self asset (State (Some c) now w)
  = (Ret (if truthy (from_option id PyNone (fst (TAAPICache.get c now asset "5m")))
             && truthy (from_option id PyNone
                          (fst (TAAPICache.get
                                  (snd (TAAPICache.get c now asset "5m"))
                                  now asset "4h")))
          then Some (PyDict
                 [("5m", from_option id PyNone (fst (TAAPICache.get c now asset "5m")));
                  ("4h", from_option id PyNone
                           (fst (TAAPICache.get
                                   (snd (TAAPICache.get c now asset "5m"))
                                   now asset "4h")))])
          else None),
     State (Some (snd (TAAPICache.get (snd (TAAPICache.get c now asset "5m"))
                         now asset "4h"))) now w).
Proof.
  intros Hon. unfold cache_probe.
  unfold bind at 1. rewrite cache_on_run. cbn [cache].
  rewrite Hon. cbn [andb].
  replace (bool_decide (is_Some (Some c))) with true
    by (symmetry; apply bool_decide_eq_true; eexists; reflexivity).
  unfold bind, cache_get, ret. cbn [cache clock wire].
  destruct (truthy _ && truthy _); reflexivity.
Qed.

(** A fetch that is not served from the cache makes at least two
    requests. *)
Lemma fetch_fresh_requests (self : client) (asset : string) (s : state) :
  requests_made (wire s) + 2
  <= requests_made (wire (snd (fetch_fresh net self asset s))).
Proof.
  destruct (fetch_bulk_wire net self asset "5m" indicators_5m s eq_refl)
    as (d5 & s1 & k5 & Hb5 & _ & Hw5 & _).
  destruct (fetch_bulk_wire net self asset "4h" indicators_4h
              (State (cache s1) (clock s1 + 30)%Q (wire s1 ++ [Sleep 30])) eq_refl)
    as (d4 & s3 & k4 & Hb4 & _ & Hw4 & _).
  destruct (fetch_fresh_run net self asset s)
    as (d5' & s1' & d4' & s3' & r5 & rlt & Hb5' & Hb4' & _ & _ & Hrun).
  rewrite Hb5 in Hb5'. injection Hb5' as <- <-.
  rewrite Hb4 in Hb4'. injection Hb4' as <- <-.
  assert (Hwire : wire (snd (fetch_fresh net self asset s)) = wire s3).
  { rewrite Hrun. cbn [snd]. destruct (cache s3); [|reflexivity].
    destruct (enable_cache self); reflexivity. }
  rewrite Hwire, Hw4. cbn [wire].
  rewrite (requests_made_rounds (bulk_request self asset "4h" indicators_4h)
             default_backoff _ k4 eq_refl).
  unfold requests_made at 2. rewrite List.filter_app, length_app.
  cbn [List.filter is_request length].
  fold (requests_made (wire s1)). rewrite Hw5.
  rewrite (requests_made_rounds (bulk_request self asset "5m" indicators_5m)
             default_backoff _ k5 eq_refl). lia.
Qed.

(** X13. What a call that went to the provider leaves for the next one,
    with the cache on.  The cache then holds, for both intervals, the
    bundle just returned, stamped with the time of the write.  A later call
    for the same asset that reads the clock at [now'] and finds both
    entries within the ttl returns the same bundles and changes nothing: no
    request, no sleep.  One that finds an entry older than the ttl goes to
    the provider again. *)
Theorem second_call_within_ttl
    (self : client) (asset : string) (s : state) (c : TAAPICache.t) :
  enable_cache self = true ->
  cache s = Some c ->
  wire (snd (fetch_asset_indicators net self asset s)) <> wire s ->
  let out := fetch_asset_indicators net self asset s in
  exists c1 e5 e4,
    cache (snd out) = Some c1 /\
    TAAPICache.ttl c1 = TAAPICache.ttl c /\
    TAAPICache._cache c1 !! TAAPICache.key asset "5m" = Some e5 /\
    TAAPICache._cache c1 !! TAAPICache.key asset "4h" = Some e4 /\
    fst out = Ret (PyDict [("5m", TAAPICache.data e5);
                           ("4h", TAAPICache.data e4)]) /\
    TAAPICache.timestamp e5 = clock (snd out) /\
    TAAPICache.timestamp e4 = clock (snd out) /\
    forall now' : Q,
      let later := State (Some c1) now' (wire (snd out)) in
      ((now' - TAAPICache.timestamp e5 <= TAAPICache.ttl c)%Q ->
       (now' - TAAPICache.timestamp e4 <= TAAPICache.ttl c)%Q ->
       fetch_asset_indicators net self asset later = (fst out, later)) /\
      ((TAAPICache.ttl c < now' - TAAPICache.timestamp e5)%Q \/
       (TAAPICache.ttl c < now' - TAAPICache.timestamp e4)%Q ->
       requests_made (wire (snd out)) + 2
       <= requests_made
            (wire (snd (fetch_asset_indicators net self asset later)))).
Proof.
  intros Hon Hc. destruct s as [c0 now w]. cbn [cache] in Hc. subst c0.
  cbv zeta.
  remember (fetch_asset_indicators net self asset (State (Some c) now w))
    as out eqn:Hout.
  unfold fetch_asset_indicators, bind in Hout.
  rewrite (cache_probe_run self asset c now w Hon) in Hout.
  destruct (truthy (from_option id PyNone (fst (TAAPICache.get c now asset "5m")))
            && truthy (from_option id PyNone
                         (fst (TAAPICache.get
                                 (snd (TAAPICache.get c now asset "5m"))
                                 now asset "4h")))) eqn:Hhit.
  - (* served from the cache: nothing was sent *)
    apply andb_true_iff in Hhit as [Hh5 Hh4].
    apply truthy_from_option in Hh5 as (d5 & Hg5 & Ht5).
    destruct (get_Some_inv c now asset "5m" d5 Hg5) as (Hs5 & _).
    rewrite Hs5 in Hh4, Hout.
    apply truthy_from_option in Hh4 as (d4 & Hg4 & Ht4).
    destruct (get_Some_inv c now asset "4h" d4 Hg4) as (Hs4 & _).
    rewrite Hs4 in Hout. unfold ret in Hout. subst out. cbn [snd wire].
    intros Hsent. contradiction.
  - intros _.
    set (c2 := snd (TAAPICache.get (snd (TAAPICache.get c now asset "5m"))
                      now asset "4h")) in *.
    assert (Httl2 : TAAPICache.ttl c2 = TAAPICache.ttl c).
    { unfold c2. rewrite !get_ttl. reflexivity. }
    destruct (fetch_fresh_run net self asset (State (Some c2) now w))
      as (d5 & s1 & d4 & s3 & r5 & rlt & Hb5 & Hb4 & Ht5 & Ht4 & Hrun).
    destruct (fetch_bulk_wire net self asset "5m" indicators_5m
                (State (Some c2) now w) eq_refl)
      as (d5' & s1' & k5 & Hb5' & _ & _ & Hc1).
    rewrite Hb5 in Hb5'. injection Hb5' as <- <-.
    destruct (fetch_bulk_wire net self asset "4h" indicators_4h
                (State (cache s1) (clock s1 + 30)%Q (wire s1 ++ [Sleep 30])) eq_refl)
      as (d4' & s3' & k4 & Hb4' & _ & _ & Hc3).
    rewrite Hb4 in Hb4'. injection Hb4' as <- <-.
    cbn [cache] in Hc1, Hc3. rewrite Hc1 in Hc3.
    rewrite Hc3, Hon in Hrun. rewrite Hrun in Hout. subst out.
    cbn [fst snd cache clock wire].
    set (c1 := TAAPICache.set (TAAPICache.set c2 (clock s3) asset "5m" r5)
                 (clock s3) asset "4h" rlt).
    assert (Hl5 : TAAPICache._cache c1 !! TAAPICache.key asset "5m"
                  = Some (TAAPICache.Entry (clock s3) r5)).
    { unfold c1, TAAPICache.set. cbn [TAAPICache._cache TAAPICache.ttl].
      rewrite lookup_insert_ne.
      - apply lookup_insert_eq.
      - intros Heq. apply key_interval_inj in Heq. discriminate. }
    assert (Hl4 : TAAPICache._cache c1 !! TAAPICache.key asset "4h"
                  = Some (TAAPICache.Entry (clock s3) rlt)).
    { unfold c1, TAAPICache.set. cbn [TAAPICache._cache TAAPICache.ttl].
      apply lookup_insert_eq. }
    assert (Httl1 : TAAPICache.ttl c1 = TAAPICache.ttl c).
    { unfold c1, TAAPICache.set. cbn [TAAPICache.ttl]. exact Httl2. }
    exists c1, (TAAPICache.Entry (clock s3) r5), (TAAPICache.Entry (clock s3) rlt).
    cbn [TAAPICache.timestamp TAAPICache.data].
    split; [reflexivity|]. split; [exact Httl1|].
    split; [exact Hl5|]. split; [exact Hl4|].
    split; [reflexivity|]. split; [reflexivity|]. split; [reflexivity|].
    intros now'. split.
    + intros Ha5 Ha4.
      apply (fetch_asset_indicators_hit net self asset c1
               (TAAPICache.Entry (clock s3) r5)
               (TAAPICache.Entry (clock s3) rlt) now' (wire s3));
        try assumption;
        cbn [TAAPICache.timestamp TAAPICache.data]; rewrite ?Httl1; assumption.
    + intros Hold.
      assert (Hexp : (TAAPICache.ttl c1 < now' - clock s3)%Q)
        by (rewrite Httl1; destruct Hold as [H | H]; exact H).
      unfold fetch_asset_indicators, bind.
      rewrite (cache_probe_run self asset c1 now' (wire s3) Hon).
      rewrite (get_expired c1 now' asset "5m" (TAAPICache.Entry (clock s3) r5)
                 Hl5 Hexp).
      cbn [fst snd from_option truthy andb].
      apply (fetch_fresh_requests self asset
               (State (Some (snd (TAAPICache.get
                                    (TAAPICache.Cache (TAAPICache.ttl c1)
                                       (delete (TAAPICache.key asset "5m")
                                          (TAAPICache._cache c1)))
                                    now' asset "4h")))
                      now' (wire s3))).
Qed.

End ClientSecondCall.

Lemma second_call_within_ttl_witness :
  let net := fun (_ : list TAAPIClient.event) (_ : TAAPIClient.event) =>
               TAAPIClient.Response 404 None in
  let self := TAAPIClient.Client "k" true in
  let s := TAAPIClient.State (Some (TAAPICache.init 60)) 0 [] in
  let out := TAAPIClient.fetch_asset_indicators net self "BTC" s in
  exists c1 e5 e4,
    TAAPIClient.cache (snd out) = Some c1 /\
    TAAPICache.ttl c1 = 60%Q /\
    TAAPICache._cache c1 !! TAAPICache.key "BTC" "5m" = Some e5 /\
    TAAPICache._cache c1 !! TAAPICache.key "BTC" "4h" = Some e4 /\
    fst out = Ret (PyDict [("5m", TAAPICache.data e5);
                           ("4h", TAAPICache.data e4)]) /\
    TAAPICache.timestamp e5 = TAAPIClient.clock (snd out) /\
    TAAPICache.timestamp e4 = TAAPIClient.clock (snd out) /\
    forall now' : Q,
      let later := TAAPIClient.State (Some c1) now' (TAAPIClient.wire (snd out)) in
      ((now' - TAAPICache.timestamp e5 <= 60)%Q ->
       (now' - TAAPICache.timestamp e4 <= 60)%Q ->
       TAAPIClient.fetch_asset_indicators net self "BTC" later = (fst out, later)) /\
      ((60 < now' - TAAPICache.timestamp e5)%Q \/
       (60 < now' - TAAPICache.timestamp e4)%Q ->
       TAAPIClient.requests_made (TAAPIClient.wire (snd out)) + 2
       <= TAAPIClient.requests_made
            (TAAPIClient.wire
               (snd (TAAPIClient.fetch_asset_indicators net self "BTC" later)))).
Proof.
  intros net self s out.
  apply (second_call_within_ttl net self "BTC" s (TAAPICache.init 60)).
  - reflexivity.
  - reflexivity.
  - vm_compute. discriminate.
Defined.


Section ClientBulk.

Import TAAPIClient TAAPINotions TAAPISingle.

Variable net : list event -> event -> outcome.

Lemma assoc_set_lookup (d : list (string * pyval)) (k k' : string) (v : pyval) :
  assoc (assoc_set d k v) k' = if String.eqb k k' then Some v else assoc d k'.
Proof.
  induction d as [|[k0 v0] d IH]; cbn [assoc assoc_set].
  - reflexivity.
  - destruct (String.eqb k0 k) eqn:H0.
    + apply String.eqb_eq in H0. subst k0. cbn [assoc].
      destruct (String.eqb k k'); reflexivity.
    + cbn [assoc]. rewrite IH.
      destruct (String.eqb k0 k') eqn:H1; [|reflexivity].
      apply String.eqb_eq in H1. subst k0. rewrite String.eqb_sym, H0. reflexivity.
Qed.

Lemma mapM_raises {A B} (f : A -> res B) (l : list A) (a : A) (e : exn) :
  In a l -> f a = Raise e -> exists e', mapM f l = Raise e'.
Proof.
  induction l as [|b l IH]; intros Hin Hf; [destruct Hin|].
  cbn [mapM]. destruct Hin as [-> | Hin].
  - rewrite Hf. exists e. reflexivity.
  - destruct (f b) as [x|e0]; cbn [rbind]; [|exists e0; reflexivity].
    destruct (IH Hin Hf) as [e' ->]. exists e'. reflexivity.
Qed.

(** X14. A configuration entry without an "indicator" key makes
    [fetch_bulk_indicators] return the empty dictionary before anything is
    sent: no request is made and the state is as it was. *)
Theorem bad_config_sends_nothing
    (self : client) (symbol interval : string) (config : list pyval)
    (cfg : pyval) (s : state) :
  In cfg config ->
  dict_contains cfg "indicator" = false ->
  fetch_bulk_indicators net self symbol interval config s = (Ret (PyDict []), s).
Proof.
  intros Hin Hno.
  assert (Hraise : exists e, indicator_def cfg = Raise e).
  { unfold indicator_def, getitem. unfold dict_contains in Hno.
    destruct cfg as [| | | | | |d]; try (eexists; reflexivity).
    destruct (assoc d "indicator"); [discriminate|]. eexists; reflexivity. }
  destruct Hraise as [e He].
  destruct (mapM_raises indicator_def config cfg e Hin He) as [e' Hm].
  unfold fetch_bulk_indicators, try_except, bind, lift, ret. rewrite Hm.
  reflexivity.
Qed.

(** The loop over the items of a bulk response, for items with a string
    id. *)
Lemma parse_items_reported (items : list pyval) (acc : list (string * pyval)) :
  Forall well_formed_item items ->
  exists results,
    foldM parse_item items acc = Ret results /\
    forall k, assoc results k
              = fold_left
                  (fun a item =>
                     match item with
                     | PyDict it =>
                         match assoc it "id" with
                         | Some (PyStr id) =>
                             if String.eqb id k
                             then Some (from_option (fun v => v) PyNone
                                          (assoc it "result"))
                             else a
                         | _ => a
                         end
                     | _ => a
                     end)
                  items (assoc acc k).
Proof.
  intros Hwf. revert acc. induction Hwf as [|item items Hitem _ IH]; intros acc.
  - exists acc. split; [reflexivity|]. intros k. reflexivity.
  - destruct Hitem as (it & id & -> & Hid & Hne).
    assert (Hstep : parse_item acc (PyDict it)
                    = Ret (assoc_set acc id
                             (from_option (fun v => v) PyNone (assoc it "result")))).
    { unfold parse_item, dict_get. rewrite Hid. cbn [rbind truthy].
      destruct (String.eqb id "") eqn:Hempty.
      - apply String.eqb_eq in Hempty. contradiction.
      - cbn [negb]. destruct (assoc it "result"); reflexivity. }
    cbn [foldM]. rewrite Hstep. cbn [rbind].
    destruct (IH (assoc_set acc id
                    (from_option (fun v => v) PyNone (assoc it "result"))))
      as (results & Hrun & Hres).
    exists results. split; [exact Hrun|].
    intros k. rewrite Hres. cbn [fold_left]. rewrite Hid.
    rewrite assoc_set_lookup. reflexivity.
Qed.

(** X15. When the provider answers a bulk request with a dictionary whose
    "data" is a list of items, each a dictionary with a non-empty string id,
    [fetch_bulk_indicators] returns a dictionary that maps every id to the
    "result" of the last item carrying it ([None] when that item has no
    "result"), and has no other key. *)
Theorem bulk_results_by_id
    (self : client) (symbol interval : string) (config inds : list pyval)
    (s : state) (r : list (string * pyval)) (items : list pyval) :
  mapM indicator_def config = Ret inds ->
  fst (_post_with_retry net bulk_url (bulk_payload self symbol interval inds)
         default_retries default_backoff s) = Ret (PyDict r) ->
  assoc r "data" = Some (PyList items) ->
  Forall well_formed_item items ->
  exists results,
    fst (fetch_bulk_indicators net self symbol interval config s)
    = Ret (PyDict results) /\
    forall k, assoc results k = reported items k.
Proof.
  intros Hinds Hpost Hdata Hwf.
  destruct (parse_items_reported items [] Hwf) as (results & Hrun & Hres).
  exists results. split; [|exact Hres].
  unfold fetch_bulk_indicators, try_except, bind, lift, ret. rewrite Hinds.
  destruct (_post_with_retry net bulk_url _ default_retries default_backoff s)
    as [response s1]. cbn [fst] in Hpost. subst response.
  unfold parse_results, isinstance_dict, dict_contains, getitem.
  rewrite Hdata. cbn [andb rbind iter]. rewrite Hrun. reflexivity.
Qed.

(** X16. A response that is not a dictionary, or has no "data" key, makes
    [fetch_bulk_indicators] return the empty dictionary, as does a failure
    of the request layer. *)
Theorem bulk_without_data_is_empty
    (self : client) (symbol interval : string) (config inds : list pyval)
    (s : state) :
  mapM indicator_def config = Ret inds ->
  match fst (_post_with_retry net bulk_url (bulk_payload self symbol interval inds)
               default_retries default_backoff s) with
  | Ret response => dict_contains response "data" = false
  | Raise _ => True
  end ->
  fetch_bulk_indicators net self symbol interval config s
  = (Ret (PyDict []),
     snd (_post_with_retry net bulk_url (bulk_payload self symbol interval inds)
            default_retries default_backoff s)).
Proof.
  intros Hinds Hpost.
  unfold fetch_bulk_indicators, try_except, bind, lift, ret. rewrite Hinds.
  destruct (_post_with_retry net bulk_url _ default_retries default_backoff s)
    as [[response|e] s1]; cbn [fst snd] in *; [|reflexivity].
  unfold parse_results. rewrite Hpost. rewrite andb_false_r. reflexivity.
Qed.

(** What [fetch_series] does with a response is what [_extract_series]
    does with it. *)
Lemma series_of_response_extract (data : pyval) (value_key : string) :
  series_of_response data value_key = _extract_series data value_key.
Proof.
  unfold series_of_response, _extract_series, isinstance_dict, dict_contains,
    getitem.
  destruct data as [| | | | | |d]; cbn [truthy negb andb];
    try reflexivity.
  - destruct b; reflexivity.
  - destruct (negb (z =? 0)%Z); reflexivity.
  - destruct f as [q| |]; cbn [truthy negb]; try reflexivity.
    destruct (negb (Qeq_bool q 0)); reflexivity.
  - destruct (negb (String.eqb s "")); reflexivity.
  - destruct l; reflexivity.
  - destruct d as [|kv d'].
    + reflexivity.
    + cbn [negb]. destruct (assoc (kv :: d') value_key) as [v|]; cbn [rbind].
      * destruct (isinstance_list v); [reflexivity|].
        destruct (match assoc (kv :: d') "error" with Some _ => true | None => false end);
          reflexivity.
      * destruct (match assoc (kv :: d') "error" with Some _ => true | None => false end);
          reflexivity.
Qed.

Lemma value_of_response_extract (data : pyval) (key : string) :
  value_of_response data key = _extract_value data key.
Proof.
  unfold value_of_response, _extract_value, isinstance_dict, dict_contains,
    getitem, dict_get.
  destruct data as [| | | | | |d]; cbn [truthy negb andb];
    try reflexivity.
  - destruct b; reflexivity.
  - destruct (negb (z =? 0)%Z); reflexivity.
  - destruct f as [q| |]; cbn [truthy negb]; try reflexivity.
    destruct (negb (Qeq_bool q 0)); reflexivity.
  - destruct (negb (String.eqb s "")); reflexivity.
  - destruct l; reflexivity.
  - destruct d as [|kv d'].
    + reflexivity.
    + cbn [negb]. destruct (assoc (kv :: d') key) as [v|]; reflexivity.
Qed.

(** X17. [fetch_series] never raises.  It sends one GET through the request
    layer (at most 10 requests) and returns what [_extract_series] makes of
    the response, the empty list when the request layer fails. *)
Theorem fetch_series_normalises
    (self : client) (indicator symbol interval : string) (results : Z)
    (params : option (list (string * pyval))) (value_key : string) (s : state) :
  let base_params :=
    with_params
      [("secret", PyStr (api_key self)); ("exchange", PyStr "binance");
       ("symbol", PyStr symbol); ("interval", PyStr interval);
       ("results", PyInt results)] params in
  let run := _get_with_retry net (base_url +:+ indicator) (PyDict base_params)
               default_retries default_backoff s in
  exists out,
    fetch_series net self indicator symbol interval results params value_key s
    = (Ret (PyList out), snd run) /\
    (forall data, fst run = Ret data ->
                  _extract_series data value_key = Ret (PyList out)) /\
    (forall e, fst run = Raise e -> out = []) /\
    requests_made (wire (snd run)) <= requests_made (wire s) + 10.
Proof.
  cbv zeta.
  unfold fetch_series, get_historical_indicator, try_except, bind, lift, ret.
  destruct (retry_loop_follows_policy net
              (GetRequest (base_url +:+ indicator)
                 (PyDict (with_params
                    [("secret", PyStr (api_key self)); ("exchange", PyStr "binance");
                     ("symbol", PyStr symbol); ("interval", PyStr interval);
                     ("results", PyInt results)] params)) 10)
              default_retries default_backoff s ltac:(unfold default_retries; lia))
    as (k & Hk & _ & _ & _ & Hwire & _ & _).
  fold (_get_with_retry net (base_url +:+ indicator)
          (PyDict (with_params
             [("secret", PyStr (api_key self)); ("exchange", PyStr "binance");
              ("symbol", PyStr symbol); ("interval", PyStr interval);
              ("results", PyInt results)] params))
          default_retries default_backoff s) in Hwire.
  assert (Hcount : requests_made
                     (wire (snd (_get_with_retry net (base_url +:+ indicator)
                        (PyDict (with_params
                           [("secret", PyStr (api_key self));
                            ("exchange", PyStr "binance");
                            ("symbol", PyStr symbol); ("interval", PyStr interval);
                            ("results", PyInt results)] params))
                        default_retries default_backoff s)))
                   <= requests_made (wire s) + 10).
  { rewrite Hwire.
    rewrite (requests_made_rounds
               (GetRequest (base_url +:+ indicator)
                  (PyDict (with_params
                     [("secret", PyStr (api_key self)); ("exchange", PyStr "binance");
                      ("symbol", PyStr symbol); ("interval", PyStr interval);
                      ("results", PyInt results)] params)) 10)
               default_backoff _ k eq_refl).
    unfold default_retries in Hk. lia. }
  destruct (_get_with_retry net (base_url +:+ indicator) _ default_retries
              default_backoff s) as [[data|e] s1]; cbn [fst snd] in *.
  - rewrite series_of_response_extract.
    destruct (extract_series_total data value_key) as [out Hout].
    exists out. rewrite Hout. split; [reflexivity|].
    split; [intros data' [= <-]; exact Hout|].
    split; [intros e [=]|exact Hcount].
  - exists []. split; [reflexivity|].
    split; [intros data [=]|]. split; [reflexivity|exact Hcount].
Qed.

(** X18. [fetch_value] never raises.  It sends one GET through the request
    layer (at most 10 requests) and returns what [_extract_value] makes of
    the response, [None] when the request layer fails. *)
Theorem fetch_value_normalises
    (self : client) (indicator symbol interval : string)
    (params : option (list (string * pyval))) (key : string) (s : state) :
  let base_params :=
    with_params
      [("secret", PyStr (api_key self)); ("exchange", PyStr "binance");
       ("symbol", PyStr symbol); ("interval", PyStr interval)] params in
  let run := _get_with_retry net (base_url +:+ indicator) (PyDict base_params)
               default_retries default_backoff s in
  exists v,
    fetch_value net self indicator symbol interval params key s
    = (Ret v, snd run) /\
    (forall data, fst run = Ret data -> _extract_value data key = Ret v) /\
    (forall e, fst run = Raise e -> v = PyNone) /\
    requests_made (wire (snd run)) <= requests_made (wire s) + 10.
Proof.
  cbv zeta.
  unfold fetch_value, try_except, bind, lift, ret.
  destruct (retry_loop_follows_policy net
              (GetRequest (base_url +:+ indicator)
                 (PyDict (with_params
                    [("secret", PyStr (api_key self)); ("exchange", PyStr "binance");
                     ("symbol", PyStr symbol); ("interval", PyStr interval)]
                    params)) 10)
              default_retries default_backoff s ltac:(unfold default_retries; lia))
    as (k & Hk & _ & _ & _ & Hwire & _ & _).
  fold (_get_with_retry net (base_url +:+ indicator)
          (PyDict (with_params
             [("secret", PyStr (api_key self)); ("exchange", PyStr "binance");
              ("symbol", PyStr symbol); ("interval", PyStr interval)] params))
          default_retries default_backoff s) in Hwire.
  assert (Hcount : requests_made
                     (wire (snd (_get_with_retry net (base_url +:+ indicator)
                        (PyDict (with_params
                           [("secret", PyStr (api_key self));
                            ("exchange", PyStr "binance");
                            ("symbol", PyStr symbol); ("interval", PyStr interval)]
                           params))
                        default_retries default_backoff s)))
                   <= requests_made (wire s) + 10).
  { rewrite Hwire.
    rewrite (requests_made_rounds
               (GetRequest (base_url +:+ indicator)
                  (PyDict (with_params
                     [("secret", PyStr (api_key self)); ("exchange", PyStr "binance");
                      ("symbol", PyStr symbol); ("interval", PyStr interval)]
                     params)) 10)
               default_backoff _ k eq_refl).
    unfold default_retries in Hk. lia. }
  destruct (_get_with_retry net (base_url +:+ indicator) _ default_retries
              default_backoff s) as [[data|e] s1]; cbn [fst snd] in *.
  - rewrite value_of_response_extract.
    destruct (extract_value_total data key) as [v Hv].
    exists v. rewrite Hv. split; [reflexivity|].
    split; [intros data' [= <-]; exact Hv|].
    split; [intros e [=]|exact Hcount].
  - exists PyNone. split; [reflexivity|].
    split; [intros data [=]|]. split; [reflexivity|exact Hcount].
Qed.

End ClientBulk.


Lemma bad_config_sends_nothing_witness :
  let net := fun (_ : list TAAPIClient.event) (_ : TAAPIClient.event) =>
               TAAPIClient.Response 200 (Some (PyDict [])) in
  let s := TAAPIClient.State None 0 [] in
  TAAPIClient.fetch_bulk_indicators net (TAAPIClient.Client "k" false)
    "BTC/USDT" "5m"
    [PyDict [("indicator", PyStr "rsi")]; PyDict [("id", PyStr "ema20")]] s
  = (Ret (PyDict []), s).
Proof.
  intros net s.
  apply (bad_config_sends_nothing net (TAAPIClient.Client "k" false)
           "BTC/USDT" "5m"
           [PyDict [("indicator", PyStr "rsi")]; PyDict [("id", PyStr "ema20")]]
           (PyDict [("id", PyStr "ema20")]) s).
  - right. left. reflexivity.
  - reflexivity.
Defined.

Lemma bulk_results_by_id_witness :
  let items := [PyDict [("id", PyStr "rsi"); ("result", PyInt 1)];
                PyDict [("id", PyStr "ema")];
                PyDict [("id", PyStr "rsi"); ("result", PyInt 2)]] in
  let net := fun (_ : list TAAPIClient.event) (_ : TAAPIClient.event) =>
               TAAPIClient.Response 200 (Some (PyDict [("data", PyList items)])) in
  exists results,
    fst (TAAPIClient.fetch_bulk_indicators net (TAAPIClient.Client "k" false)
           "BTC/USDT" "5m" [PyDict [("indicator", PyStr "rsi")]]
           (TAAPIClient.State None 0 []))
    = Ret (PyDict results) /\
    forall k, assoc results k = TAAPINotions.reported items k.
Proof.
  intros items net.
  apply (bulk_results_by_id net (TAAPIClient.Client "k" false) "BTC/USDT" "5m"
           [PyDict [("indicator", PyStr "rsi")]]
           [PyDict [("id", PyStr "rsi"); ("indicator", PyStr "rsi")]]
           (TAAPIClient.State None 0 []) [("data", PyList items)] items).
  - reflexivity.
  - vm_compute. reflexivity.
  - reflexivity.
  - repeat constructor.
    + exists [("id", PyStr "rsi"); ("result", PyInt 1)], "rsi".
      split; [reflexivity|]. split; [reflexivity | discriminate].
    + exists [("id", PyStr "ema")], "ema".
      split; [reflexivity|]. split; [reflexivity | discriminate].
    + exists [("id", PyStr "rsi"); ("result", PyInt 2)], "rsi".
      split; [reflexivity|]. split; [reflexivity | discriminate].
Defined.

Lemma bulk_without_data_is_empty_witness :
  let net := fun (_ : list TAAPIClient.event) (_ : TAAPIClient.event) =>
               TAAPIClient.Response 200 (Some (PyDict [("error", PyStr "bad key")])) in
  let inds := [PyDict [("id", PyStr "rsi"); ("indicator", PyStr "rsi")]] in
  let s := TAAPIClient.State None 0 [] in
  TAAPIClient.fetch_bulk_indicators net (TAAPIClient.Client "k" false)
    "BTC/USDT" "5m" [PyDict [("indicator", PyStr "rsi")]] s
  = (Ret (PyDict []),
     snd (TAAPIClient._post_with_retry net TAAPIClient.bulk_url
            (TAAPIClient.bulk_payload (TAAPIClient.Client "k" false)
               "BTC/USDT" "5m" inds)
            TAAPIClient.default_retries TAAPIClient.default_backoff s)).
Proof.
  intros net inds s.
  apply (bulk_without_data_is_empty net (TAAPIClient.Client "k" false)
           "BTC/USDT" "5m" [PyDict [("indicator", PyStr "rsi")]] inds s).
  - reflexivity.
  - vm_compute. reflexivity.
Defined.


(** ** Order ids *)

Section OrderIds.

Import OKXOrders.

Lemma py_eq_str_zero (v : pyval) :
  py_eq v (PyStr "0") = match v with PyStr c => String.eqb c "0" | _ => false end.
Proof.
  destruct v as [| b | z | f | s | l | d]; try reflexivity.
  destruct f; reflexivity.
Qed.

Lemma existsb_py_eq_str (s : string) (seen : list pyval) :
  Forall is_str seen ->
  existsb (py_eq (PyStr s)) seen = true <-> In (PyStr s) seen.
Proof.
  intros Hstr. rewrite existsb_exists. split.
  - intros (x & Hin & Heq).
    rewrite Forall_forall in Hstr. destruct (Hstr x) as [t ->].
    { apply list_elem_of_In. exact Hin. }
    cbn in Heq. apply String.eqb_eq in Heq. subst t. exact Hin.
  - intros Hin. exists (PyStr s). split; [exact Hin|].
    cbn. apply String.eqb_refl.
Qed.

(** The set built from strings holds what the list holds, once. *)
Lemma set_add_strings (oids seen : list pyval) :
  Forall is_str oids -> Forall is_str seen -> NoDup seen ->
  (forall v, In v (fold_left set_add oids seen) <-> In v seen \/ In v oids) /\
  NoDup (fold_left set_add oids seen).
Proof.
  intros Hoids. revert seen.
  induction Hoids as [|x oids [s ->] _ IH]; intros seen Hseen Hnd.
  - cbn [fold_left]. split; [|exact Hnd].
    intros v. split; [intros H; left; exact H | intros [H | []]; exact H].
  - cbn [fold_left].
    destruct (existsb (py_eq (PyStr s)) seen) eqn:Hex.
    + assert (Hadd : set_add seen (PyStr s) = seen)
        by (unfold set_add; rewrite Hex; reflexivity).
      rewrite Hadd.
      apply (existsb_py_eq_str s seen Hseen) in Hex.
      destruct (IH seen Hseen Hnd) as [Hin Hnd']. split; [|exact Hnd'].
      intros v. rewrite Hin. cbn [In]. split.
      * intros [H | H]; [left; exact H | right; right; exact H].
      * intros [H | [<- | H]]; [left; exact H | left; exact Hex | right; exact H].
    + assert (Hadd : set_add seen (PyStr s) = (seen ++ [PyStr s])%list)
        by (unfold set_add; rewrite Hex; reflexivity).
      rewrite Hadd.
      assert (Hnot : ~ In (PyStr s) seen).
      { intros Hin. apply (existsb_py_eq_str s seen Hseen) in Hin. congruence. }
      destruct (IH (seen ++ [PyStr s])%list) as [Hin Hnd'].
      * apply Forall_app. split; [exact Hseen|].
        constructor; [exists s; reflexivity | constructor].
      * apply NoDup_app. split; [exact Hnd|]. split.
        -- intros x Hx Hx'. apply list_elem_of_In in Hx, Hx'.
           destruct Hx' as [<- | []]. contradiction.
        -- apply NoDup_singleton.
      * split; [|exact Hnd'].
        intros v. rewrite Hin, in_app_iff. cbn [In]. tauto.
Qed.

Lemma list_set_strings (oids : list pyval) :
  Forall is_str oids ->
  exists out, list_set oids = Ret out /\
              (forall v, In v out <-> In v oids) /\ NoDup out.
Proof.
  intros Hstr. unfold list_set.
  assert (Hhash : forallb hashable oids = true).
  { apply forallb_forall. intros x Hx. rewrite Forall_forall in Hstr.
    destruct (Hstr x) as [s ->]; [apply list_elem_of_In; exact Hx | reflexivity]. }
  rewrite Hhash. eexists. split; [reflexivity|].
  destruct (set_add_strings oids [] Hstr) as [Hin Hnd];
    [constructor | apply NoDup_nil_2 |].
  split; [|exact Hnd].
  intros v. rewrite Hin. cbn [In]. tauto.
Qed.

Lemma entry_oids_well_formed (acc : list pyval) (d : pyval) :
  well_formed_entry d -> entry_oids acc d = Ret (acc ++ entry_ids d)%list.
Proof.
  intros (e & -> & _ & _). unfold entry_oids, py_in, getitem, entry_ids.
  destruct (assoc e "ordId") as [a|], (assoc e "algoId") as [b|];
    cbn [rbind option_list app].
  - rewrite <- app_assoc. reflexivity.
  - reflexivity.
  - reflexivity.
  - rewrite app_nil_r. reflexivity.
Qed.

Lemma entries_oids_well_formed (ds : list pyval) (acc : list pyval) :
  Forall well_formed_entry ds ->
  foldM entry_oids ds acc = Ret (acc ++ flat_map entry_ids ds)%list.
Proof.
  intros Hwf. revert acc. induction Hwf as [|d ds Hd _ IH]; intros acc.
  - cbn. rewrite app_nil_r. reflexivity.
  - cbn [foldM flat_map]. rewrite (entry_oids_well_formed acc d Hd).
    cbn [rbind]. rewrite IH, <- app_assoc. reflexivity.
Qed.

Lemma entry_ids_str (ds : list pyval) :
  Forall well_formed_entry ds -> Forall is_str (flat_map entry_ids ds).
Proof.
  induction 1 as [|d ds (e & -> & Hord & Halgo) _ IH]; [constructor|].
  cbn [flat_map entry_ids]. apply Forall_app. split; [|exact IH].
  apply Forall_app. split.
  - destruct (assoc e "ordId") as [a|]; [|constructor].
    constructor; [apply Hord; reflexivity | constructor].
  - destruct (assoc e "algoId") as [a|]; [|constructor].
    constructor; [apply Halgo; reflexivity | constructor].
Qed.

(** The loop over the entries of ["info"]. *)
Lemma info_loop (d : list (string * pyval)) (acc : list pyval) :
  well_formed_data d ->
  (do? raw_data <- dict_get_default (PyDict d) "data" (PyList []) ;
   if truthy raw_data
   then do? ds <- TAAPIClient.iter raw_data ; foldM entry_oids ds acc
   else Ret acc)
  = Ret (acc ++ flat_map entry_ids (data_entries d))%list.
Proof.
  intros Hwf. unfold data_entries, dict_get_default.
  destruct (assoc d "data") as [v|] eqn:Hdata; cbn [rbind].
  - destruct (Hwf v Hdata) as (ds & -> & Hds).
    destruct ds as [|d0 ds].
    + cbn. rewrite app_nil_r. reflexivity.
    + cbn [truthy TAAPIClient.iter rbind].
      apply entries_oids_well_formed. exact Hds.
  - cbn. rewrite app_nil_r. reflexivity.
Qed.

(** The loop over the entries of the result itself, with what follows
    it. *)
Lemma data_loop {A} (d : list (string * pyval)) (acc : list pyval)
    (k : list pyval -> res A) :
  well_formed_data d ->
  (do? has_data <- (do? dd <- dict_get (PyDict d) "data" ; Ret (truthy dd)) ;
   do? oids <- (if has_data
                then do? data <- getitem (PyDict d) "data" ;
                     do? ds <- TAAPIClient.iter data ;
                     foldM entry_oids ds acc
                else Ret acc) ;
   k oids)
  = k (acc ++ flat_map entry_ids (data_entries d))%list.
Proof.
  intros Hwf. unfold data_entries, dict_get, getitem.
  destruct (assoc d "data") as [v|] eqn:Hdata; cbn [rbind].
  - destruct (Hwf v Hdata) as (ds & -> & Hds).
    destruct ds as [|d0 ds].
    + cbn. rewrite app_nil_r. reflexivity.
    + cbn [truthy TAAPIClient.iter rbind].
      rewrite (entries_oids_well_formed _ acc Hds). reflexivity.
  - cbn. rewrite app_nil_r. reflexivity.
Qed.

Lemma data_entries_str (d : list (string * pyval)) :
  well_formed_data d -> Forall is_str (flat_map entry_ids (data_entries d)).
Proof.
  intros Hwf. unfold data_entries.
  destruct (assoc d "data") as [v|] eqn:Hdata; [|constructor].
  destruct (Hwf v Hdata) as (ds & -> & Hds).
  apply entry_ids_str. exact Hds.
Qed.

Lemma named_ids_str (order_result : list (string * pyval)) :
  well_formed_result order_result -> Forall is_str (named_ids order_result).
Proof.
  intros (Hid & Hinfo & Hdata).
  unfold named_ids. apply Forall_app. split.
  - destruct (assoc order_result "id") as [v|]; [|constructor].
    constructor; [apply Hid; reflexivity | constructor].
  - apply Forall_app. split.
    + destruct (assoc order_result "info") as [[| | | | | |info]|];
        try constructor.
      apply data_entries_str, Hinfo. reflexivity.
    + destruct (assoc order_result "code") as [[| | | |c| |]|];
        try constructor.
      destruct (String.eqb c "0") eqn:Hc; [|constructor].
      apply String.eqb_eq in Hc. subst c.
      apply data_entries_str, Hdata. reflexivity.
Qed.

(** Before the last line, [extract_oids] has gathered the ids the result
    names, in their order. *)
Lemma extract_oids_gathers (order_result : list (string * pyval)) :
  well_formed_result order_result ->
  extract_oids order_result = list_set (named_ids order_result).
Proof.
  intros (Hid & Hinfo & Hdata).
  unfold extract_oids, named_ids. cbv zeta.
  (* the "id" *)
  assert (H0 : (if dict_contains (PyDict order_result) "id"
                then do? v <- getitem (PyDict order_result) "id" ; Ret [v]
                else Ret [])
               = Ret (option_list (assoc order_result "id"))).
  { unfold dict_contains, getitem.
    destruct (assoc order_result "id"); reflexivity. }
  rewrite H0. cbn [rbind]. clear H0.
  generalize (option_list (assoc order_result "id")). intros oids0.
  (* the entries of "info" *)
  unfold dict_contains at 1. unfold getitem at 1 2.
  destruct (assoc order_result "info") as [[| | | | | |info]|] eqn:Hi;
    cbn [rbind isinstance_dict];
    try rewrite (info_loop info oids0 (Hinfo info eq_refl));
    cbn [rbind app].
  all: unfold dict_get at 1;
    destruct (assoc order_result "code") as [[| ? | ? | ? | c | ? | ?]|] eqn:Hc;
    cbn [rbind]; rewrite ?py_eq_str_zero.
  all: try (cbn [rbind]; rewrite ?app_nil_r; reflexivity).
  all: destruct (String.eqb c "0") eqn:Hc0;
    [ apply String.eqb_eq in Hc0; subst c;
      rewrite (data_loop order_result _ list_set (Hdata eq_refl)); cbn [rbind];
      rewrite ?app_nil_r, <- ?app_assoc; reflexivity
    | cbn [rbind]; rewrite ?app_nil_r; reflexivity ].
Qed.

(** X19. On an order result as CCXT or the exchange sends it (string ids,
    "data" a list of dictionaries), [extract_oids] returns the ids the
    result names - its "id", the "ordId" and "algoId" of the entries of its
    "info", and those of its own entries when its code is "0" - each of them
    once. *)
Theorem extract_oids_names_each_id_once (order_result : list (string * pyval)) :
  well_formed_result order_result ->
  exists out,
    extract_oids order_result = Ret out /\
    (forall v, In v out <-> In v (named_ids order_result)) /\
    NoDup out.
Proof.
  intros Hwf.
  destruct (list_set_strings _ (named_ids_str order_result Hwf))
    as (out & Hset & Hin & Hnd).
  exists out. rewrite (extract_oids_gathers order_result Hwf).
  split; [exact Hset|]. split; assumption.
Qed.

End OrderIds.


Lemma extract_oids_names_each_id_once_witness :
  let order_result :=
    [("id", PyStr "42");
     ("info", PyDict [("code", PyStr "0");
                      ("data", PyList [PyDict [("ordId", PyStr "42")];
                                       PyDict [("algoId", PyStr "77")]])])] in
  exists out,
    OKXOrders.extract_oids order_result = Ret out /\
    (forall v, In v out <-> In v (OKXOrders.named_ids order_result)) /\
    NoDup out.
Proof.
  intros order_result.
  apply (extract_oids_names_each_id_once order_result).
  split; [|split].
  - intros v Hv. vm_compute in Hv. injection Hv as <-. exists "42". reflexivity.
  - intros info Hinfo. vm_compute in Hinfo. injection Hinfo as <-.
    intros v Hv. vm_compute in Hv. injection Hv as <-.
    eexists. split; [reflexivity|].
    repeat constructor.
    + eexists. split; [reflexivity|]. split.
      * intros v Hv. vm_compute in Hv. injection Hv as <-. exists "42". reflexivity.
      * intros v Hv. vm_compute in Hv. discriminate.
    + eexists. split; [reflexivity|]. split.
      * intros v Hv. vm_compute in Hv. discriminate.
      * intros v Hv. vm_compute in Hv. injection Hv as <-. exists "77". reflexivity.
  - intros Hcode. vm_compute in Hcode. discriminate.
Defined.

(** ** Cancelling orders and reading prices *)

Section Cancelling.

Import OKXOrders.

Variable world : list query -> query -> option pyval.
Variable exn_str : exn -> string.
Variable float_of_str : string -> option pyfloat.

Lemma ensure_markets_loaded (s : state) :
  OKXAPI.markets_loaded (session s) = true ->
  _ensure_markets world s = (Ret tt, s).
Proof.
  intros Hloaded. destruct s as [sess h]. cbn [session] in Hloaded.
  unfold _ensure_markets, in_session, OKXAPI._ensure_markets, bind, gets.
  cbn [session history]. rewrite Hloaded. cbn [negb ret fst snd].
  rewrite drop_all. cbn [map]. rewrite app_nil_r. reflexivity.
Qed.

Lemma ensure_markets_load (s : state) :
  OKXAPI.markets_loaded (session s) = false ->
  _ensure_markets world s
  = (match world (history s) (core OKXAPI.load_markets) with
     | Some _ => Ret tt
     | None => Raise ExchangeError
     end,
     State (OKXAPI.State
              (match world (history s) (core OKXAPI.load_markets) with
               | Some _ => true
               | None => false
               end)
              (OKXAPI._position_mode (session s))
              (OKXAPI.calls (session s) ++ [OKXAPI.load_markets]))
           (history s ++ [core OKXAPI.load_markets])).
Proof.
  intros Hloaded. destruct s as [sess h]. cbn [session history] in *.
  unfold _ensure_markets, in_session, OKXAPI._ensure_markets, bind, gets,
    try_except, OKXAPI.exchange_call, modify, raise, answer_from.
  cbn [session history]. rewrite Hloaded. cbn [negb].
  rewrite drop_all. cbn [map]. rewrite app_nil_r.
  destruct (world h (core OKXAPI.load_markets)) as [v|];
    cbn [fst snd OKXAPI.calls OKXAPI.markets_loaded OKXAPI._position_mode];
    rewrite drop_app_length; rewrite ?Hloaded; reflexivity.
Qed.

(** [_ensure_markets] returns when the market table can be had, and leaves
    it loaded. *)
Lemma ensure_markets_ready (s : state) :
  markets_available world s ->
  _ensure_markets world s = (Ret tt, ready world s) /\
  OKXAPI.markets_loaded (session (ready world s)) = true.
Proof.
  intros Havail. unfold ready.
  destruct (OKXAPI.markets_loaded (session s)) eqn:Hloaded.
  - rewrite (ensure_markets_loaded s Hloaded). split; [reflexivity|exact Hloaded].
  - destruct Havail as [Htrue | [v Hv]]; [congruence|].
    rewrite (ensure_markets_load s Hloaded), Hv. split; reflexivity.
Qed.

(** It raises when it cannot. *)
Lemma ensure_markets_raises (s : state) :
  (exists e, fst (_ensure_markets world s) = Raise e) <->
  OKXAPI.markets_loaded (session s) = false /\
  world (history s) (core OKXAPI.load_markets) = None.
Proof.
  destruct (OKXAPI.markets_loaded (session s)) eqn:Hloaded.
  - rewrite (ensure_markets_loaded s Hloaded). cbn [fst]. split.
    + intros [e He]. discriminate.
    + intros [H _]. discriminate.
  - rewrite (ensure_markets_load s Hloaded). cbn [fst].
    destruct (world (history s) (core OKXAPI.load_markets)) as [v|]; split.
    + intros [e He]. discriminate.
    + intros [_ H]. discriminate.
    + intros _. split; reflexivity.
    + intros _. exists ExchangeError. reflexivity.
Qed.

(** A method that starts with [_ensure_markets] and cannot raise after it
    raises exactly when [_ensure_markets] does. *)
Lemma guarded_raises {A} (k : M state A) (s : state) :
  (forall s', returns k s') ->
  (exists e, fst ((do _ <- _ensure_markets world ; k) s) = Raise e) <->
  OKXAPI.markets_loaded (session s) = false /\
  world (history s) (core OKXAPI.load_markets) = None.
Proof.
  intros Hk. rewrite <- ensure_markets_raises. unfold bind.
  destruct (_ensure_markets world s) as [[[]|e] s1]; cbn [fst].
  - destruct (Hk s1) as (a & s2 & ->). cbn [fst]. split; intros [e He]; discriminate.
  - split; intros _; exists e; reflexivity.
Qed.

Lemma exchange_query_run (q : query) (s : state) :
  exchange_query world q s
  = (match world (history s) q with Some v => Ret v | None => Raise ExchangeError end,
     State (session s) (history s ++ [q])).
Proof. unfold exchange_query. destruct (world (history s) q); reflexivity. Qed.

Lemma read_float_returns (q : query) (field : pyval -> res pyval) (s : state) :
  returns (read_float world float_of_str q field) s.
Proof.
  unfold read_float. apply returns_try_except. intros e s'. apply returns_ret.
Qed.

Lemma cancel_order_body_returns (asset oid : string) (s : state) :
  returns
    (try_except
       (exchange_query world
          (exchange_cancel_order oid (OKXAPI._get_symbol asset)))
       (fun _ =>
          try_except
            (exchange_query world
               (private_post_trade_cancel_algo_order
                  [algo_id (OKXAPI._get_inst_id asset) (PyStr oid)]))
            (fun e => ret (PyDict [("code", PyStr "error");
                                   ("msg", PyStr (exn_str e))])))) s.
Proof.
  apply returns_try_except. intros _ s1.
  apply returns_try_except. intros e s2. apply returns_ret.
Qed.

(** X20. The five methods that start with [_ensure_markets] outside their
    [try] - [cancel_order], [cancel_all_orders], [get_current_price],
    [get_open_interest], [get_funding_rate] - raise in exactly one case: the
    market table is not loaded and loading it fails.  Every other failure
    ends in their error value. *)
Theorem raise_only_without_markets (asset oid : string) (s : state) :
  let no_markets :=
    OKXAPI.markets_loaded (session s) = false /\
    world (history s) (core OKXAPI.load_markets) = None in
  ((exists e, fst (cancel_order world exn_str asset oid s) = Raise e)
   <-> no_markets) /\
  ((exists e, fst (cancel_all_orders world exn_str asset s) = Raise e)
   <-> no_markets) /\
  ((exists e, fst (get_current_price world float_of_str asset s) = Raise e)
   <-> no_markets) /\
  ((exists e, fst (get_open_interest world float_of_str asset s) = Raise e)
   <-> no_markets) /\
  ((exists e, fst (get_funding_rate world float_of_str asset s) = Raise e)
   <-> no_markets).
Proof.
  cbv zeta. split; [|split; [|split; [|split]]].
  - unfold cancel_order. apply (guarded_raises _ s). intros s'.
    apply returns_try_except. intros _ s1.
    apply returns_try_except. intros e s2. apply returns_ret.
  - unfold cancel_all_orders. apply (guarded_raises _ s). intros s'.
    apply returns_try_except. intros e s1. apply returns_ret.
  - unfold get_current_price. apply (guarded_raises _ s). intros s'.
    apply returns_bind.
    destruct (read_float_returns
                (fetch_ticker (OKXAPI._get_symbol asset))
                (fun ticker => getitem ticker "last") s') as (r & s1 & Hr).
    exists r, s1. split; [exact Hr | apply returns_ret].
  - unfold get_open_interest. apply (guarded_raises _ s). intros s'.
    apply returns_bind.
    destruct (read_float_returns
                (fetch_open_interest (OKXAPI._get_symbol asset))
                (fun res => dict_get_default res "openInterestAmount" (PyInt 0)) s')
      as (r & s1 & Hr).
    exists r, s1. split; [exact Hr | apply returns_ret].
  - unfold get_funding_rate. apply (guarded_raises _ s). intros s'.
    apply returns_bind.
    destruct (read_float_returns
                (fetch_funding_rate (OKXAPI._get_symbol asset))
                (fun res => dict_get_default res "fundingRate" (PyInt 0)) s')
      as (r & s1 & Hr).
    exists r, s1. split; [exact Hr | apply returns_ret].
Qed.

(** X21. [cancel_order], once the markets are there.  It asks for the
    regular cancel of [oid] on the symbol of the asset; when that succeeds
    its answer is returned and nothing else is sent.  When it fails, the
    algo cancel of the same id on the instrument of the asset is sent, and
    its answer returned; when that fails too, the error dictionary is
    returned. *)
Theorem cancel_order_falls_back (asset oid : string) (s : state) :
  markets_available world s ->
  let s0 := ready world s in
  let regular := exchange_cancel_order oid (OKXAPI._get_symbol asset) in
  let algo :=
    private_post_trade_cancel_algo_order
      [PyDict [("instId", PyStr (OKXAPI._get_inst_id asset));
               ("algoId", PyStr oid)]] in
  let out := cancel_order world exn_str asset oid s in
  session (snd out) = session s0 /\
  match world (history s0) regular with
  | Some v =>
      fst out = Ret v /\ history (snd out) = (history s0 ++ [regular])%list
  | None =>
      history (snd out) = (history s0 ++ [regular; algo])%list /\
      fst out = match world (history s0 ++ [regular]) algo with
                | Some v => Ret v
                | None => Ret (PyDict [("code", PyStr "error");
                                       ("msg", PyStr (exn_str ExchangeError))])
                end
  end.
Proof.
  intros Havail. cbv zeta.
  destruct (ensure_markets_ready s Havail) as [Hrun _].
  unfold cancel_order, bind. rewrite Hrun.
  unfold try_except. rewrite exchange_query_run.
  destruct (world (history (ready world s))
              (exchange_cancel_order oid (OKXAPI._get_symbol asset))) as [v|].
  - cbn [fst snd session history]. repeat split; reflexivity.
  - rewrite exchange_query_run. cbn [session history]. unfold algo_id.
    destruct (world _ _) as [v|]; cbn [fst snd session history ret];
      rewrite <- app_assoc; repeat split; reflexivity.
Qed.

(** X22. [cancel_all_orders] stops at the first failure: when the cancel
    of the regular orders fails, the pending algo orders (take-profit and
    stop-loss) are neither listed nor cancelled, and the error dictionary is
    returned. *)
Theorem cancel_all_stops_at_failure (asset : string) (s : state) :
  markets_available world s ->
  let s0 := ready world s in
  let regular := exchange_cancel_all_orders (OKXAPI._get_symbol asset) in
  world (history s0) regular = None ->
  cancel_all_orders world exn_str asset s
  = (Ret (PyDict [("status", PyStr "error");
                  ("msg", PyStr (exn_str ExchangeError))]),
     State (session s0) (history s0 ++ [regular])).
Proof.
  intros Havail. cbv zeta. intros Hfail.
  destruct (ensure_markets_ready s Havail) as [Hrun _].
  unfold cancel_all_orders. unfold bind at 1. rewrite Hrun.
  unfold try_except. unfold bind at 1. rewrite exchange_query_run, Hfail.
  reflexivity.
Qed.

(** X23. [cancel_all_orders] when the regular cancel succeeds and the
    exchange lists pending algo orders (code "0", a non-empty list of
    entries that each carry an "algoId"): one algo cancel is sent, naming
    the instrument of the asset with each listed id, in the order listed;
    the result is "ok" when it succeeds and the error dictionary when it
    fails. *)
Theorem cancel_all_names_pending_ids
    (asset : string) (s : state) (r0 : pyval) (res : list (string * pyval))
    (os : list pyval) :
  markets_available world s ->
  let s0 := ready world s in
  let inst_id := OKXAPI._get_inst_id asset in
  let regular := exchange_cancel_all_orders (OKXAPI._get_symbol asset) in
  let pending :=
    private_get_trade_orders_algo_pending
      [("instType", "SWAP"); ("instId", inst_id)] in
  let algo :=
    private_post_trade_cancel_algo_order
      (map (fun a => PyDict [("instId", PyStr inst_id); ("algoId", a)])
           (ids_under "algoId" os)) in
  world (history s0) regular = Some r0 ->
  world (history s0 ++ [regular]) pending = Some (PyDict res) ->
  assoc res "code" = Some (PyStr "0") ->
  assoc res "data" = Some (PyList os) ->
  os <> [] ->
  Forall (fun o => exists e a, o = PyDict e /\ assoc e "algoId" = Some a) os ->
  cancel_all_orders world exn_str asset s
  = (match world (history s0 ++ [regular; pending]) algo with
     | Some _ => Ret (PyDict [("status", PyStr "ok")])
     | None => Ret (PyDict [("status", PyStr "error");
                            ("msg", PyStr (exn_str ExchangeError))])
     end,
     State (session s0) (history s0 ++ [regular; pending; algo])).
Proof.
  intros Havail. cbv zeta. intros Hreg Hpend Hcode Hdata Hne Hos.
  destruct (ensure_markets_ready s Havail) as [Hrun _].
  assert (Hids : mapM (fun o => do? a <- getitem o "algoId" ;
                                Ret (algo_id (OKXAPI._get_inst_id asset) a)) os
                 = Ret (map (fun a => PyDict [("instId",
                                               PyStr (OKXAPI._get_inst_id asset));
                                              ("algoId", a)])
                            (ids_under "algoId" os))).
  { clear Hdata Hne. induction Hos as [|o os (e & a & -> & Ha) _ IH];
      [reflexivity|].
    cbn [mapM getitem]. rewrite Ha. cbn [rbind]. rewrite IH. cbn [rbind].
    unfold ids_under. cbn. rewrite Ha. reflexivity. }
  assert (Hnonempty : exists x xs,
             map (fun a => PyDict [("instId", PyStr (OKXAPI._get_inst_id asset));
                                   ("algoId", a)])
                 (ids_under "algoId" os) = x :: xs).
  { destruct Hos as [|o os' (e & a & -> & Ha) _]; [contradiction|].
    unfold ids_under. cbn. rewrite Ha. cbn. eexists; eexists; reflexivity. }
  destruct Hnonempty as (x & xs & Hxs).
  unfold cancel_all_orders. unfold bind at 1. rewrite Hrun.
  unfold try_except.
  unfold bind at 1. rewrite exchange_query_run, Hreg.
  unfold bind at 1. rewrite exchange_query_run. cbn [history session].
  rewrite Hpend.
  unfold bind at 1. unfold lift at 1. unfold dict_get at 1. rewrite Hcode.
  unfold bind at 1. rewrite py_eq_str_zero. cbn [String.eqb Ascii.eqb Bool.eqb].
  unfold bind at 1. unfold lift at 1. unfold dict_get at 1. rewrite Hdata.
  unfold ret at 1.
  assert (Htruthy : truthy (PyList os) = true).
  { destruct os; [contradiction | reflexivity]. }
  rewrite Htruthy.
  unfold bind at 1. unfold bind at 1. unfold lift at 1. unfold getitem at 1.
  rewrite Hdata.
  unfold bind at 1. unfold lift at 1. cbn [TAAPIClient.iter].
  unfold bind at 1. unfold lift at 1. rewrite Hids. rewrite Hxs.
  unfold bind at 1. rewrite exchange_query_run. cbn [history session].
  rewrite <- Hxs. rewrite <- !app_assoc. cbn [app].
  destruct (world (history (ready world s) ++ _)
              (private_post_trade_cancel_algo_order _)) as [v|]; reflexivity.
Qed.

End Cancelling.


Section Readers.

Import OKXOrders.

Variable world : list query -> query -> option pyval.
Variable float_of_str : string -> option pyfloat.

(** X24. The error values of the three readers, once the markets are
    there.  A failed ticker call makes [get_current_price] return 0.0, which
    a caller cannot tell from a price.  A failed call makes
    [get_open_interest] and [get_funding_rate] return [None], but an answer
    that lacks the field makes them return 0.0. *)
Theorem readers_error_values (asset : string) (s : state) :
  markets_available world s ->
  let s0 := ready world s in
  let symbol := OKXAPI._get_symbol asset in
  (world (history s0) (fetch_ticker symbol) = None ->
   fst (get_current_price world float_of_str asset s) = Ret (PyFloat (FFin 0))) /\
  (world (history s0) (fetch_open_interest symbol) = None ->
   fst (get_open_interest world float_of_str asset s) = Ret PyNone) /\
  (world (history s0) (fetch_funding_rate symbol) = None ->
   fst (get_funding_rate world float_of_str asset s) = Ret PyNone) /\
  (forall d, world (history s0) (fetch_open_interest symbol) = Some (PyDict d) ->
             assoc d "openInterestAmount" = None ->
             fst (get_open_interest world float_of_str asset s)
             = Ret (PyFloat (FFin 0))) /\
  (forall d, world (history s0) (fetch_funding_rate symbol) = Some (PyDict d) ->
             assoc d "fundingRate" = None ->
             fst (get_funding_rate world float_of_str asset s)
             = Ret (PyFloat (FFin 0))).
Proof.
  intros Havail. cbv zeta.
  destruct (ensure_markets_ready world s Havail) as [Hrun _].
  split; [|split; [|split; [|split]]].
  - intros Hfail. unfold get_current_price. unfold bind at 1. rewrite Hrun.
    unfold bind, read_float, try_except, bind. rewrite exchange_query_run, Hfail.
    reflexivity.
  - intros Hfail. unfold get_open_interest. unfold bind at 1. rewrite Hrun.
    unfold bind, read_float, try_except, bind. rewrite exchange_query_run, Hfail.
    reflexivity.
  - intros Hfail. unfold get_funding_rate. unfold bind at 1. rewrite Hrun.
    unfold bind, read_float, try_except, bind. rewrite exchange_query_run, Hfail.
    reflexivity.
  - intros d Hres Hd. unfold get_open_interest. unfold bind at 1. rewrite Hrun.
    unfold bind, read_float, try_except, bind. rewrite exchange_query_run, Hres.
    unfold lift, dict_get_default. rewrite Hd. reflexivity.
  - intros d Hres Hd. unfold get_funding_rate. unfold bind at 1. rewrite Hrun.
    unfold bind, read_float, try_except, bind. rewrite exchange_query_run, Hres.
    unfold lift, dict_get_default. rewrite Hd. reflexivity.
Qed.

End Readers.

Lemma cancel_order_falls_back_witness :
  let world := fun (_ : list OKXOrders.query) (q : OKXOrders.query) =>
                 match q with
                 | OKXOrders.exchange_cancel_order _ _ => None
                 | _ => Some (PyDict [("code", PyStr "0")])
                 end in
  let exn_str := fun _ : exn => "order not found" in
  let s := OKXOrders.State OKXAPI.init [] in
  let s0 := OKXOrders.ready world s in
  let regular := OKXOrders.exchange_cancel_order "77" "BTC/USDT:USDT" in
  let algo :=
    OKXOrders.private_post_trade_cancel_algo_order
      [PyDict [("instId", PyStr "BTC-USDT-SWAP"); ("algoId", PyStr "77")]] in
  let out := OKXOrders.cancel_order world exn_str "BTC" "77" s in
  OKXOrders.history (snd out) = (OKXOrders.history s0 ++ [regular; algo])%list /\
  fst out = Ret (PyDict [("code", PyStr "0")]).
Proof.
  intros world exn_str s s0 regular algo out.
  refine (proj2 (cancel_order_falls_back world exn_str "BTC" "77" s _)).
  right. eexists. reflexivity.
Defined.

Lemma cancel_all_stops_at_failure_witness :
  let world := fun (_ : list OKXOrders.query) (q : OKXOrders.query) =>
                 match q with
                 | OKXOrders.core _ => Some PyNone
                 | _ => None
                 end in
  let exn_str := fun _ : exn => "network error" in
  let s := OKXOrders.State OKXAPI.init [] in
  OKXOrders.cancel_all_orders world exn_str "BTC" s
  = (Ret (PyDict [("status", PyStr "error"); ("msg", PyStr "network error")]),
     OKXOrders.State (OKXOrders.session (OKXOrders.ready world s))
       (OKXOrders.history (OKXOrders.ready world s)
        ++ [OKXOrders.exchange_cancel_all_orders "BTC/USDT:USDT"])).
Proof.
  intros world exn_str s.
  apply (cancel_all_stops_at_failure world exn_str "BTC" s).
  - right. eexists. reflexivity.
  - reflexivity.
Defined.

Lemma cancel_all_names_pending_ids_witness :
  let listing :=
    [("code", PyStr "0");
     ("data", PyList [PyDict [("algoId", PyStr "7")];
                      PyDict [("algoId", PyStr "8")]])] in
  let world := fun (_ : list OKXOrders.query) (q : OKXOrders.query) =>
                 match q with
                 | OKXOrders.private_get_trade_orders_algo_pending _ =>
                     Some (PyDict listing)
                 | _ => Some PyNone
                 end in
  let exn_str := fun _ : exn => "network error" in
  let s := OKXOrders.State OKXAPI.init [] in
  let s0 := OKXOrders.ready world s in
  OKXOrders.cancel_all_orders world exn_str "BTC" s
  = (Ret (PyDict [("status", PyStr "ok")]),
     OKXOrders.State (OKXOrders.session s0)
       (OKXOrders.history s0
        ++ [OKXOrders.exchange_cancel_all_orders "BTC/USDT:USDT";
            OKXOrders.private_get_trade_orders_algo_pending
              [("instType", "SWAP"); ("instId", "BTC-USDT-SWAP")];
            OKXOrders.private_post_trade_cancel_algo_order
              [PyDict [("instId", PyStr "BTC-USDT-SWAP"); ("algoId", PyStr "7")];
               PyDict [("instId", PyStr "BTC-USDT-SWAP"); ("algoId", PyStr "8")]]])).
Proof.
  intros listing world exn_str s s0.
  apply (cancel_all_names_pending_ids world exn_str "BTC" s PyNone listing
           [PyDict [("algoId", PyStr "7")]; PyDict [("algoId", PyStr "8")]]).
  - right. eexists. reflexivity.
  - reflexivity.
  - reflexivity.
  - reflexivity.
  - reflexivity.
  - discriminate.
  - repeat constructor; eexists; eexists; split; reflexivity.
Defined.

Lemma readers_error_values_witness :
  let world := fun (_ : list OKXOrders.query) (q : OKXOrders.query) =>
                 match q with
                 | OKXOrders.fetch_ticker _ => None
                 | OKXOrders.fetch_open_interest _ => None
                 | _ => Some (PyDict [])
                 end in
  let float_of_str := fun _ : string => @None pyfloat in
  let s := OKXOrders.State OKXAPI.init [] in
  fst (OKXOrders.get_current_price world float_of_str "BTC" s)
  = Ret (PyFloat (FFin 0)) /\
  fst (OKXOrders.get_open_interest world float_of_str "BTC" s) = Ret PyNone /\
  fst (OKXOrders.get_funding_rate world float_of_str "BTC" s)
  = Ret (PyFloat (FFin 0)).
Proof.
  intros world float_of_str s.
  destruct (readers_error_values world float_of_str "BTC" s
              (or_intror (ex_intro _ (PyDict []) eq_refl)))
    as (Hprice & Hoi & _ & _ & Hfr).
  split; [apply Hprice; reflexivity|].
  split; [apply Hoi; reflexivity|].
  apply (Hfr []); reflexivity.
Defined.


Section ClientTime.

Import TAAPIClient TAAPINotions.

Variable net : list event -> event -> outcome.

Lemma iter_backoff (k : nat) (c : Q) :
  (Nat.iter k (fun c => c + default_backoff) c
   == c + 5 * inject_Z (Z.of_nat k))%Q.
Proof.
  induction k as [|k IH].
  - cbn. ring.
  - rewrite Nat2Z.inj_succ. unfold Z.succ. rewrite inject_Z_plus.
    cbn [Nat.iter].
    apply Qeq_trans with (c + 5 * inject_Z (Z.of_nat k) + default_backoff)%Q.
    + apply Qplus_comp; [exact IH | apply Qeq_refl].
    + unfold default_backoff. change (inject_Z 1) with 1%Q. ring.
Qed.

Lemma fetch_bulk_clock (self : client) (symbol interval : string)
    (config : list pyval) (s : state) :
  mapM indicator_def config = Ret config ->
  exists k,
    k < 10 /\
    (clock (snd (fetch_bulk_indicators net self symbol interval config s))
     == clock s + 5 * inject_Z (Z.of_nat k))%Q.
Proof.
  intros Hinds.
  rewrite (fetch_bulk_state net self symbol interval config config s Hinds).
  destruct (retry_loop_follows_policy net
              (PostRequest bulk_url (bulk_payload self symbol interval config) 15)
              default_retries default_backoff s ltac:(unfold default_retries; lia))
    as (k & Hk & _ & _ & _ & _ & Hclock & _).
  exists k. split; [exact Hk|].
  unfold _post_with_retry. rewrite Hclock. apply iter_backoff.
Qed.

(** X25. The time a fresh fetch spends asleep: the 30 seconds between the
    two horizons, and 5 seconds for each retry.  It is never less than 30
    seconds and never more than 120. *)
Theorem fresh_fetch_sleep_time (self : client) (asset : string) (s : state) :
  (clock s + 30 <= clock (snd (fetch_fresh net self asset s)))%Q /\
  (clock (snd (fetch_fresh net self asset s)) <= clock s + 120)%Q.
Proof.
  destruct (fetch_fresh_run net self asset s)
    as (d5 & s1 & d4 & s3 & r5 & rlt & Hb5 & Hb4 & _ & _ & Hrun).
  destruct (fetch_bulk_clock self (asset +:+ "/USDT") "5m" indicators_5m s eq_refl)
    as (k5 & Hk5 & Hc5).
  destruct (fetch_bulk_clock self (asset +:+ "/USDT") "4h" indicators_4h
              (State (cache s1) (clock s1 + 30)%Q (wire s1 ++ [Sleep 30])) eq_refl)
    as (k4 & Hk4 & Hc4).
  rewrite Hb5 in Hc5. rewrite Hb4 in Hc4. cbn [snd clock] in Hc5, Hc4.
  assert (Hclock : clock (snd (fetch_fresh net self asset s)) = clock s3).
  { rewrite Hrun. cbn [snd]. destruct (cache s3); [|reflexivity].
    destruct (enable_cache self); reflexivity. }
  rewrite Hclock, Hc4, Hc5.
  assert (H5lo : (0 <= inject_Z (Z.of_nat k5))%Q)
    by (change 0%Q with (inject_Z 0); rewrite <- Zle_Qle; lia).
  assert (H5hi : (inject_Z (Z.of_nat k5) <= 9)%Q)
    by (change 9%Q with (inject_Z 9); rewrite <- Zle_Qle; lia).
  assert (H4lo : (0 <= inject_Z (Z.of_nat k4))%Q)
    by (change 0%Q with (inject_Z 0); rewrite <- Zle_Qle; lia).
  assert (H4hi : (inject_Z (Z.of_nat k4) <= 9)%Q)
    by (change 9%Q with (inject_Z 9); rewrite <- Zle_Qle; lia).
  split; lra.
Qed.

End ClientTime.


(** ** The size of a market order, on doubles *)

Section OrderSize.

Import SpecFloat OKXDouble.

Variable answer : list OKXAPI.call -> OKXAPI.call -> option pyval.
Variable markets : string -> option Market.






Lemma get_contract_value_double (symbol : string) (s : OKXAPI.state) :
  OKXAPI.markets_loaded s = true ->
  _get_contract_value answer markets symbol s
  = (Ret (contract_value_of markets symbol), s).
Proof.
  intros Hloaded.
  unfold _get_contract_value, OKXAPI._ensure_markets, bind, gets.
  rewrite Hloaded. cbn [negb]. unfold ret, try_except, raise, contract_value_of.
  destruct (markets symbol) as [market|]; [|reflexivity].
  destruct (contractSize market); reflexivity.
Qed.

(** The run of [_place_market_order] on a session that can have the market
    table. *)
Lemma place_market_order_double_run (asset side : string) (amount : float64)
    (s : OKXAPI.state) :
  OKXAPI.markets_available answer s ->
  let symbol := OKXAPI._get_symbol asset in
  let s2 := OKXAPI.prepared answer s in
  _place_market_order answer markets asset side amount s
  = match size_in_contracts amount (contract_value_of markets symbol) with
    | Raise e => (Raise e, s2)
    | Ret sz_contracts =>
        if (sz_contracts =? 0)%Z then (Ret OKXAPI.too_small, s2)
        else OKXAPI.exchange_call answer
               (OKXAPI.create_order symbol "market" side sz_contracts
                  ([("tdMode", "cross")] ++
                   match OKXAPI._position_mode s2 with
                   | Some OKXAPI.long_short_mode =>
                       [("posSide",
                         if String.eqb side "buy" then "long" else "short")]
                   | _ => []
                   end)%list) s2
    end.
Proof.
  intros Havail.
  destruct (prepared_ok answer s Havail) as (H1 & H2 & Hloaded & _ & _).
  cbv zeta. unfold _place_market_order.
  unfold bind at 1. rewrite H1. unfold bind at 1. rewrite H2.
  unfold bind at 1. rewrite (get_contract_value_double _ _ Hloaded).
  unfold bind at 1. unfold lift.
  destruct (size_in_contracts amount _) as [sz|e]; [|reflexivity].
  destruct (sz =? 0)%Z; [reflexivity|].
  rewrite try_except_reraise. reflexivity.
Qed.


(** X8. [place_buy_order] and [place_sell_order] submit a market order of
    their side, for the size the code computes, in cross margin mode; in
    long/short mode a buy carries posSide [long] and a sell posSide [short],
    in net mode neither carries a posSide.  (For a size that is not 0, on a
    session that has or can load the market table.) *)
Theorem buy_sell_order_params
    (asset : string) (amount : float64) (n : Z) (s : OKXAPI.state) :
  OKXAPI.markets_available answer s ->
  size_in_contracts amount (contract_value_of markets (OKXAPI._get_symbol asset))
  = Ret n ->
  n <> 0%Z ->
  let s2 := OKXAPI.prepared answer s in
  let pos_side (label : string) :=
    match OKXAPI._position_mode s2 with
    | Some OKXAPI.long_short_mode => Some label
    | _ => None
    end in
  (exists params,
     OKXAPI.calls (snd (place_buy_order answer markets asset amount s))
     = (OKXAPI.calls s2
        ++ [OKXAPI.create_order (OKXAPI._get_symbol asset) "market" "buy" n
              params])%list /\
     OKXAPI.param "tdMode" params = Some "cross" /\
     OKXAPI.param "posSide" params = pos_side "long") /\
  (exists params,
     OKXAPI.calls (snd (place_sell_order answer markets asset amount s))
     = (OKXAPI.calls s2
        ++ [OKXAPI.create_order (OKXAPI._get_symbol asset) "market" "sell" n
              params])%list /\
     OKXAPI.param "tdMode" params = Some "cross" /\
     OKXAPI.param "posSide" params = pos_side "short").
Proof.
  intros Havail Hsize Hn. cbv zeta.
  apply Z.eqb_neq in Hn.
  pose proof (place_market_order_double_run asset "buy" amount s Havail) as Hbuy.
  pose proof (place_market_order_double_run asset "sell" amount s Havail) as Hsell.
  cbv zeta in Hbuy, Hsell. rewrite Hsize, Hn in Hbuy, Hsell.
  unfold place_buy_order, place_sell_order. rewrite Hbuy, Hsell.
  unfold OKXAPI.exchange_call. cbn [OKXAPI.calls].
  split; eexists; (split; [destruct (answer _ _); reflexivity|]);
    destruct (OKXAPI._position_mode (OKXAPI.prepared answer s)) as [[|]|];
    split; reflexivity.
Qed.

End OrderSize.



Lemma buy_sell_order_params_witness :
  let answer := fun (_ : list OKXAPI.call) (c : OKXAPI.call) =>
                  match c with
                  | OKXAPI.private_get_account_config =>
                      Some (OKXAPI.account_config "long_short_mode")
                  | _ => Some (PyDict [("code", PyStr "0")])
                  end in
  let markets := fun _ : string =>
                   Some {| OKXDouble.contractSize := Some OKXDouble.double_0_01 |} in
  let s2 := OKXAPI.prepared answer OKXAPI.init in
  (exists params,
     OKXAPI.calls
       (snd (OKXDouble.place_buy_order answer markets "BTC"
               OKXDouble.double_0_25 OKXAPI.init))
     = (OKXAPI.calls s2
        ++ [OKXAPI.create_order "BTC/USDT:USDT" "market" "buy" 25 params])%list /\
     OKXAPI.param "tdMode" params = Some "cross" /\
     OKXAPI.param "posSide" params = Some "long") /\
  (exists params,
     OKXAPI.calls
       (snd (OKXDouble.place_sell_order answer markets "BTC"
               OKXDouble.double_0_25 OKXAPI.init))
     = (OKXAPI.calls s2
        ++ [OKXAPI.create_order "BTC/USDT:USDT" "market" "sell" 25 params])%list /\
     OKXAPI.param "tdMode" params = Some "cross" /\
     OKXAPI.param "posSide" params = Some "short").
Proof.
  intros answer markets s2.
  apply (buy_sell_order_params answer markets "BTC" OKXDouble.double_0_25 25
           OKXAPI.init).
  - right. eexists. reflexivity.
  - vm_compute. reflexivity.
  - discriminate.
Defined.
